(** * DontREADME: ingestion and retrieval pipeline

    A shallow embedding of the document pipeline of the repository:

    - [utils/text_splitter.py]   (module [SmartTextSplitter]),
    - [utils/validators.py]      (module [InputValidator]),
    - [utils/performance.py]     (module [PerformanceMonitor]),
    - [app/components/vectorstore.py]
        (modules [HuggingFaceAPIEmbeddings] and
         [EnhancedVectorStoreManager]).

    Python strings are modelled as their UTF-8 byte sequences ([string]);
    the substring test [in] on code points and on UTF-8 bytes agree.
    Python floats are IEEE binary64 numbers ([float]).  Dynamically typed
    values (JSON bodies, metadata values) are the type [pyval].
    Exceptions are values of type [exn]; a computation that can raise
    returns [exn + A], and one that also acts on the outside world (HTTP
    requests, sleeping, the Chroma store, the monitor's history) is a
    function [world -> (exn + A) * world], the state surviving a raise as
    it does in Python. *)

From Stdlib Require Import ZArith Floats Uint63 Ascii String.
From stdpp Require Import base list strings gmap pretty sorting.

Set Warnings "-inexact-float,-register-all".
Local Open Scope string_scope.
Local Open Scope list_scope.

(** ** Python values *)

Inductive pyval : Type :=
| VNone
| VBool (b : bool)
| VInt (n : Z)
| VFloat (x : float)
| VStr (s : string)
| VList (l : list pyval)
| VTuple (l : list pyval)
| VDict (d : list (string * pyval))
| VObject (type_name text : string).
(** [VDict]: a dict nested in a value, with string keys, in insertion order
    (as [json] reads and prints objects).  [VObject c s]: an instance of
    any other class [c] (a set, a datetime, ...) whose [str()] is [s]. *)

(** A dict whose order of keys the code never looks at (a document's
    metadata, a result dict) is a finite map from its string keys:
    [m !! k] is [m.get(k)], [<[k:=v]> m] is [m[k] = v], and a dict display
    [{k1: v1, ...}] is [list_to_map [(k1, v1); ...]]. *)
Abbreviation pydict := (gmap string pyval).

(** [m.get(k, dflt)] *)
Definition dict_get_default (k : string) (dflt : pyval) (m : pydict) : pyval :=
  default dflt (m !! k).

(** [k in m] *)
Definition dict_has (k : string) (m : pydict) : bool :=
  bool_decide (is_Some (m !! k)).

(** langchain's [Document]. *)
Record Document : Type := mkDocument {
  page_content : string;
  metadata : pydict
}.

(** Truth value of a Python value ([if v:], [not v]). *)
Definition py_truthy (v : pyval) : bool :=
  match v with
  | VNone => false
  | VBool b => b
  | VInt n => negb (n =? 0)%Z
  | VFloat x => negb (PrimFloat.eqb x 0)
  | VStr s => negb (String.eqb s EmptyString)
  | VList l | VTuple l => negb (bool_decide (l = []))
  | VDict d => negb (bool_decide (d = []))
  | VObject _ _ => true
  end.

(** Exceptions, that is instances of [Exception] (what [except
    Exception] catches): the class and the message ([str(e)]). *)
Inductive exn : Type := Exception (cls msg : string).

Definition exn_str (e : exn) : string := let 'Exception _ m := e in m.

Definition ValueError := Exception "ValueError".
Definition TypeError := Exception "TypeError".
Definition IndexError := Exception "IndexError".
Definition KeyError := Exception "KeyError".

(** ** Strings *)

Definition NL : string := String "010"%char EmptyString.

(** [sub in s] *)
Fixpoint str_contains (sub s : string) : bool :=
  String.prefix sub s
  || match s with
     | EmptyString => false
     | String _ s' => str_contains sub s'
     end.

(** A UTF-8 continuation byte (10xxxxxx). *)
Definition is_continuation (c : ascii) : bool :=
  (128 <=? nat_of_ascii c)%nat && (nat_of_ascii c <? 192)%nat.

(** [len(s)]: the number of code points, that is of bytes that are not
    continuation bytes. *)
Fixpoint py_len (s : string) : Z :=
  match s with
  | EmptyString => 0
  | String c s' => (if is_continuation c then 0 else 1) + py_len s'
  end%Z.

(** [list(s)]: the code points of [s], each a leading byte with the
    continuation bytes that follow it. *)
Definition code_points (s : string) : list string :=
  let '(pending, done) :=
    fold_right
      (fun c '(pending, done) =>
         if is_continuation c then (String c pending, done)
         else (EmptyString, String c pending :: done))
      (EmptyString, []) (list_ascii_of_string s) in
  if String.eqb pending EmptyString then done else pending :: done.

(** [sep.join(l)] *)
Fixpoint str_join (sep : string) (l : list string) : string :=
  match l with
  | [] => EmptyString
  | [s] => s
  | s :: l' => s +:+ sep +:+ str_join sep l'
  end.

(** [max(xs, key=key)] on a non-empty sequence [x :: xs]: the first element
    whose key is maximal. *)
Definition py_max_key {A} (key : A -> Z) (x : A) (xs : list A) : A :=
  fold_left (fun best y => if (key best <? key y)%Z then y else best) xs x.

(** [max(xs)] on a non-empty sequence of integers. *)
Definition py_max (xs : list Z) : Z :=
  match xs with
  | x :: xs' => py_max_key id x xs'
  | [] => 0%Z
  end.

(** [sorted(l, key=key, reverse=True)]: stable, so elements with equal
    keys keep their order ([x], which comes first, goes before the
    elements of equal key). *)
Fixpoint insert_desc {A} (key : A -> Z) (x : A) (l : list A) : list A :=
  match l with
  | [] => [x]
  | y :: l' =>
      if (key y <=? key x)%Z then x :: y :: l' else y :: insert_desc key x l'
  end.

Definition sorted_desc {A} (key : A -> Z) (l : list A) : list A :=
  fold_right (insert_desc key) [] l.

(** ** The run-time libraries

    What the code calls and the repository does not define: methods of
    [str] that depend on the Unicode tables, the regular expressions of
    [re], langchain's [RecursiveCharacterTextSplitter], and the printers
    [str()] and [json.dumps].  The embedding is parametric in them. *)

(** The arguments [create_splitter] gives the langchain splitter. *)
Record RecursiveCharacterTextSplitter : Type := mkSplitter {
  rc_chunk_size : Z;
  rc_chunk_overlap : Z;
  rc_separators : list string;
  rc_keep_separator : bool
}.

Inductive re_flag : Type := MULTILINE | IGNORECASE.

Class Runtime : Type := {
  (** [s.lower()] *)
  str_lower : string -> string;
  (** [s.strip()] *)
  str_strip : string -> string;
  (** [re.sub(pattern, repl, s)] *)
  re_sub : string -> string -> string -> string;
  (** [re.search(pattern, s, flag)] found a match *)
  re_search : string -> string -> re_flag -> bool;
  (** [re.findall(pattern, s)] *)
  re_findall : string -> string -> list string;
  (** [splitter.split_text(s)] *)
  split_text : RecursiveCharacterTextSplitter -> string -> list string;
  (** [str(v)] *)
  py_str : pyval -> string;
  (** the text [json.dumps(v)] returns for a serializable [v] *)
  json_encode : pyval -> string;
  (** [hash(s)] of a string, in a process whose hash seed is the first
      argument: CPython salts the hashes of strings with a seed it draws
      when the interpreter starts *)
  py_hash : Z -> string -> Z
}.

(** ** utils/text_splitter.py *)

Module SmartTextSplitter.
Section WithRuntime.
Context `{Runtime}.

(** [self.separators] *)
Definition separators : list (string * list string) :=
  [ ("default",   [NL +:+ NL; NL; ". "; "! "; "? "; " "; EmptyString]);
    ("academic",  [NL +:+ NL; NL; ". "; "; "; ", "; " "; EmptyString]);
    ("technical", [NL +:+ NL; NL; "." +:+ NL; ". "; ":" +:+ NL; ": "; " ";
                   EmptyString]);
    ("legal",     [NL +:+ NL; NL; ". "; "; "; " - "; " "; EmptyString]) ].

Fixpoint assoc {A} (k : string) (l : list (string * A)) : option A :=
  match l with
  | [] => None
  | (k', v) :: l' => if String.eqb k k' then Some v else assoc k l'
  end.

Definition academic_keywords : list string :=
  ["abstract"; "résumé"; "introduction"; "conclusion"; "références";
   "bibliographie"].
Definition technical_keywords : list string :=
  ["api"; "fonction"; "class"; "def "; "import"; "documentation"; "manuel"].
Definition legal_keywords : list string :=
  ["article"; "clause"; "alinéa"; "considérant"; "attendu"; "arrêté"].

(** [sum(1 for keyword in keywords if keyword in text_lower)] *)
Definition keyword_score (keywords : list string) (text_lower : string) : Z :=
  fold_right Z.add 0%Z
    ((fun _ => 1%Z) <$> filter (fun k => str_contains k text_lower = true) keywords).

(** The dict [scores] of [detect_document_type], in insertion order. *)
Definition scores (text : string) : list (string * Z) :=
  let text_lower := str_lower text in
  [ ("academic",  keyword_score academic_keywords text_lower);
    ("technical", keyword_score technical_keywords text_lower);
    ("legal",     keyword_score legal_keywords text_lower) ].

(** [scores.get] *)
Definition scores_get (sc : list (string * Z)) (k : string) : Z :=
  default 0%Z (assoc k sc).

Definition detect_document_type (text : string) : string :=
  let sc := scores text in
  let max_score := py_max sc.*2 in
  if (2 <=? max_score)%Z
  then match sc.*1 with
       | k :: ks => py_max_key (scores_get sc) k ks
       | [] => "default"
       end
  else "default".

(** The splitter [create_splitter] asks langchain for.  The constructor
    of langchain refuses, with a [ValueError], a chunk size that is not
    positive and an overlap that is negative or above the chunk size:
    the record stands for the splitter on the sizes it accepts. *)
Definition create_splitter (chunk_size chunk_overlap : Z) (document_type : string)
  : RecursiveCharacterTextSplitter :=
  let default_seps := default [] (assoc "default" separators) in
  let seps :=
    if String.eqb document_type "auto" then default_seps
    else default default_seps (assoc document_type separators) in
  mkSplitter chunk_size chunk_overlap seps true.

Definition _preprocess_text (text : string) : string :=
  let text := re_sub "\s+" " " text in
  let text := re_sub "\n\s*\n" (NL +:+ NL) text in
  let text := re_sub "([.!?])\s*([A-Z])" "\1\n\2" text in
  str_strip text.

Definition _clean_chunk (chunk : string) : string :=
  let chunk := str_strip chunk in
  let chunk := re_sub "\n\s*\n\s*\n" (NL +:+ NL) chunk in
  let chunk := re_sub "^[.!?;:,\s]+" EmptyString chunk in
  chunk.

Definition smart_split (text : string) (chunk_size chunk_overlap : Z)
    (preserve_structure : bool) : list string :=
  let doc_type := detect_document_type text in
  let text := if preserve_structure then _preprocess_text text else text in
  let splitter := create_splitter chunk_size chunk_overlap doc_type in
  let chunks := split_text splitter text in
  let cleaned_chunks := _clean_chunk <$> chunks in
  filter (fun chunk => str_strip chunk <> EmptyString) cleaned_chunks.

Definition structure_patterns : list string :=
  ["^\d+\."; "^[A-Z][.]"; "^-\s"; "^\*\s"; "^\w+:\s"].

Definition _has_structure_markers (chunk : string) : bool :=
  existsb (fun pattern => re_search pattern chunk MULTILINE) structure_patterns.

Definition stop_words : list string :=
  ["le"; "la"; "les"; "un"; "une"; "des"; "de"; "du"; "et"; "ou"; "à";
   "dans"; "sur"; "pour"; "par"; "avec"; "sans"; "sous"; "que"; "qui";
   "quoi"; "dont"; "où"; "ce"; "cette"; "ces"; "est"; "sont";
   "the"; "a"; "an"; "and"; "or"; "but"; "in"; "on"; "at"; "to"; "for";
   "of"; "with"; "by"; "is"; "are"].

(** [word_freq[word] = word_freq.get(word, 0) + 1] on a dict in insertion
    order. *)
Fixpoint count_word (word : string) (freq : list (string * Z)) : list (string * Z) :=
  match freq with
  | [] => [(word, 1%Z)]
  | (w, n) :: freq' =>
      if String.eqb word w then (w, (n + 1)%Z) :: freq'
      else (w, n) :: count_word word freq'
  end.

Definition _extract_keywords (chunk : string) (max_keywords : nat) : list string :=
  let words :=
    re_findall "\b[a-zA-ZàâäéèêëïîôöùûüÿçÀÂÄÉÈÊËÏÎÔÖÙÛÜŸÇ]{3,}\b" (str_lower chunk) in
  let word_freq :=
    fold_left
      (fun freq word =>
         if negb (bool_decide (word ∈ stop_words)) && (2 <? py_len word)%Z
         then count_word word freq else freq)
      words [] in
  let sorted_words := sorted_desc snd word_freq in
  (take max_keywords sorted_words).*1.

(** The metadata dict built for chunk [i] of [chunks]. *)
Definition chunk_metadata (filename doc_type : string) (chunks : list string)
    (i : nat) (chunk : string) : pydict :=
  let len_chunks := Z.of_nat (length chunks) in
  let metadata : pydict := list_to_map
    [ ("filename", VStr filename);
      ("chunk_id", VInt (Z.of_nat i));
      ("total_chunks", VInt len_chunks);
      ("document_type", VStr doc_type);
      ("chunk_size", VInt (py_len chunk));
      ("chunk_position",
        VStr (if (Z.of_nat i =? 0)%Z then "start"
              else if (Z.of_nat i =? len_chunks - 1)%Z then "end"
              else "middle"));
      ("contains_structure", VBool (_has_structure_markers chunk)) ] in
  let keywords := _extract_keywords chunk 5 in
  match keywords with
  | [] => metadata
  | _ :: _ => <["keywords" := VList (VStr <$> keywords)]> metadata
  end.

Definition split_documents_with_metadata (text filename : string)
    (chunk_size chunk_overlap : Z) : list Document :=
  let chunks := smart_split text chunk_size chunk_overlap true in
  let doc_type := detect_document_type text in
  imap (fun i chunk =>
          mkDocument chunk (chunk_metadata filename doc_type chunks i chunk))
       chunks.

End WithRuntime.
End SmartTextSplitter.

(** ** utils/validators.py *)

Module InputValidator.
Section WithRuntime.
Context `{Runtime}.

Definition validate_chunk_size (chunk_size : Z) : bool * option string :=
  if (chunk_size <? 100)%Z then
    (false, Some "Taille des chunks trop petite (minimum 100)")
  else if (4000 <? chunk_size)%Z then
    (false, Some "Taille des chunks trop grande (maximum 4000)")
  else (true, None).

Definition suspicious_patterns : list string :=
  ["<script"; "javascript:"; "eval\("; "exec\("].

Definition validate_question (question : string) : bool * option string :=
  if String.eqb question EmptyString
     || String.eqb (str_strip question) EmptyString then
    (false, Some "Question vide")
  else
    let question := str_strip question in
    if (py_len question <? 3)%Z then
      (false, Some "Question trop courte (minimum 3 caractères)")
    else if (1000 <? py_len question)%Z then
      (false, Some "Question trop longue (maximum 1000 caractères)")
    else if existsb (fun pattern => re_search pattern question IGNORECASE)
                    suspicious_patterns then
      (false, Some "Question contient des éléments suspects")
    else (true, None).

End WithRuntime.
End InputValidator.

(** ** The outside world *)

(** What [requests.post] gives back: a response, with its status code and
    what [response.json()] then returns or raises, or an exception. *)
Inductive http_result : Type :=
| HttpResponse (status_code : Z) (json : exn + pyval)
| HttpFailure (e : exn).

Record PerformanceMetrics : Type := mkMetrics {
  timestamp : float;
  operation : string;
  duration : float;
  memory_usage : float;
  cpu_usage : float;
  success : bool;
  error_message : option string
}.

(** An entry of a Chroma collection. *)
Record StoredEntry : Type := mkEntry {
  entry_content : string;
  entry_metadata : pydict;
  entry_embedding : pyval
}.

(** The behaviour of what lies outside the code: the endpoint, the
    clock and the gauges, the store, and the seed the interpreter started
    with.  Each oracle is asked in turn: the [n]-th request, reading or
    store operation gets the [n]-th answer. *)
Class Environment : Type := {
  (** the remote endpoint's answer to the [n]-th POST, given its ["inputs"] *)
  remote : nat -> pyval -> http_result;
  (** [time.time()] (and [datetime.now()]) at the [n]-th reading *)
  time_time : nat -> float;
  (** [psutil.Process().memory_info().rss / 1024 / 1024] at the [n]-th reading *)
  process_memory_mb : nat -> float;
  (** [psutil.cpu_percent()] at the [n]-th reading *)
  cpu_percent : nat -> float;
  (** the exception the [n]-th operation on the Chroma store raises, if any *)
  store_fault : nat -> option exn;
  (** the positions, among the entries it was given, of those that the
      [n]-th operation on the store, a write that raises, had stored by
      then *)
  written_before_fault : nat -> list nat;
  (** the seed of the string hashes of the process ([PYTHONHASHSEED], or
      drawn at random when the interpreter starts) *)
  hash_seed : Z;
  (** the positions, in a collection, of the entries a similarity search
      for a query vector and a [k] returns, best first *)
  nearest : pyval -> list StoredEntry -> Z -> list nat
}.

(** The state: the environment's side ([requests] sent, [sleeps] taken,
    [readings] made, [store_ops] attempted, the persistent [collections])
    and the fields of the manager object and of its monitor. *)
Record world : Type := mkWorld {
  requests : list pyval;           (* the "inputs" of each POST, oldest first *)
  sleeps : list Z;                 (* the arguments of time.sleep, oldest first *)
  readings : nat;
  store_ops : nat;
  collections : gmap string (list StoredEntry);
  embeddings : bool;               (* self.embeddings is set *)
  vectorstore : option string;     (* self.vectorstore, bound to a collection *)
  metrics_history : list PerformanceMetrics;
  max_history : Z
}.

Definition set_requests (x : list pyval) (w : world) : world :=
  mkWorld x (sleeps w) (readings w) (store_ops w) (collections w)
          (embeddings w) (vectorstore w) (metrics_history w) (max_history w).
Definition set_sleeps (x : list Z) (w : world) : world :=
  mkWorld (requests w) x (readings w) (store_ops w) (collections w)
          (embeddings w) (vectorstore w) (metrics_history w) (max_history w).
Definition set_readings (x : nat) (w : world) : world :=
  mkWorld (requests w) (sleeps w) x (store_ops w) (collections w)
          (embeddings w) (vectorstore w) (metrics_history w) (max_history w).
Definition set_store_ops (x : nat) (w : world) : world :=
  mkWorld (requests w) (sleeps w) (readings w) x (collections w)
          (embeddings w) (vectorstore w) (metrics_history w) (max_history w).
Definition set_collections (x : gmap string (list StoredEntry)) (w : world) : world :=
  mkWorld (requests w) (sleeps w) (readings w) (store_ops w) x
          (embeddings w) (vectorstore w) (metrics_history w) (max_history w).
Definition set_embeddings (x : bool) (w : world) : world :=
  mkWorld (requests w) (sleeps w) (readings w) (store_ops w) (collections w)
          x (vectorstore w) (metrics_history w) (max_history w).
Definition set_vectorstore (x : option string) (w : world) : world :=
  mkWorld (requests w) (sleeps w) (readings w) (store_ops w) (collections w)
          (embeddings w) x (metrics_history w) (max_history w).
Definition set_metrics_history (x : list PerformanceMetrics) (w : world) : world :=
  mkWorld (requests w) (sleeps w) (readings w) (store_ops w) (collections w)
          (embeddings w) (vectorstore w) x (max_history w).

(** *** Computations *)

(** Pure code that can raise. *)
Definition result (A : Type) : Type := exn + A.

#[global] Instance result_ret : MRet result := fun A x => inr x.
#[global] Instance result_bind : MBind result := fun A B f m =>
  match m with inl e => inl e | inr x => f x end.
#[global] Instance result_fmap : FMap result := fun A B f m =>
  match m with inl e => inl e | inr x => inr (f x) end.

(** Code that acts on the world and can raise. *)
Definition M (A : Type) : Type := world -> result A * world.

#[global] Instance M_ret : MRet M := fun A x w => (inr x, w).
#[global] Instance M_bind : MBind M := fun A B f m w =>
  match m w with
  | (inl e, w') => (inl e, w')
  | (inr x, w') => f x w'
  end.

(** [raise e] *)
Definition raise {A} (e : exn) : M A := fun w => (inl e, w).

(** A pure result, in the world. *)
Definition lift {A} (r : result A) : M A := fun w => (r, w).

(** [try: body / except Exception as e: handler(e)] *)
Definition try_except {A} (body : M A) (handler : exn -> M A) : M A := fun w =>
  match body w with
  | (inl e, w') => handler e w'
  | (inr x, w') => (inr x, w')
  end.

(** The outcome of [body], raised or returned, as a value. *)
Definition outcome {A} (body : M A) : M (result A) := fun w =>
  let '(r, w') := body w in (inr r, w').

Definition get_world : M world := fun w => (inr w, w).
Definition modify_world (f : world -> world) : M unit := fun w => (inr tt, f w).

Section WithEnvironment.
Context `{Environment}.

(** [requests.post(url, json={"inputs": inputs})]: the response object, as
    its status code and the outcome of [response.json()]. *)
Definition requests_post (inputs : pyval) : M (Z * result pyval) := fun w =>
  let w' := set_requests (requests w ++ [inputs]) w in
  match remote (length (requests w)) inputs with
  | HttpResponse status_code json => (inr (status_code, json), w')
  | HttpFailure e => (inl e, w')
  end.

(** [time.sleep(seconds)] *)
Definition time_sleep (seconds : Z) : M unit :=
  modify_world (fun w => set_sleeps (sleeps w ++ [seconds]) w).

(** One reading of a clock or gauge. *)
Definition read (gauge : nat -> float) : M float := fun w =>
  (inr (gauge (readings w)), set_readings (S (readings w)) w).

(** One operation on the Chroma store that reads it, or changes it in
    one step (opening the client, getting, creating or deleting a
    collection): raises if the environment says so, and then leaves the
    store as it was. *)
Definition store_op {A} (op : M A) : M A := fun w =>
  let w' := set_store_ops (S (store_ops w)) w in
  match store_fault (store_ops w) with
  | Some e => (inl e, w')
  | None => op w'
  end.

(** What the [n]-th operation on the store, a write that raises, had
    stored of the [items] it was given. *)
Definition written_of {A} (n : nat) (items : list A) : list A :=
  omap (fun i => items !! i) (written_before_fault n).

(** An operation that writes [items] to the store with [write]: it is
    not atomic, and when it raises the items stored by then stay
    stored. *)
Definition store_write {A} (items : list A) (write : list A -> world -> world)
  : M unit := fun w =>
  let w' := set_store_ops (S (store_ops w)) w in
  match store_fault (store_ops w) with
  | Some e => (inl e, write (written_of (store_ops w) items) w')
  | None => (inr tt, write items w')
  end.

End WithEnvironment.

(** ** utils/performance.py *)

(** [l[start:]] *)
Definition py_slice_from {A} (start : Z) (l : list A) : list A :=
  let len := Z.of_nat (length l) in
  let start :=
    if (start <? 0)%Z then Z.max 0 (start + len) else Z.min start len in
  drop (Z.to_nat start) l.

(** [l[start:stop]] for natural [start] and [stop]. *)
Definition py_slice {A} (start stop : nat) (l : list A) : list A :=
  take (stop - start) (drop start l).

(** [range(0, stop, step)] for natural [stop] and positive [step]. *)
Definition py_range_step (stop step : nat) : list nat :=
  (fun k => k * step) <$> seq 0 ((stop + step - 1) / step).

(** [float(n)] of a small non-negative integer. *)
Definition float_of_Z (n : Z) : float := PrimFloat.of_uint63 (Uint63.of_Z n).

(** What depends on the versions of Python and of chromadb. *)
Class Platform : Type := {
  (** [sum(xs)] of floats: plain or compensated summation, by the version
      of Python *)
  float_sum : list float -> float;
  (** [now - timedelta(minutes=n)], which raises [OverflowError] out of the
      range of dates *)
  minus_minutes : float -> Z -> result float;
  (** what [client.delete_collection(name)] raises when there is no
      collection of that name *)
  missing_collection : string -> exn;
  (** [isinstance(e, ValueError)] *)
  is_ValueError : exn -> bool
}.

(** [max(xs)] and [min(xs)] on a non-empty sequence [x :: xs] of floats:
    the first element that no later one is above (below). *)
Definition float_max (x : float) (xs : list float) : float :=
  fold_left (fun best y => if PrimFloat.ltb best y then y else best) xs x.
Definition float_min (x : float) (xs : list float) : float :=
  fold_left (fun best y => if PrimFloat.ltb y best then y else best) xs x.

Module PerformanceMonitor.
Section WithEnvironment.
Context `{Environment}.

(** [PerformanceMonitor(max_history)]: the monitor of the manager. *)
Definition __init__ (max_history : Z) : M unit :=
  modify_world (fun w =>
    mkWorld (requests w) (sleeps w) (readings w) (store_ops w) (collections w)
            (embeddings w) (vectorstore w) [] max_history).

Definition _add_metrics (metrics : PerformanceMetrics) : M unit :=
  modify_world (fun w =>
    let history := metrics_history w ++ [metrics] in
    if (max_history w <? Z.of_nat (length history))%Z
    then set_metrics_history (py_slice_from (- max_history w) history) w
    else set_metrics_history history w).

(** [measure_performance(operation_name)(func)(...)]: the decorated call.
    The [finally] block runs on both ways out of [func]; a raised
    exception is then raised again, a result returned. *)
Definition measure_performance {A} (operation_name : string) (func : M A) : M A :=
  start_time ← read time_time;
  start_memory ← read process_memory_mb;
  start_cpu ← read cpu_percent;
  r ← outcome func;
  let success := match r with inr _ => true | inl _ => false end in
  let error_message := match r with inr _ => None | inl e => Some (exn_str e) end in
  end_time ← read time_time;
  end_memory ← read process_memory_mb;
  let duration := (end_time - start_time)%float in
  cpu_usage ← read cpu_percent;
  now ← read time_time;
  let metrics :=
    mkMetrics now operation_name duration (end_memory - start_memory)%float
              cpu_usage success error_message in
  _add_metrics metrics;;
  match r with
  | inl e => raise e
  | inr result => mret result
  end.

Context `{Platform}.

(** An item of ["recent_errors"]. *)
Definition recent_error (m : PerformanceMetrics) : pyval :=
  VDict [ ("operation", VStr (operation m));
          ("error", match error_message m with
                    | Some msg => VStr msg
                    | None => VNone
                    end);
          ("timestamp", VFloat (timestamp m)) ].

(** The dict [get_metrics_summary] returns for the metrics it kept. *)
Definition summary (filtered_metrics : list PerformanceMetrics) : pydict :=
  match filtered_metrics with
  | [] => list_to_map [ ("message", VStr "Aucune métrique disponible") ]
  | m :: rest =>
      let durations := duration <$> filtered_metrics in
      let memory_usages := memory_usage <$> filtered_metrics in
      let success_count :=
        Z.of_nat (length (filter (fun m => success m = true) filtered_metrics)) in
      let len := float_of_Z (Z.of_nat (length filtered_metrics)) in
      list_to_map
        [ ("total_operations", VInt (Z.of_nat (length filtered_metrics)));
          ("success_rate", VFloat (float_of_Z success_count / len * 100)%float);
          ("avg_duration", VFloat (float_sum durations / len)%float);
          ("max_duration", VFloat (float_max (duration m) (duration <$> rest)));
          ("min_duration", VFloat (float_min (duration m) (duration <$> rest)));
          ("avg_memory_usage", VFloat (float_sum memory_usages / len)%float);
          ("max_memory_usage",
            VFloat (float_max (memory_usage m) (memory_usage <$> rest)));
          ("recent_errors",
            VList (recent_error
                   <$> filter (fun m => success m = false)
                              (py_slice_from (-5) filtered_metrics))) ]
  end.

(** [get_metrics_summary(operation, last_n_minutes)]; [None] for an
    argument left out. *)
Definition get_metrics_summary (operation_name : option string)
    (last_n_minutes : option Z) : M pydict :=
  w ← get_world;
  let filtered_metrics := metrics_history w in
  let filtered_metrics :=
    match operation_name with
    | Some name =>
        if String.eqb name EmptyString then filtered_metrics
        else filter (fun m => operation m = name) filtered_metrics
    | None => filtered_metrics
    end in
  filtered_metrics ←
    match last_n_minutes with
    | Some minutes =>
        if (minutes =? 0)%Z then mret filtered_metrics
        else
          now ← read time_time;
          cutoff_time ← lift (minus_minutes now minutes);
          mret (filter (fun m => PrimFloat.leb cutoff_time (timestamp m) = true)
                       filtered_metrics)
    | None => mret filtered_metrics
    end;
  mret (summary filtered_metrics).

Definition clear_metrics : M unit :=
  modify_world (set_metrics_history []).

(** The factory [create_performance_monitor]. *)
Definition create_performance_monitor : M unit := __init__ 200.

End WithEnvironment.
End PerformanceMonitor.

(** ** app/components/vectorstore.py: HuggingFaceAPIEmbeddings *)

(** [v[0]] *)
Definition py_getitem0 (v : pyval) : result pyval :=
  match v with
  | VList (x :: _) => inr x
  | VTuple (x :: _) => inr x
  | VList [] => inl (IndexError "list index out of range")
  | VTuple [] => inl (IndexError "tuple index out of range")
  | VStr s =>
      match code_points s with
      | c :: _ => inr (VStr c)
      | [] => inl (IndexError "string index out of range")
      end
  | VDict _ => inl (KeyError "0")
  | VNone | VBool _ | VInt _ | VFloat _ | VObject _ _ =>
      inl (TypeError "object is not subscriptable")
  end.

(** [isinstance(v, list)] *)
Definition is_list (v : pyval) : bool :=
  match v with VList _ => true | _ => false end.

(** The elements [list.extend(v)] appends. *)
Definition py_iter (v : pyval) : result (list pyval) :=
  match v with
  | VList l | VTuple l => inr l
  | VDict d => inr (VStr <$> d.*1)
  | VStr s => inr (VStr <$> code_points s)
  | _ => inl (TypeError "object is not iterable")
  end.

Module HuggingFaceAPIEmbeddings.
Section WithRuntime.
Context `{Runtime} `{Environment}.

(** [self.dimension] *)
Definition dimension : Z := 384.

Definition _test_api_connection : M unit :=
  try_except (_ ← requests_post (VStr "test"); mret tt) (fun e => mret tt).

Definition __init__ : M unit := _test_api_connection.

Definition _generate_fake_embeddings (texts : list string) : pyval :=
  VList
    ((fun text =>
        let text_hash := (py_hash hash_seed text `mod` 1000)%Z in
        VList ((fun j =>
                  VFloat (0.1 + (float_of_Z text_hash / 10000.0)
                          + (float_of_Z j * 0.001))%float)
               <$> seqZ 0 dimension))
     <$> texts).

(** How one round of the [for attempt in range(max_retries)] loop ends. *)
Inductive flow : Type :=
| Return (v : pyval)
| Continue
| Break.

(** The body of the loop of [_call_api]. *)
Definition attempt_once (texts : list string) (max_retries attempt : Z) : M flow :=
  try_except
    (response ← requests_post (VList (VStr <$> texts));
     let '(status_code, json) := response in
     if (status_code =? 200)%Z then
       embeddings ← lift json;
       first ← lift (py_getitem0 embeddings);
       if is_list first then mret (Return embeddings)
       else mret (Return (VList [embeddings]))
     else if (status_code =? 503)%Z then
       time_sleep (2 ^ attempt);; mret Continue
     else mret Break)
    (fun e =>
       if (attempt <? max_retries - 1)%Z then time_sleep 1;; mret Continue
       else mret Break).

(** The loop: [Some v] when a round returned [v], [None] when the loop
    was left by [break] or ran out of attempts. *)
Fixpoint for_attempts (body : Z -> M flow) (attempts : list Z) : M (option pyval) :=
  match attempts with
  | [] => mret None
  | attempt :: rest =>
      f ← body attempt;
      match f with
      | Return v => mret (Some v)
      | Continue => for_attempts body rest
      | Break => mret None
      end
  end.

Definition _call_api (texts : list string) (max_retries : Z) : M pyval :=
  r ← for_attempts (attempt_once texts max_retries) (seqZ 0 max_retries);
  match r with
  | Some embeddings => mret embeddings
  | None => mret (_generate_fake_embeddings texts)
  end.

(** The loop of [embed_documents] over the starts of the batches. *)
Fixpoint embed_batches (texts : list string) (batch_size : nat)
    (starts : list nat) (all_embeddings : list pyval) : M (list pyval) :=
  match starts with
  | [] => mret all_embeddings
  | i :: rest =>
      let batch := py_slice i (i + batch_size) texts in
      batch_embeddings ← _call_api batch 3;
      new ← lift (py_iter batch_embeddings);
      embed_batches texts batch_size rest (all_embeddings ++ new)
  end.

Definition embed_documents (texts : list string) : M (list pyval) :=
  let batch_size := 10%nat in
  embed_batches texts batch_size (py_range_step (length texts) batch_size) [].

Definition embed_query (text : string) : M pyval :=
  embeddings ← _call_api [text] 3;
  if py_truthy embeddings then lift (py_getitem0 embeddings)
  else lift (py_getitem0 (_generate_fake_embeddings [text])).

End WithRuntime.
End HuggingFaceAPIEmbeddings.

(** ** app/components/vectorstore.py: EnhancedVectorStoreManager *)

(** [json.dumps] accepts None, booleans, numbers, strings, and lists,
    tuples and dicts of what it accepts; on anything else it raises
    [TypeError]. *)
Fixpoint json_serializable (v : pyval) : bool :=
  match v with
  | VNone | VBool _ | VInt _ | VFloat _ | VStr _ => true
  | VList l | VTuple l => forallb json_serializable l
  | VDict d => forallb (fun kv => json_serializable kv.2) d
  | VObject _ _ => false
  end.

(** The type of the first value in [v], in the order of the encoding,
    that [json.dumps] does not accept. *)
Fixpoint json_rejected_type (v : pyval) : option string :=
  match v with
  | VNone | VBool _ | VInt _ | VFloat _ | VStr _ => None
  | VList l | VTuple l =>
      (fix first (l : list pyval) : option string :=
         match l with
         | [] => None
         | x :: l' =>
             match json_rejected_type x with
             | Some type_name => Some type_name
             | None => first l'
             end
         end) l
  | VDict d =>
      (fix first (d : list (string * pyval)) : option string :=
         match d with
         | [] => None
         | (_, x) :: d' =>
             match json_rejected_type x with
             | Some type_name => Some type_name
             | None => first d'
             end
         end) d
  | VObject type_name _ => Some type_name
  end.

Definition json_dumps `{Runtime} (v : pyval) : result string :=
  match json_rejected_type v with
  | None => inr (json_encode v)
  | Some type_name =>
      inl (TypeError ("Object of type " +:+ type_name
                      +:+ " is not JSON serializable"))
  end.

(** [isinstance(v, (str, int, float, bool)) or v is None] *)
Definition is_scalar (v : pyval) : bool :=
  match v with
  | VStr _ | VInt _ | VFloat _ | VBool _ | VNone => true
  | _ => false
  end.

Module Config.
Definition CHROMADB_PATH : string := "./data/vectorstore".
Definition COLLECTION_NAME : string := "document_embeddings".
Definition DEFAULT_K_DOCUMENTS : Z := 3.
End Config.

(** What [search_with_metadata] returns for one document. *)
Record SearchResult : Type := mkSearchResult {
  content : string;
  result_metadata : pydict;
  relevance_score : pyval;
  chunk_info : pydict
}.

Module EnhancedVectorStoreManager.
Section WithRuntime.
Context `{Runtime} `{Environment}.

(** *** The Chroma store (chromadb, langchain_chroma) *)

(** The entries of a collection; none when it does not exist. *)
Definition entries (w : world) (collection_name : string) : list StoredEntry :=
  default [] (collections w !! collection_name).

(** [os.makedirs(Config.CHROMADB_PATH, exist_ok=True)] *)
Definition os_makedirs : M unit := store_op (mret tt).

(** [chromadb.PersistentClient(path=Config.CHROMADB_PATH)] *)
Definition PersistentClient : M unit := store_op (mret tt).

(** [client.get_or_create_collection(name)]: a collection that does not
    exist is created, without entries. *)
Definition get_or_create_collection (collection_name : string)
    (store : gmap string (list StoredEntry)) : gmap string (list StoredEntry) :=
  match store !! collection_name with
  | Some _ => store
  | None => <[collection_name := []]> store
  end.

(** [Chroma(client, collection_name, embedding_function)]: gets or
    creates the collection and returns the handle on it. *)
Definition Chroma (collection_name : string) : M string :=
  store_op
    (modify_world (fun w =>
       set_collections
         (get_or_create_collection collection_name (collections w)) w);;
     mret collection_name).

(** [vectorstore.add_documents(documents)]: embeds the contents, then
    stores one entry for each document.  Neither langchain nor the code
    undoes what a write that raises has stored. *)
Definition Chroma_add_documents (handle : string) (documents : list Document)
  : M unit :=
  vectors ← HuggingFaceAPIEmbeddings.embed_documents (page_content <$> documents);
  if bool_decide (length vectors = length documents) then
    store_write
      (zip_with (fun doc v => mkEntry (page_content doc) (metadata doc) v)
                documents vectors)
      (fun written w =>
         set_collections
           (<[handle := entries w handle ++ written]> (collections w)) w)
  else
    store_op (raise (ValueError "Unequal lengths of documents and embeddings")).

(** [vectorstore.similarity_search(query, k=k)]: embeds the query, then
    returns the documents of the entries the search selects. *)
Definition Chroma_similarity_search (handle query : string) (k : Z)
  : M (list Document) :=
  query_vector ← HuggingFaceAPIEmbeddings.embed_query query;
  store_op
    (w ← get_world;
     let stored := entries w handle in
     mret (omap (fun i =>
                   (fun e => mkDocument (entry_content e) (entry_metadata e))
                   <$> stored !! i)
                (nearest query_vector stored k))).

(** *** The manager *)

(** The decorated inner function [_setup] of [_setup_embeddings]. *)
Definition _setup : M unit :=
  HuggingFaceAPIEmbeddings.__init__;;
  modify_world (set_embeddings true).

Definition _setup_embeddings : M unit :=
  PerformanceMonitor.measure_performance "setup_embeddings" _setup.

Definition __init__ : M unit :=
  modify_world (set_embeddings false);;
  modify_world (set_vectorstore None);;
  PerformanceMonitor.__init__ 100;;
  _setup_embeddings.

(** The decorated inner function [_initialize] of
    [initialize_vectorstore]. *)
Definition _initialize (collection_name : string) : M bool :=
  try_except
    (w ← get_world;
     if negb (embeddings w) then mret false
     else
       os_makedirs;;
       PersistentClient;;
       handle ← Chroma collection_name;
       modify_world (set_vectorstore (Some handle));;
       mret true)
    (fun e =>
       modify_world (set_vectorstore None);;
       mret false).

Definition initialize_vectorstore (collection_name : string) : M bool :=
  PerformanceMonitor.measure_performance "initialize_vectorstore"
    (_initialize collection_name).

(** The conversion of one metadata value. *)
Definition filter_value (value : pyval) : result pyval :=
  if is_scalar value then inr value
  else match value with
       | VList l => inr (VStr (str_join ", " (py_str <$> l)))
       | VDict _ => VStr <$> json_dumps value
       | _ => inr (VStr (py_str value))
       end.

(** The inner loop: [filtered_metadata[key] = ...] for each item. *)
Definition filter_metadata (m : pydict) : result pydict :=
  map_fold
    (fun key value (acc : result pydict) =>
       filtered_metadata ← acc;
       v ← filter_value value;
       mret (<[key := v]> filtered_metadata))
    (mret ∅) m.

Fixpoint _filter_complex_metadata (documents : list Document)
  : result (list Document) :=
  match documents with
  | [] => mret []
  | doc :: rest =>
      filtered_metadata ← filter_metadata (metadata doc);
      let filtered_doc := mkDocument (page_content doc) filtered_metadata in
      filtered_docs ← _filter_complex_metadata rest;
      mret (filtered_doc :: filtered_docs)
  end.

(** [self.vectorstore], once known to be set. *)
Definition the_vectorstore : M string :=
  w ← get_world;
  match vectorstore w with
  | Some handle => mret handle
  | None => raise (Exception "AttributeError" "'NoneType' object has no attribute")
  end.

(** The summary [doc_info] of [add_documents_enhanced]. *)
Definition doc_info (documents : list Document) : pydict :=
  let n := Z.of_nat (length documents) in
  list_to_map
    [ ("total_chunks", VInt n);
      ("document_type",
        match documents with
        | doc :: _ =>
            dict_get_default "document_type" (VStr "unknown") (metadata doc)
        | [] => VStr "unknown"
        end);
      ("average_chunk_size",
        match documents with
        | _ :: _ =>
            VFloat (float_of_Z
                      (fold_right Z.add 0%Z
                         ((fun doc => py_len (page_content doc)) <$> documents))
                    / float_of_Z n)%float
        | [] => VInt 0
        end);
      ("keywords_extracted",
        VBool (existsb (fun doc => dict_has "keywords" (metadata doc)) documents));
      ("structure_preserved",
        VInt (Z.of_nat (length (filter
          (fun doc =>
             py_truthy (dict_get_default "contains_structure" (VBool false)
                                         (metadata doc)) = true)
          documents)))) ].

(** The decorated inner function [_add_documents] of
    [add_documents_enhanced]. *)
Definition _add_documents (text filename : string)
    (chunk_size chunk_overlap : Z) : M (Z * pydict) :=
  w ← get_world;
  (if negb (bool_decide (is_Some (vectorstore w))) then
     success ← initialize_vectorstore Config.COLLECTION_NAME;
     w ← get_world;
     if negb success || negb (bool_decide (is_Some (vectorstore w))) then
       raise (ValueError "Échec d'initialisation du VectorStore")
     else mret tt
   else mret tt);;
  w ← get_world;
  if negb (embeddings w) then raise (ValueError "Embeddings non initialisés")
  else
    let documents :=
      SmartTextSplitter.split_documents_with_metadata
        text filename chunk_size chunk_overlap in
    if bool_decide (documents = []) then
      raise (ValueError "Aucun document généré lors du découpage")
    else
      filtered_documents ← lift (_filter_complex_metadata documents);
      handle ← the_vectorstore;
      Chroma_add_documents handle filtered_documents;;
      mret (Z.of_nat (length documents), doc_info documents).

Definition add_documents_enhanced (text filename : string)
    (chunk_size chunk_overlap : Z) : M (Z * pydict) :=
  let '(valid_chunk, chunk_error) := InputValidator.validate_chunk_size chunk_size in
  if negb valid_chunk then
    raise (ValueError ("Chunk size invalide: " +:+ default "None" chunk_error))
  else
    PerformanceMonitor.measure_performance "add_documents"
      (_add_documents text filename chunk_size chunk_overlap).

(** One enriched result of [search_with_metadata]. *)
Definition enrich (doc : Document) : SearchResult :=
  let md := metadata doc in
  mkSearchResult (page_content doc) md VNone
    (list_to_map
       [ ("position", dict_get_default "chunk_position" (VStr "unknown") md);
         ("total_chunks", dict_get_default "total_chunks" (VInt 0) md);
         ("chunk_id", dict_get_default "chunk_id" (VInt 0) md);
         ("has_structure", dict_get_default "contains_structure" (VBool false) md);
         ("keywords", dict_get_default "keywords" (VList []) md) ]).

(** The decorated inner function [_search] of [search_with_metadata].
    [opened] is false when the auto-initialisation left no vector store,
    where the code returns the empty list at once. *)
Definition _search (query : string) (k : Z) : M (list SearchResult) :=
  w ← get_world;
  opened ←
    (if negb (bool_decide (is_Some (vectorstore w))) then
       success ← initialize_vectorstore Config.COLLECTION_NAME;
       w ← get_world;
       mret (negb (negb success || negb (bool_decide (is_Some (vectorstore w)))))
     else mret true);
  if negb opened then mret []
  else
    found ← try_except
              (handle ← the_vectorstore;
               documents ← Chroma_similarity_search handle query k;
               mret (Some documents))
              (fun e => mret None);
    match found with
    | None => mret []
    | Some documents => mret (enrich <$> documents)
    end.

Definition search_with_metadata (query : string) (k : Z) : M (list SearchResult) :=
  let '(valid_query, query_error) := InputValidator.validate_question query in
  if negb valid_query then
    raise (ValueError ("Requête invalide: " +:+ default "None" query_error))
  else
    PerformanceMonitor.measure_performance "search_documents" (_search query k).

Context `{Platform}.

(** The property [performance_metrics]. *)
Definition performance_metrics : M pydict :=
  PerformanceMonitor.get_metrics_summary None None.

(** [client.delete_collection(name)] *)
Definition delete_collection (collection_name : string) : M unit :=
  store_op
    (w ← get_world;
     match collections w !! collection_name with
     | Some _ =>
         modify_world (fun w =>
           set_collections (delete collection_name (collections w)) w)
     | None => raise (missing_collection collection_name)
     end).

Definition reset_collection (collection_name : string) : M unit :=
  os_makedirs;;
  PersistentClient;;
  try_except (delete_collection collection_name)
    (fun e => if is_ValueError e then mret tt else raise e);;
  handle ← Chroma collection_name;
  modify_world (set_vectorstore (Some handle)).

(** What [vectorstore.as_retriever(search_kwargs={"k": k})] returns. *)
Record VectorStoreRetriever : Type := mkRetriever {
  retriever_vectorstore : string;
  search_kwargs_k : Z
}.

Definition get_retriever (k : Z) : M VectorStoreRetriever :=
  w ← get_world;
  (if negb (bool_decide (is_Some (vectorstore w))) then
     success ← initialize_vectorstore Config.COLLECTION_NAME;
     w ← get_world;
     if negb success || negb (bool_decide (is_Some (vectorstore w))) then
       raise (ValueError "Impossible d'initialiser le VectorStore pour le retriever")
     else mret tt
   else mret tt);;
  handle ← the_vectorstore;
  mret (mkRetriever handle k).

End WithRuntime.
End EnhancedVectorStoreManager.

(** ** A run-time and environments for the examples

    Small executable stand-ins on which the examples below run.  The
    run-time agrees with CPython and langchain on the inputs the examples
    use: ASCII texts of letters and blanks, no longer than the chunk size
    (the only regular expression of the splitter that can match is the
    run of blanks, and the text is one chunk, or none if it is blank),
    and values without floats or characters that need an escape.  The
    hash of a string is CPython's where the examples look at its value,
    and a stand-in elsewhere. *)

Module Reference.

Definition DQ : string := String "034"%char EmptyString.

Definition lower_char (c : ascii) : ascii :=
  let n := nat_of_ascii c in
  if (65 <=? n)%nat && (n <=? 90)%nat then ascii_of_nat (n + 32) else c.

Fixpoint lower (s : string) : string :=
  match s with
  | EmptyString => EmptyString
  | String c s' => String (lower_char c) (lower s')
  end.

Definition is_space (c : ascii) : bool :=
  let n := nat_of_ascii c in
  ((9 <=? n)%nat && (n <=? 13)%nat) || ((28 <=? n)%nat && (n <=? 32)%nat).

Fixpoint lstrip (s : string) : string :=
  match s with
  | String c s' => if is_space c then lstrip s' else s
  | EmptyString => EmptyString
  end.

Definition strip (s : string) : string :=
  String.rev (lstrip (String.rev (lstrip s))).

(** [re.sub] for the pattern of a run of blanks: each maximal run is
    replaced by [repl]. *)
Fixpoint collapse_blanks (repl : string) (in_run : bool) (s : string) : string :=
  match s with
  | EmptyString => EmptyString
  | String c s' =>
      if is_space c then
        if in_run then collapse_blanks repl true s'
        else repl +:+ collapse_blanks repl true s'
      else String c (collapse_blanks repl false s')
  end.

(** The maximal runs of characters other than spaces. *)
Definition words (s : string) : list string :=
  let '(word, done) :=
    fold_right
      (fun c '(word, done) =>
         if is_space c
         then (EmptyString,
               if String.eqb word EmptyString then done else word :: done)
         else (String c word, done))
      (EmptyString, []) (list_ascii_of_string s) in
  if String.eqb word EmptyString then done else word :: done.

Fixpoint str (v : pyval) : string :=
  match v with
  | VNone => "None"
  | VBool b => if b then "True" else "False"
  | VInt n => pretty n
  | VStr s => s
  | VObject _ text => text
  | VFloat _ => "0.0"
  | VList l => "[" +:+ str_join ", " (str <$> l) +:+ "]"
  | VTuple l => "(" +:+ str_join ", " (str <$> l) +:+ ")"
  | VDict d =>
      "{" +:+ str_join ", " ((fun kv => "'" +:+ kv.1 +:+ "': " +:+ str kv.2) <$> d)
      +:+ "}"
  end.

Fixpoint encode (v : pyval) : string :=
  match v with
  | VNone => "null"
  | VBool b => if b then "true" else "false"
  | VInt n => pretty n
  | VStr s => DQ +:+ s +:+ DQ
  | VFloat _ => "0.0"
  | VList l | VTuple l => "[" +:+ str_join ", " (encode <$> l) +:+ "]"
  | VDict d =>
      "{" +:+ str_join ", "
                ((fun kv => DQ +:+ kv.1 +:+ DQ +:+ ": " +:+ encode kv.2) <$> d)
      +:+ "}"
  | VObject _ _ => EmptyString
  end.

(** [hash(s)] under [PYTHONHASHSEED=seed]: the values of CPython 3.11 on
    64 bits for the text ["abc"] and the seeds 0 (no salt), 1 and 2, and
    a stand-in for the other texts and seeds. *)
Definition hash (seed : Z) (s : string) : Z :=
  if String.eqb s "abc" && (seed =? 0)%Z then (-4594863902769663758)%Z
  else if String.eqb s "abc" && (seed =? 1)%Z then (-4667308735975688587)%Z
  else if String.eqb s "abc" && (seed =? 2)%Z then 4069345407874332860%Z
  else (seed + Z.of_nat (String.length s))%Z.

Definition runtime : Runtime := {|
  str_lower := lower;
  str_strip := strip;
  re_sub := fun pattern repl s =>
    if String.eqb pattern "\s+" then collapse_blanks repl false s else s;
  re_search := fun pattern s flag => false;
  re_findall := fun pattern s => filter (fun w => (3 <= py_len w)%Z) (words s);
  split_text := fun splitter s => if String.eqb s EmptyString then [] else [s];
  py_str := str;
  json_encode := encode;
  py_hash := hash
|}.

Definition unreachable : http_result :=
  HttpFailure (Exception "ConnectionError" "Max retries exceeded").

(** The environment in which the endpoint answers the requests with
    [responses], in turn, and is unreachable afterwards, and in which the
    operations on the store raise as [faults] says, in turn; a write
    that raises has stored nothing, and the strings are hashed without
    salt. *)
Definition environment (responses : list http_result)
    (faults : list (option exn)) : Environment := {|
  remote := fun n inputs => nth n responses unreachable;
  time_time := fun n => float_of_Z (Z.of_nat n);
  process_memory_mb := fun n => 64%float;
  cpu_percent := fun n => 0%float;
  store_fault := fun n => nth n faults None;
  written_before_fault := fun n => [];
  hash_seed := 0;
  nearest := fun query stored k => seq 0 (Z.to_nat k `min` length stored)
|}.

(** The same environment for a process started with another hash seed. *)
Definition seeded (seed : Z) (env : Environment) : Environment := {|
  remote := @remote env;
  time_time := @time_time env;
  process_memory_mb := @process_memory_mb env;
  cpu_percent := @cpu_percent env;
  store_fault := @store_fault env;
  written_before_fault := @written_before_fault env;
  hash_seed := seed;
  nearest := @nearest env
|}.

(** The same environment with a store whose writes, when they raise,
    have stored the entries at the positions [written]. *)
Definition interrupted (written : list nat) (env : Environment) : Environment := {|
  remote := @remote env;
  time_time := @time_time env;
  process_memory_mb := @process_memory_mb env;
  cpu_percent := @cpu_percent env;
  store_fault := @store_fault env;
  written_before_fault := fun n => written;
  hash_seed := @hash_seed env;
  nearest := @nearest env
|}.

(** The world before the manager is built. *)
Definition boot : world := mkWorld [] [] 0 0 ∅ false None [] 100.

(** Plain summation, dates as seconds, and a chromadb that raises
    [ValueError] for a collection that does not exist. *)
Definition platform : Platform := {|
  float_sum := fun xs => fold_left PrimFloat.add xs 0%float;
  minus_minutes := fun now minutes =>
    inr (now - float_of_Z (60 * minutes))%float;
  missing_collection := fun collection_name =>
    ValueError ("Collection " +:+ collection_name +:+ " does not exist.");
  is_ValueError := fun e =>
    let 'Exception cls _ := e in String.eqb cls "ValueError"
|}.

End Reference.

(** * The vocabulary of the statements *)

Section Vocabulary.
Context `{Runtime} `{Environment}.
Import SmartTextSplitter HuggingFaceAPIEmbeddings EnhancedVectorStoreManager.

(** What the specification says of [chunk_position]. *)
Definition spec_chunk_position (chunk_id total_chunks : Z) (position : string) : Prop :=
  (position = "start" ↔ chunk_id = 0%Z)
  ∧ (position = "end" ↔ chunk_id = (total_chunks - 1)%Z)
  ∧ (position = "middle" ↔ chunk_id ≠ 0%Z ∧ chunk_id ≠ (total_chunks - 1)%Z).

(** What the specification says of [detect]: the type with the highest
    count, and [default] on a tie for the highest count or below two
    matches. *)
Definition spec_detect (academic technical legal : Z) : string :=
  let m := Z.max academic (Z.max technical legal) in
  if (m <? 2)%Z then "default"
  else if (academic =? m)%Z && (technical <? m)%Z && (legal <? m)%Z then "academic"
  else if (technical =? m)%Z && (academic <? m)%Z && (legal <? m)%Z then "technical"
  else if (legal =? m)%Z && (academic <? m)%Z && (technical <? m)%Z then "legal"
  else "default".

(** The scores the detector compares. *)
Definition academic_score (text : string) : Z :=
  keyword_score academic_keywords (str_lower text).
Definition technical_score (text : string) : Z :=
  keyword_score technical_keywords (str_lower text).
Definition legal_score (text : string) : Z :=
  keyword_score legal_keywords (str_lower text).

(** The history a recording leaves. *)
Definition recorded (cap : Z) (history : list PerformanceMetrics)
    (metrics : PerformanceMetrics) : list PerformanceMetrics :=
  let history := history ++ [metrics] in
  if (cap <? Z.of_nat (length history))%Z
  then py_slice_from (- cap) history else history.

(** The world in which the measured function starts: three readings on. *)
Definition started (w : world) : world :=
  set_readings (S (S (S (readings w)))) w.

(** How [_call_api] takes an answer of the endpoint: a value to return, a
    503, another status, or an exception (the request raised, the body of
    a 200 is not JSON, or it has no first element). *)
Inductive verdict : Type :=
| Usable (v : pyval)
| Busy
| Refused
| Failed.

Definition classify (r : http_result) : verdict :=
  match r with
  | HttpFailure _ => Failed
  | HttpResponse status_code json =>
      if (status_code =? 200)%Z then
        match json with
        | inl _ => Failed
        | inr embeddings =>
            match py_getitem0 embeddings with
            | inl _ => Failed
            | inr first =>
                Usable (if is_list first then embeddings else VList [embeddings])
            end
        end
      else if (status_code =? 503)%Z then Busy
      else Refused
  end.

(** The retry policy of the code, on the verdicts of the answers to the
    successive attempts, from attempt number [attempt] of three: the value
    returned if any, the number of requests sent and the delays slept. *)
Fixpoint retry_policy (attempt : Z) (verdicts : list verdict)
  : option pyval * nat * list Z :=
  match verdicts with
  | [] => (None, 0, [])
  | Usable v :: _ => (Some v, 1, [])
  | Busy :: rest =>
      let '(r, n, delays) := retry_policy (attempt + 1) rest in
      (r, S n, (2 ^ attempt)%Z :: delays)
  | Refused :: _ => (None, 1, [])
  | Failed :: rest =>
      if (attempt <? 2)%Z then
        let '(r, n, delays) := retry_policy (attempt + 1) rest in
        (r, S n, 1%Z :: delays)
      else (None, 1, [])
  end.


(** A vector of the backend's dimension: a list of 384 numbers. *)
Definition is_number (v : pyval) : bool :=
  match v with VInt _ | VFloat _ => true | _ => false end.

Definition is_vector (v : pyval) : bool :=
  match v with
  | VList xs =>
      bool_decide (Z.of_nat (length xs) = HuggingFaceAPIEmbeddings.dimension)
      && forallb is_number xs
  | _ => false
  end.

(** The world after [n] more requests with the same inputs and the given
    delays. *)
Definition after_requests (n : nat) (inputs : pyval) (delays : list Z)
    (w : world) : world :=
  set_sleeps (sleeps w ++ delays) (set_requests (requests w ++ replicate n inputs) w).

(** The payload of a request for [texts]. *)
Definition payload (texts : list string) : pyval := VList (VStr <$> texts).

(** The verdicts of the answers to the next three requests. *)
Definition next_verdicts (texts : list string) (w : world) : list verdict :=
  (λ i, classify (remote (length (requests w) + i) (payload texts))) <$> [0; 1; 2].

(** The fallback vector of one text, in a process with the hash seed of
    the environment. *)
Definition fake_vector (text : string) : pyval :=
  VList ((fun j =>
            VFloat (0.1 + (float_of_Z (py_hash hash_seed text `mod` 1000) / 10000.0)
                    + (float_of_Z j * 0.001))%float)
         <$> seqZ 0 dimension).

(** The verdicts of the answers to the next [k] requests. *)
Definition verdicts_from (texts : list string) (w : world) (k : nat) : list verdict :=
  (λ i, classify (remote (length (requests w) + i) (payload texts))) <$> seq 0 k.

(** Every answer counts as a failure: none is usable. *)
Definition all_fail : Prop :=
  ∀ n inputs v, classify (remote n inputs) ≠ Usable v.

(** One vector of the backend's dimension for each text. *)
Definition shaped (texts : list string) (v : pyval) : Prop :=
  ∃ vectors, v = VList vectors
    ∧ length vectors = length texts
    ∧ Forall (λ x, is_vector x = true) vectors.

(** The endpoint keeps its contract: a usable answer to a request carries
    one vector of the backend's dimension for each text of the request. *)
Definition honest : Prop :=
  ∀ n texts v, classify (remote n (payload texts)) = Usable v → shaped texts v.

(** What a call for a batch can return: the fallback, or a usable answer
    of the endpoint. *)
Definition call_result (texts : list string) (v : pyval) : Prop :=
  v = _generate_fake_embeddings texts
  ∨ ∃ n, classify (remote n (payload texts)) = Usable v.

(** The conversion of a value, as the specification words it: scalars
    pass through, a list becomes its items joined by [", "], a dict its
    JSON text, anything else its string form. *)
Definition sanitized (value : pyval) : pyval :=
  match value with
  | VStr _ | VInt _ | VFloat _ | VBool _ | VNone => value
  | VList l => VStr (str_join ", " (py_str <$> l))
  | VDict _ => VStr (json_encode value)
  | VTuple _ | VObject _ _ => VStr (py_str value)
  end.

(** The values [filter_value] converts: all but the dicts that
    [json.dumps] rejects. *)
Definition convertible (value : pyval) : bool :=
  match value with
  | VDict _ => json_serializable value
  | _ => true
  end.

Definition convertible_document (doc : Document) : Prop :=
  map_Forall (λ _ value, convertible value = true) (metadata doc).

Definition sanitized_document (doc : Document) : Document :=
  mkDocument (page_content doc) (sanitized <$> metadata doc).

(** What [json.dumps] raises on a value of a type it does not accept. *)
Definition not_serializable (type_name : string) : exn :=
  TypeError ("Object of type " +:+ type_name +:+ " is not JSON serializable").

(** What it raises on [value], when it does not accept it: the error
    names the type of the first value it cannot encode. *)
Definition rejection (value : pyval) : exn :=
  not_serializable (default "object" (json_rejected_type value)).

(** A document with a list, a dict and an object among its metadata. *)
Definition sample_document : Document :=
  mkDocument "alpha beta"
    (list_to_map
       [ ("filename", VStr "a.txt");
         ("chunk_id", VInt 0);
         ("keywords", VList [VStr "alpha"; VStr "beta"]);
         ("extra", VDict [("k", VInt 1)]);
         ("when", VObject "datetime" "2024-01-01 00:00:00") ]).

(** The store can be opened: the embeddings are set and none of the
    three operations on the store raises. *)
Definition can_open (w : world) : bool :=
  embeddings w
  && bool_decide (store_fault (store_ops w) = None)
  && bool_decide (store_fault (S (store_ops w)) = None)
  && bool_decide (store_fault (S (S (store_ops w))) = None).

(** Same entries in every collection. *)
Definition same_entries (w w' : world) : Prop :=
  ∀ collection_name, entries w' collection_name = entries w collection_name.

(** The world in which [search_with_metadata] looks the query up: after
    the first readings and, if the store was not open, the
    auto-initialisation. *)
Definition lookup_world (w : world) : world :=
  match vectorstore w with
  | Some _ => started w
  | None => (initialize_vectorstore Config.COLLECTION_NAME (started w)).2
  end.

(** The end of [_search], once the store is open. *)
Definition lookup (query : string) (k : Z) : M (list SearchResult) :=
  found ← try_except
            (handle ← the_vectorstore;
             documents ← Chroma_similarity_search handle query k;
             mret (Some documents))
            (fun e => mret None);
  match found with
  | None => mret []
  | Some documents => mret (enrich <$> documents)
  end.

End Vocabulary.

(** ** The splitter *)

Section SplitterVocabulary.
Context `{Runtime}.
Import SmartTextSplitter.

(** The words [_extract_keywords] finds in a chunk. *)
Definition found_words (chunk : string) : list string :=
  re_findall "\b[a-zA-ZàâäéèêëïîôöùûüÿçÀÂÄÉÈÊËÏÎÔÖÙÛÜŸÇ]{3,}\b" (str_lower chunk).

(** The words it counts: no stop words, and longer than two characters. *)
Definition counted (word : string) : bool :=
  negb (bool_decide (word ∈ stop_words)) && (2 <? py_len word)%Z.

(** The dict [word_freq] once the words are counted. *)
Definition word_freq (words : list string) : list (string * Z) :=
  fold_left
    (fun freq word => if counted word then count_word word freq else freq)
    words [].

(** The number of times a word occurs. *)
Definition occurrences (word : string) (words : list string) : Z :=
  Z.of_nat (length (filter (λ w, w = word) words)).

(** [a] comes before [b] in [l]. *)
Definition precedes {A} (a b : A) (l : list A) : Prop :=
  ∃ l1 l2, l = l1 ++ a :: l2 ∧ b ∈ l2.

(** [a] occurs in [l], and [b] does not before it. *)
Definition occurs_first {A} (a b : A) (l : list A) : Prop :=
  ∃ l1 l2, l = l1 ++ a :: l2 ∧ b ∉ l1.

(** The order [sorted(..., reverse=True)] puts a list in: larger keys
    first, and equal keys as they come in the list. *)
Definition sorted_order {A} (key : A → Z) (l : list A) (a b : A) : Prop :=
  (key b < key a)%Z ∨ (key b = key a ∧ precedes a b l).

(** The rank of the counted words of a chunk: [a] occurs more often than
    [b] or, as often, and earlier. *)
Definition outranks (words : list string) (a b : string) : Prop :=
  (occurrences b words < occurrences a words)%Z
  ∨ (occurrences b words = occurrences a words ∧ occurs_first a b words).

(** The keys the counting loop adds to a dict that has the keys [seen],
    in the order in which it adds them. *)
Fixpoint new_keys (seen words : list string) : list string :=
  match words with
  | [] => []
  | word :: words =>
      if counted word && negb (bool_decide (word ∈ seen))
      then word :: new_keys (seen ++ [word]) words
      else new_keys seen words
  end.

(** The keys of the metadata of a chunk. *)
Definition chunk_metadata_keys : list string :=
  ["filename"; "chunk_id"; "total_chunks"; "document_type"; "chunk_size";
   "chunk_position"; "contains_structure"; "keywords"].

End SplitterVocabulary.

(** ** The monitor *)

Section MonitorVocabulary.
Context `{Environment} `{Platform}.
Import PerformanceMonitor.

(** The metrics [get_metrics_summary] keeps for an operation: all of them
    for [None] and for the empty name. *)
Definition of_operation (operation_name : option string)
    (history : list PerformanceMetrics) : list PerformanceMetrics :=
  match operation_name with
  | Some name =>
      if String.eqb name EmptyString then history
      else filter (λ m, operation m = name) history
  | None => history
  end.

(** The metrics it keeps from a time on. *)
Definition since (cutoff_time : float) (history : list PerformanceMetrics)
  : list PerformanceMetrics :=
  filter (λ m, PrimFloat.leb cutoff_time (timestamp m) = true) history.

(** The metrics a summary asked for at the time [now] selects in a
    history: those of the operation, and of the period if one is given,
    unless the arithmetic on dates raises. *)
Definition selected (operation_name : option string) (last_n_minutes : option Z)
    (now : float) (history : list PerformanceMetrics)
  : result (list PerformanceMetrics) :=
  match last_n_minutes with
  | Some minutes =>
      if (minutes =? 0)%Z then inr (of_operation operation_name history)
      else
        cutoff_time ← minus_minutes now minutes;
        mret (since cutoff_time (of_operation operation_name history))
  | None => inr (of_operation operation_name history)
  end.

(** The world after the recordings of a list of metrics. *)
Definition add_all (metrics_list : list PerformanceMetrics) (w : world) : world :=
  fold_left (λ w metrics, (_add_metrics metrics w).2) metrics_list w.

(** The last [n] elements. *)
Definition last_n {A} (n : nat) (l : list A) : list A := drop (length l - n) l.

(** What a summary says when it has no metric to report. *)
Definition no_metrics : pydict :=
  list_to_map [ ("message", VStr "Aucune métrique disponible") ].

End MonitorVocabulary.

(** ** The embeddings and the store *)

Section StoreVocabulary.
Context `{Runtime} `{Environment} `{Platform}.
Import HuggingFaceAPIEmbeddings EnhancedVectorStoreManager.

(** The world after more requests and sleeps. *)
Definition traffic (inputs : list pyval) (delays : list Z) (w : world) : world :=
  set_sleeps (sleeps w ++ delays) (set_requests (requests w ++ inputs) w).

(** The batches [embed_documents] cuts the texts in. *)
Definition batches (texts : list string) : list (list string) :=
  (λ i, py_slice i (i + 10) texts) <$> py_range_step (length texts) 10.

(** [sum(l)] *)
Definition sum_Z (l : list Z) : Z := fold_right Z.add 0%Z l.

(** The world after a measured call that ends in [w], where it records
    [metrics]. *)
Definition measured (metrics : PerformanceMetrics) (w : world) : world :=
  set_metrics_history
    (recorded (max_history w) (metrics_history w) metrics)
    (set_readings (S (S (S (S (readings w))))) w).

(** The world after [n] more operations on the store. *)
Definition after_store_ops (n : nat) (w : world) : world :=
  set_store_ops (n + store_ops w) w.

(** The world once the store is opened on a collection. *)
Definition opened (collection_name : string) (w : world) : world :=
  set_vectorstore (Some collection_name)
    (set_collections
       (get_or_create_collection collection_name (collections w))
       (after_store_ops 3 w)).

(** The entries stored for documents and their vectors. *)
Definition stored_entries (documents : list Document) (vectors : list pyval)
  : list StoredEntry :=
  zip_with (fun doc v => mkEntry (page_content doc) (metadata doc) v)
           documents vectors.

(** The next [n] operations on the store do not raise. *)
Definition store_works (n : nat) (w : world) : Prop :=
  ∀ i, (i < n)%nat → store_fault (i + store_ops w) = None.

(** [add_documents_enhanced] can write: the store is open and the next
    operation on it does not raise, or it can be opened and the operation
    after the opening does not raise. *)
Definition can_add (w : world) : Prop :=
  match vectorstore w with
  | Some _ => embeddings w = true ∧ store_works 1 w
  | None => embeddings w = true ∧ store_works 4 w
  end.

(** The collection [add_documents_enhanced] and [search_with_metadata]
    work on: the one the store is open on, or the configured one. *)
Definition target (w : world) : string :=
  default Config.COLLECTION_NAME (vectorstore w).

(** The document Chroma returns for an entry. *)
Definition entry_document (e : StoredEntry) : Document :=
  mkDocument (entry_content e) (entry_metadata e).

(** A result of a search that comes from an entry of the collection. *)
Definition from_entries (stored : list StoredEntry) (r : SearchResult) : Prop :=
  ∃ e, e ∈ stored
    ∧ content r = entry_content e
    ∧ result_metadata r = entry_metadata e
    ∧ relevance_score r = VNone
    ∧ chunk_info r = chunk_info (enrich (entry_document e)).

(** The entries a similarity search selects in a collection, best
    first: those at the positions the store gives, a position outside
    the collection giving nothing. *)
Definition picked (query_vector : pyval) (stored : list StoredEntry) (k : Z)
  : list StoredEntry :=
  omap (λ i, stored !! i) (nearest query_vector stored k).

(** A result of a search describes an entry: it has its content and its
    metadata, no relevance score, and as chunk information what the
    metadata hold under [chunk_position], [total_chunks], [chunk_id],
    [contains_structure] and [keywords], or else ["unknown"], [0], [0],
    [False] and the empty list. *)
Definition describes (e : StoredEntry) (r : SearchResult) : Prop :=
  content r = entry_content e
  ∧ result_metadata r = entry_metadata e
  ∧ relevance_score r = VNone
  ∧ chunk_info r
    = list_to_map
        [ ("position",
            default (VStr "unknown") (entry_metadata e !! "chunk_position"));
          ("total_chunks", default (VInt 0) (entry_metadata e !! "total_chunks"));
          ("chunk_id", default (VInt 0) (entry_metadata e !! "chunk_id"));
          ("has_structure",
            default (VBool false) (entry_metadata e !! "contains_structure"));
          ("keywords", default (VList []) (entry_metadata e !! "keywords")) ].

(** [search_with_metadata] can look the query up: the store is open and
    the next operation on it does not raise, or it can be opened and the
    operation after the opening does not raise. *)
Definition can_search (w : world) : Prop :=
  match vectorstore w with
  | Some _ => store_works 1 w
  | None => embeddings w = true ∧ store_works 4 w
  end.

(** What [InputValidator.validate_question] refuses. *)
Definition refused_question (question : string) : Prop :=
  question = EmptyString
  ∨ str_strip question = EmptyString
  ∨ (py_len (str_strip question) < 3)%Z
  ∨ (1000 < py_len (str_strip question))%Z
  ∨ ∃ pattern, pattern ∈ InputValidator.suspicious_patterns
      ∧ re_search pattern (str_strip question) IGNORECASE = true.

(** The world the constructor of the manager leaves. *)
Definition constructed (metrics : PerformanceMetrics) (w : world) : world :=
  mkWorld (requests w ++ [VStr "test"]) (sleeps w) (7 + readings w)
          (store_ops w) (collections w) true None [metrics] 100.

(** The world a reset of a collection leaves. *)
Definition reset (collection_name : string) (w : world) : world :=
  set_vectorstore (Some collection_name)
    (set_collections (<[collection_name := []]> (collections w))
       (after_store_ops 4 w)).

(** The store [_initialize] leaves the manager with: the collection when
    the store opens, none when an operation on the store raises, the one
    it had when the embeddings are not set. *)
Definition initialized (collection_name : string) (w : world) : option string :=
  if can_open w then Some collection_name
  else if embeddings w then None
  else vectorstore w.

(** The number, among the operations on the store, of the write of
    [add_documents_enhanced]: the next operation when the store is open,
    and the one after the three of the opening when it is not. *)
Definition write_op (w : world) : nat :=
  match vectorstore w with
  | Some _ => store_ops w
  | None => 3 + store_ops w
  end.

(** The operation on the store with which [add_documents_enhanced]
    writes the entries raises [e]: the store is open, or can be opened,
    and the operation that follows raises. *)
Definition add_fails_with (e : exn) (w : world) : Prop :=
  embeddings w = true
  ∧ match vectorstore w with
    | Some _ => store_fault (store_ops w) = Some e
    | None => store_works 3 w ∧ store_fault (3 + store_ops w) = Some e
    end.

End StoreVocabulary.

(** * Properties *)

(** Case analysis on the integer comparisons of the goal, those between
    variables first. *)
Ltac compare_variables :=
  repeat (match goal with
          | |- context [(?x <? ?y)%Z] =>
              is_var x; is_var y; destruct (Z.ltb_spec x y)
          end; simpl).

Ltac compare_cases :=
  repeat match goal with
         | |- context [(?x <? ?y)%Z] => destruct (Z.ltb_spec x y)
         | |- context [(?x <=? ?y)%Z] => destruct (Z.leb_spec x y)
         | |- context [(?x =? ?y)%Z] => destruct (Z.eqb_spec x y)
         end.

(** The steps of a computation in the world, unfolded. *)
Ltac unfold_steps :=
  unfold mbind, M_bind, mret, M_ret, get_world, modify_world, store_op,
    try_except, lift, time_sleep.

(** ** The splitter *)

Section SplitterFacts.
Context `{Runtime}.
Import SmartTextSplitter.

Lemma chunk_metadata_lookup filename doc_type chunks i chunk k :
  k ≠ "keywords" →
  chunk_metadata filename doc_type chunks i chunk !! k
  = (list_to_map
       [ ("filename", VStr filename);
         ("chunk_id", VInt (Z.of_nat i));
         ("total_chunks", VInt (Z.of_nat (length chunks)));
         ("document_type", VStr doc_type);
         ("chunk_size", VInt (py_len chunk));
         ("chunk_position",
           VStr (if (Z.of_nat i =? 0)%Z then "start"
                 else if (Z.of_nat i =? Z.of_nat (length chunks) - 1)%Z then "end"
                 else "middle"));
         ("contains_structure", VBool (_has_structure_markers chunk)) ]
     : pydict) !! k.
Proof.
  intros Hk. unfold chunk_metadata.
  destruct (_extract_keywords chunk 5); [done|].
  by rewrite lookup_insert_ne.
Qed.

Lemma chunk_metadata_chunk_id filename doc_type chunks i chunk :
  chunk_metadata filename doc_type chunks i chunk !! "chunk_id"
  = Some (VInt (Z.of_nat i)).
Proof. by rewrite chunk_metadata_lookup. Qed.

Lemma chunk_metadata_total_chunks filename doc_type chunks i chunk :
  chunk_metadata filename doc_type chunks i chunk !! "total_chunks"
  = Some (VInt (Z.of_nat (length chunks))).
Proof. by rewrite chunk_metadata_lookup. Qed.

Lemma chunk_metadata_chunk_position filename doc_type chunks i chunk :
  chunk_metadata filename doc_type chunks i chunk !! "chunk_position"
  = Some (VStr (if (Z.of_nat i =? 0)%Z then "start"
                else if (Z.of_nat i =? Z.of_nat (length chunks) - 1)%Z then "end"
                else "middle")).
Proof. by rewrite chunk_metadata_lookup. Qed.

Lemma split_documents_length text filename chunk_size chunk_overlap :
  length (split_documents_with_metadata text filename chunk_size chunk_overlap)
  = length (smart_split text chunk_size chunk_overlap true).
Proof. unfold split_documents_with_metadata. by rewrite length_imap. Qed.

(** C1, as the code has it: the documents are the surviving chunks in
    order, the [i]-th carries [chunk_id = i] and [total_chunks = n], the
    number of surviving chunks, and its [chunk_position] is [start] iff
    [chunk_id = 0], [end] iff [chunk_id = total_chunks - 1] and
    [chunk_id ≠ 0], and [middle] otherwise; a single chunk is [start]. *)
Theorem split_documents_numbering text filename chunk_size chunk_overlap :
  let chunks := smart_split text chunk_size chunk_overlap true in
  let docs := split_documents_with_metadata text filename chunk_size chunk_overlap in
  let n := Z.of_nat (length docs) in
  page_content <$> docs = chunks
  ∧ (λ d, metadata d !! "chunk_id") <$> docs
    = (λ i, Some (VInt (Z.of_nat i))) <$> seq 0 (length docs)
  ∧ ∀ (i : nat) d, docs !! i = Some d →
      metadata d !! "chunk_id" = Some (VInt (Z.of_nat i))
      ∧ metadata d !! "total_chunks" = Some (VInt n)
      ∧ ∃ position,
          metadata d !! "chunk_position" = Some (VStr position)
          ∧ (position = "start" ↔ Z.of_nat i = 0%Z)
          ∧ (position = "end" ↔ Z.of_nat i = (n - 1)%Z ∧ Z.of_nat i ≠ 0%Z)
          ∧ (position = "middle" ↔ Z.of_nat i ≠ 0%Z ∧ Z.of_nat i ≠ (n - 1)%Z).
Proof.
  intros chunks docs n.
  assert (Hlen : length docs = length chunks) by apply split_documents_length.
  assert (Hdoc : ∀ (i : nat) d, docs !! i = Some d →
            ∃ chunk, chunks !! i = Some chunk
              ∧ d = mkDocument chunk
                      (chunk_metadata filename (detect_document_type text)
                                      chunks i chunk)).
  { intros i d Hd. unfold docs, split_documents_with_metadata in Hd.
    rewrite list_lookup_imap in Hd. fold chunks in Hd.
    destruct (chunks !! i) as [chunk|]; simplify_eq/=. eauto. }
  split_and!.
  - apply list_eq. intros i. rewrite list_lookup_fmap.
    destruct (docs !! i) as [d|] eqn:Hd; simpl.
    + destruct (Hdoc i d Hd) as (chunk & Hc & ->). by rewrite Hc.
    + symmetry. apply lookup_ge_None. apply lookup_ge_None in Hd. lia.
  - apply list_eq. intros i. rewrite !list_lookup_fmap.
    destruct (docs !! i) as [d|] eqn:Hd; simpl.
    + destruct (Hdoc i d Hd) as (chunk & Hc & ->).
      apply lookup_lt_Some in Hd.
      rewrite lookup_seq_lt by done. simpl.
      by rewrite chunk_metadata_chunk_id.
    + apply lookup_ge_None in Hd. by rewrite lookup_seq_ge.
  - intros i d Hd. destruct (Hdoc i d Hd) as (chunk & Hc & ->). simpl.
    rewrite chunk_metadata_chunk_id, chunk_metadata_total_chunks,
      chunk_metadata_chunk_position.
    unfold n. rewrite Hlen. split_and!; [done..|].
    eexists. split; [done|].
    destruct (Z.eqb_spec (Z.of_nat i) 0) as [Hi|Hi];
      [|destruct (Z.eqb_spec (Z.of_nat i) (Z.of_nat (length chunks) - 1))];
      split_and!; split; try done; intros; try lia; naive_solver.
Qed.

(** C2, as the code has it: [default] when no count reaches 2; otherwise
    the first of academic, technical, legal whose count is the highest,
    so that a tie for the highest count goes to the earlier type. *)
Theorem detect_document_type_first_highest text :
  let a := academic_score text in
  let t := technical_score text in
  let l := legal_score text in
  let m := Z.max a (Z.max t l) in
  detect_document_type text
  = (if (m <? 2)%Z then "default"
     else if (a =? m)%Z then "academic"
     else if (t =? m)%Z then "technical"
     else "legal")
  ∧ (detect_document_type text = "default" ↔ (m < 2)%Z)
  ∧ ((2 ≤ a)%Z ∧ (t ≤ a)%Z ∧ (l ≤ a)%Z → detect_document_type text = "academic")
  ∧ ((2 ≤ t)%Z ∧ (a < t)%Z ∧ (l ≤ t)%Z → detect_document_type text = "technical")
  ∧ ((2 ≤ l)%Z ∧ (a < l)%Z ∧ (t < l)%Z → detect_document_type text = "legal").
Proof.
  intros a t l m.
  assert (Heq : detect_document_type text
                = (if (m <? 2)%Z then "default"
                   else if (a =? m)%Z then "academic"
                   else if (t =? m)%Z then "technical"
                   else "legal")).
  { unfold detect_document_type, scores, py_max, py_max_key, scores_get. simpl.
    fold (academic_score text) (technical_score text) (legal_score text).
    fold a t l. unfold id, m. clearbody a t l.
    compare_variables.
    all: compare_cases; simpl; try reflexivity; lia. }
  split; [exact Heq|]. rewrite Heq. unfold m. clearbody a t l.
  compare_cases; split_and!; try split; intros; try done; lia.
Qed.

End SplitterFacts.

(** C1, as the specification words it, fails on a text that is a single
    chunk: its [chunk_id] is [0 = total_chunks - 1] and its position is
    [start], not [end]. *)
Lemma single_chunk_is_start :
  let docs := @SmartTextSplitter.split_documents_with_metadata Reference.runtime
                "Hello" "a.txt" 1000 200 in
  (λ d, (page_content d, metadata d !! "chunk_id", metadata d !! "total_chunks",
         metadata d !! "chunk_position")) <$> docs
  = [("Hello", Some (VInt 0), Some (VInt 1), Some (VStr "start"))]
  ∧ ¬ spec_chunk_position 0 1 "start".
Proof.
  split; [vm_compute; reflexivity|].
  intros (_ & Hend & _). discriminate (proj2 Hend eq_refl).
Qed.

Lemma split_documents_numbering_witness :
  let docs := @SmartTextSplitter.split_documents_with_metadata Reference.runtime
                "Hello world" "a.txt" 1000 200 in
  ∃ d, docs !! 0 = Some d
    ∧ metadata d !! "chunk_id" = Some (VInt 0)
    ∧ metadata d !! "total_chunks" = Some (VInt (Z.of_nat (length docs)))
    ∧ metadata d !! "chunk_position" = Some (VStr "start").
Proof.
  intros docs.
  destruct (docs !! 0) as [d|] eqn:Hd; [|by vm_compute in Hd].
  destruct (@split_documents_numbering Reference.runtime
              "Hello world" "a.txt" 1000 200) as (_ & _ & Hall).
  destruct (Hall 0 d Hd) as (Hid & Htotal & position & Hpos & Hstart & _).
  exists d. split; [reflexivity|]. split; [exact Hid|]. split; [exact Htotal|].
  rewrite Hpos. do 2 f_equal. apply Hstart. reflexivity.
Defined.

(** C2, as the specification words it, fails on a tie: two academic and
    two technical keywords give [academic], not [default]. *)
Lemma tie_goes_to_academic :
  let text := "abstract introduction api import" in
  @academic_score Reference.runtime text = 2%Z
  ∧ @technical_score Reference.runtime text = 2%Z
  ∧ @legal_score Reference.runtime text = 0%Z
  ∧ @SmartTextSplitter.detect_document_type Reference.runtime text = "academic"
  ∧ spec_detect 2 2 0 = "default".
Proof. vm_compute. done. Qed.

Lemma detect_document_type_first_highest_witness :
  let text := "Article 1 clause 2" in
  ((2 ≤ @legal_score Reference.runtime text)%Z
   ∧ (@academic_score Reference.runtime text
      < @legal_score Reference.runtime text)%Z
   ∧ (@technical_score Reference.runtime text
      < @legal_score Reference.runtime text)%Z)
  ∧ @SmartTextSplitter.detect_document_type Reference.runtime text = "legal".
Proof.
  intros text.
  assert (Hlegal :
    (2 ≤ @legal_score Reference.runtime text)%Z
    ∧ (@academic_score Reference.runtime text
       < @legal_score Reference.runtime text)%Z
    ∧ (@technical_score Reference.runtime text
       < @legal_score Reference.runtime text)%Z).
  { vm_compute. done. }
  split; [exact Hlegal|].
  destruct (@detect_document_type_first_highest Reference.runtime text)
    as (_ & _ & _ & _ & Hl).
  exact (Hl Hlegal).
Defined.

(** ** The monitor *)

Section MonitorFacts.
Context `{Environment}.
Import PerformanceMonitor.

Lemma add_metrics_run metrics w :
  _add_metrics metrics w
  = (inr tt, set_metrics_history
               (recorded (max_history w) (metrics_history w) metrics) w).
Proof.
  unfold _add_metrics, modify_world, recorded. simpl.
  by destruct (_ <? _)%Z.
Qed.

Lemma py_slice_from_last {A} (n : Z) (l : list A) :
  (0 < n)%Z → py_slice_from (- n) l = drop (length l - Z.to_nat n) l.
Proof.
  intros Hn. unfold py_slice_from.
  destruct (Z.ltb_spec (- n) 0); [|lia].
  f_equal. lia.
Qed.

Lemma py_slice_from_zero {A} (l : list A) : py_slice_from (- 0) l = l.
Proof. unfold py_slice_from. simpl. by rewrite Z.min_l by lia. Qed.

(** With a cap of at least one the recorded history fits the cap, is the
    end of the old history followed by the new entry, and so loses its
    oldest entries first. *)
Lemma recorded_bounded cap history metrics :
  (1 ≤ cap)%Z →
  (Z.of_nat (length (recorded cap history metrics)) ≤ cap)%Z
  ∧ recorded cap history metrics `suffix_of` history ++ [metrics]
  ∧ last (recorded cap history metrics) = Some metrics.
Proof.
  intros Hcap. unfold recorded.
  destruct (Z.ltb_spec cap (Z.of_nat (length (history ++ [metrics]))))
    as [Hlt|Hge].
  - rewrite py_slice_from_last by lia. split_and!.
    + rewrite length_drop. lia.
    + apply suffix_drop.
    + rewrite length_app in *. simpl in *.
      rewrite drop_app_le by lia.
      by rewrite last_snoc.
  - split_and!; [lia|done|by rewrite last_snoc].
Qed.

(** With a cap of zero nothing is ever dropped. *)
Lemma recorded_cap_zero history metrics :
  recorded 0 history metrics = history ++ [metrics].
Proof.
  unfold recorded.
  destruct (Z.ltb_spec 0 (Z.of_nat (length (history ++ [metrics])))); [|done].
  apply py_slice_from_zero.
Qed.

(** What a measured call does: it runs the function, records one entry
    that carries the operation's name, whether the function returned and
    the message of what it raised, and ends as the function ended, with
    the same result or the same exception. *)
Lemma measure_performance_run {A} operation_name (func : M A) w :
  let r := (func (started w)).1 in
  let w2 := (func (started w)).2 in
  ∃ metrics,
    operation metrics = operation_name
    ∧ success metrics = (if r is inr _ then true else false)
    ∧ error_message metrics = (if r is inl e then Some (exn_str e) else None)
    ∧ measure_performance operation_name func w
      = (r, set_metrics_history
              (recorded (max_history w2) (metrics_history w2) metrics)
              (set_readings (S (S (S (S (readings w2))))) w2)).
Proof.
  intros r w2. subst r w2.
  destruct (func (started w)) as [r w2] eqn:Hfunc.
  exists (mkMetrics
            (time_time (S (S (S (readings w2)))))
            operation_name
            (time_time (readings w2) - time_time (readings w))%float
            (process_memory_mb (S (readings w2))
             - process_memory_mb (S (readings w)))%float
            (cpu_percent (S (S (readings w2))))
            (if r is inr _ then true else false)
            (if r is inl e then Some (exn_str e) else None)).
  split_and!; [reflexivity..|].
  unfold measure_performance, _add_metrics, recorded, started in *.
  unfold mbind, M_bind, read, outcome, modify_world, set_readings in *.
  destruct w as [rq sl rd so co em vs mh mx]. cbn in *.
  rewrite Hfunc. cbn.
  destruct r; cbn; by destruct (_ <? _)%Z.
Qed.

(** With a cap of at least one, the history fits the cap after a
    measured call, and ends with the entry of that call. *)
Lemma measure_performance_bounded {A} operation_name (func : M A) w :
  let w' := (measure_performance operation_name func w).2 in
  (1 ≤ max_history (func (started w)).2)%Z →
  max_history w' = max_history (func (started w)).2
  ∧ (Z.of_nat (length (metrics_history w')) ≤ max_history w')%Z
  ∧ (operation <$> last (metrics_history w')) = Some operation_name.
Proof.
  intros w' Hcap. subst w'.
  destruct (measure_performance_run operation_name func w)
    as (metrics & Hname & _ & _ & ->).
  destruct (recorded_bounded _ (metrics_history (func (started w)).2)
              metrics Hcap) as (Hlen & _ & Hlast).
  cbn. split_and!; [done|done|]. by rewrite Hlast, <- Hname.
Qed.

End MonitorFacts.

(** C9 fails for a cap of zero: [history[-0:]] is the whole history, so
    nothing is evicted.  Two measured calls on a monitor built with
    [max_history = 0] leave two entries. *)
Lemma history_outgrows_cap_zero :
  let env := Reference.environment [] [] in
  let w0 := (@PerformanceMonitor.__init__ 0 Reference.boot).2 in
  let call := @PerformanceMonitor.measure_performance env unit "op" (mret tt) in
  let w2 := (call (call w0).2).2 in
  max_history w2 = 0%Z
  ∧ operation <$> metrics_history w2 = ["op"; "op"]
  ∧ (max_history w2 < Z.of_nat (length (metrics_history w2)))%Z.
Proof. vm_compute. done. Qed.

(** ** The embedding service *)

Section EmbeddingFacts.
Context `{Runtime} `{Environment}.
Import HuggingFaceAPIEmbeddings.

Lemma generate_fake_embeddings_vectors texts :
  _generate_fake_embeddings texts = VList (fake_vector <$> texts).
Proof. reflexivity. Qed.

Lemma fake_vector_is_vector text : is_vector (fake_vector text) = true.
Proof.
  unfold fake_vector, is_vector. rewrite length_fmap, length_seqZ.
  apply andb_true_intro. split; [by apply bool_decide_eq_true|].
  apply forallb_forall. intros v Hv. apply in_map_iff in Hv.
  by destruct Hv as (j & <- & _).
Qed.

(** One round of the loop, by the verdict of the answer. *)
Lemma attempt_once_run texts attempt w :
  attempt_once texts 3 attempt w
  = match classify (remote (length (requests w)) (payload texts)) with
    | Usable v => (inr (Return v), after_requests 1 (payload texts) [] w)
    | Busy => (inr Continue, after_requests 1 (payload texts) [(2 ^ attempt)%Z] w)
    | Refused => (inr Break, after_requests 1 (payload texts) [] w)
    | Failed =>
        if (attempt <? 2)%Z
        then (inr Continue, after_requests 1 (payload texts) [1%Z] w)
        else (inr Break, after_requests 1 (payload texts) [] w)
    end.
Proof.
  unfold attempt_once, requests_post, classify, after_requests.
  unfold_steps. fold (payload texts). change (3 - 1)%Z with 2%Z.
  destruct w as [rq sl rd so co em vs mh mx]. cbn.
  destruct (remote (length rq) (payload texts)) as [status json|e]; cbn.
  - destruct (status =? 200)%Z.
    + destruct json as [e|embeddings]; cbn.
      * destruct (attempt <? 2)%Z; unfold set_sleeps, set_requests; cbn;
          by rewrite ?app_nil_r.
      * destruct (py_getitem0 embeddings) as [e|first]; cbn.
        -- destruct (attempt <? 2)%Z; unfold set_sleeps, set_requests; cbn;
             by rewrite ?app_nil_r.
        -- destruct (is_list first); unfold set_sleeps, set_requests; cbn;
             by rewrite ?app_nil_r.
    + destruct (status =? 503)%Z; unfold set_sleeps, set_requests; cbn;
        by rewrite ?app_nil_r.
  - destruct (attempt <? 2)%Z; unfold set_sleeps, set_requests; cbn;
      by rewrite ?app_nil_r.
Qed.

Lemma after_requests_length n inputs delays w :
  length (requests (after_requests n inputs delays w)) = length (requests w) + n.
Proof. unfold after_requests. cbn. by rewrite length_app, length_replicate. Qed.

Lemma after_requests_compose n1 n2 inputs d1 d2 w :
  after_requests n2 inputs d2 (after_requests n1 inputs d1 w)
  = after_requests (n1 + n2) inputs (d1 ++ d2) w.
Proof.
  unfold after_requests, set_sleeps, set_requests. cbn.
  by rewrite replicate_add, !app_assoc.
Qed.

Lemma after_requests_none inputs w : after_requests 0 inputs [] w = w.
Proof.
  unfold after_requests, set_sleeps, set_requests. destruct w. cbn.
  by rewrite !app_nil_r.
Qed.

Lemma verdicts_from_S texts w k :
  verdicts_from texts w (S k)
  = classify (remote (length (requests w)) (payload texts))
    :: verdicts_from texts (after_requests 1 (payload texts) [] w) k.
Proof.
  unfold verdicts_from. cbn [seq fmap list_fmap]. f_equal.
  - by rewrite Nat.add_0_r.
  - rewrite <- fmap_S_seq, <- list_fmap_compose.
    apply list_fmap_ext. intros _ i _. unfold compose.
    rewrite after_requests_length. do 2 f_equal. lia.
Qed.

Lemma verdicts_from_delays texts w k delays :
  verdicts_from texts (after_requests 1 (payload texts) delays w) k
  = verdicts_from texts (after_requests 1 (payload texts) [] w) k.
Proof. unfold verdicts_from. by rewrite !after_requests_length. Qed.

(** The loop follows the retry policy. *)
Lemma for_attempts_run texts k : ∀ attempt w,
  for_attempts (attempt_once texts 3) (seqZ attempt (Z.of_nat k)) w
  = let '(r, n, delays) := retry_policy attempt (verdicts_from texts w k) in
    (inr r, after_requests n (payload texts) delays w).
Proof.
  induction k as [|k IH]; intros attempt w.
  - cbn. by rewrite after_requests_none.
  - rewrite seqZ_cons by lia.
    replace (Z.pred (Z.of_nat (S k))) with (Z.of_nat k) by lia.
    rewrite verdicts_from_S. cbn [for_attempts].
    unfold mbind, M_bind. rewrite attempt_once_run.
    replace (Z.succ attempt) with (attempt + 1)%Z by lia.
    destruct (classify _) as [v| | |]; cbn [retry_policy]; try done.
    + rewrite IH, verdicts_from_delays.
      destruct (retry_policy _ _) as [[r n] delays].
      by rewrite after_requests_compose.
    + destruct (attempt <? 2)%Z; [|done].
      rewrite IH, verdicts_from_delays.
      destruct (retry_policy _ _) as [[r n] delays].
      by rewrite after_requests_compose.
Qed.

Lemma call_api_run texts w :
  _call_api texts 3 w
  = let '(r, n, delays) := retry_policy 0 (next_verdicts texts w) in
    (inr (default (_generate_fake_embeddings texts) r),
     after_requests n (payload texts) delays w).
Proof.
  unfold _call_api, mbind, M_bind.
  change 3%Z with (Z.of_nat 3) at 2.
  rewrite (for_attempts_run texts 3 0 w).
  change (verdicts_from texts w 3) with (next_verdicts texts w).
  by destruct (retry_policy _ _) as [[[v|] n] delays].
Qed.


Lemma all_fail_honest : all_fail → honest.
Proof. intros Hfail n texts v Hv. by destruct (Hfail n (payload texts) v). Qed.

Lemma retry_policy_usable verdicts : ∀ attempt v n delays,
  retry_policy attempt verdicts = (Some v, n, delays) → Usable v ∈ verdicts.
Proof.
  induction verdicts as [|[v'| | |] rest IH]; intros attempt v n delays Hp;
    cbn in Hp; try done.
  - simplify_eq. apply list_elem_of_here.
  - destruct (retry_policy _ rest) as [[r n'] d] eqn:Hr. simplify_eq.
    apply list_elem_of_further. eauto.
  - destruct (attempt <? 2)%Z; [|done].
    destruct (retry_policy _ rest) as [[r n'] d] eqn:Hr. simplify_eq.
    apply list_elem_of_further. eauto.
Qed.

Lemma call_api_result texts w :
  ∃ v w', _call_api texts 3 w = (inr v, w') ∧ call_result texts v.
Proof.
  rewrite call_api_run.
  destruct (retry_policy 0 (next_verdicts texts w)) as [[[v|] n] delays] eqn:Hp;
    do 2 eexists; (split; [done|]); cbn.
  - right. apply retry_policy_usable in Hp.
    apply list_elem_of_fmap in Hp as (i & Hv & _). eauto.
  - by left.
Qed.

(** A usable answer is a non-empty list or tuple. *)
Lemma classify_usable r v :
  classify r = Usable v →
  ∃ x l, (v = VList (x :: l) ∨ v = VTuple (x :: l)).
Proof.
  destruct r as [status json|e]; cbn; [|done].
  destruct (status =? 200)%Z; [|by destruct (status =? 503)%Z].
  destruct json as [e|embeddings]; [done|].
  destruct (py_getitem0 embeddings) as [e|first] eqn:Hfirst; [done|].
  destruct (is_list first) eqn:Hlist; intros [= <-]; [|eauto].
  destruct embeddings as [| | | |s|[|x l]|[|x l]| |]; simplify_eq/=; eauto.
  by destruct (code_points s); simplify_eq/=.
Qed.

Lemma call_result_iter texts v :
  call_result texts v → ∃ items, py_iter v = inr items.
Proof.
  intros [->|[n Hn]]; [by eexists|].
  apply classify_usable in Hn as (x & l & [->| ->]); by eexists.
Qed.

Lemma call_result_fallback texts v :
  all_fail → call_result texts v → v = VList (fake_vector <$> texts).
Proof. intros Hfail [->|[n Hn]]; [done|]. by destruct (Hfail _ _ _ Hn). Qed.

Lemma call_result_shaped texts v :
  honest → call_result texts v → shaped texts v.
Proof.
  intros Hhonest [->|[n Hn]]; [|eauto].
  exists (fake_vector <$> texts). split_and!; [done|by rewrite length_fmap|].
  apply Forall_fmap, Forall_forall. intros text _. apply fake_vector_is_vector.
Qed.

(** The batches cover the texts, in order. *)
Lemma batches_cover {A} (l : list A) (size : nat) :
  0 < size →
  concat ((λ i, py_slice i (i + size) l) <$> py_range_step (length l) size) = l.
Proof.
  intros Hsize. unfold py_range_step. rewrite <- list_fmap_compose.
  assert (Hk : ∀ k, concat ((λ i, py_slice i (i + size) l) ∘ (λ k, k * size)
                            <$> seq 0 k) = take (k * size) l).
  { induction k as [|k IH]; [done|].
    rewrite seq_S, fmap_app, concat_app, IH. cbn.
    unfold py_slice. rewrite app_nil_r.
    replace (k * size + size - k * size) with size by lia.
    rewrite take_take_drop. f_equal. lia. }
  rewrite Hk. apply take_ge.
  pose proof (Nat.div_mod (length l + size - 1) size ltac:(lia)).
  pose proof (Nat.mod_upper_bound (length l + size - 1) size ltac:(lia)).
  nia.
Qed.

(** The loop of [embed_documents] never raises, and appends to what it
    has the elements of what the calls return, batch by batch. *)
Lemma embed_batches_run texts size starts : ∀ all_embeddings w,
  ∃ news w',
    embed_batches texts size starts all_embeddings w
    = (inr (all_embeddings ++ concat news), w')
    ∧ Forall2 (λ i items, ∃ v, call_result (py_slice i (i + size) texts) v
                               ∧ py_iter v = inr items)
              starts news.
Proof.
  induction starts as [|i rest IH]; intros acc w.
  - exists [], w. cbn. by rewrite app_nil_r.
  - cbn [embed_batches]. unfold mbind, M_bind.
    destruct (call_api_result (py_slice i (i + size) texts) w)
      as (v & w1 & -> & Hv).
    destruct (call_result_iter _ _ Hv) as [items Hitems].
    unfold lift. rewrite Hitems.
    destruct (IH (acc ++ items) w1) as (news & w' & -> & Hnews).
    exists (items :: news), w'. split.
    + cbn. by rewrite app_assoc.
    + constructor; eauto.
Qed.

Lemma embed_documents_run texts w :
  ∃ vectors w',
    embed_documents texts w = (inr vectors, w')
    ∧ (honest →
       length vectors = length texts ∧ Forall (λ v, is_vector v = true) vectors)
    ∧ (all_fail → vectors = fake_vector <$> texts).
Proof.
  unfold embed_documents.
  destruct (embed_batches_run texts 10 (py_range_step (length texts) 10) [] w)
    as (news & w' & -> & Hnews).
  exists (concat news), w'. split; [done|].
  pose proof (batches_cover texts 10 ltac:(lia)) as Hcover.
  revert Hcover Hnews. generalize (py_range_step (length texts) 10).
  intros starts Hcover Hnews. split.
  - intros Hhonest. rewrite <- Hcover at 1. clear Hcover.
    induction Hnews as [|i items starts news (v & Hv & Hitems) _ [IHlen IHvec]];
      [done|].
    apply (call_result_shaped _ _ Hhonest) in Hv as (vectors & -> & Hlen & Hvec).
    cbn in Hitems. simplify_eq. cbn. rewrite !length_app, Hlen, IHlen.
    split; [done|]. by apply Forall_app.
  - intros Hfail. rewrite <- Hcover at 1. clear Hcover.
    induction Hnews as [|i items starts news (v & Hv & Hitems) _ IH]; [done|].
    apply (call_result_fallback _ _ Hfail) in Hv as ->.
    cbn in Hitems. simplify_eq. cbn. by rewrite fmap_app, IH.
Qed.

Lemma embed_query_run text w :
  ∃ vector w',
    embed_query text w = (inr vector, w')
    ∧ (honest → is_vector vector = true)
    ∧ (all_fail → vector = fake_vector text).
Proof.
  unfold embed_query, mbind, M_bind.
  destruct (call_api_result [text] w) as (v & w' & -> & Hv).
  assert (Hitem : ∃ x l, (v = VList (x :: l) ∨ v = VTuple (x :: l))).
  { destruct Hv as [->|[n Hn]]; [|by eapply classify_usable].
    exists (fake_vector text), []. by left. }
  destruct Hitem as (x & l & Hvl).
  exists x, w'. split_and!.
  - by destruct Hvl as [-> | ->].
  - intros Hhonest.
    apply (call_result_shaped _ _ Hhonest) in Hv as (vectors & -> & Hlen & Hvec).
    destruct Hvl as [[= ->]|]; [|done]. by inversion Hvec.
  - intros Hfail. apply (call_result_fallback _ _ Hfail) in Hv as ->.
    by destruct Hvl as [[= <- <-]|].
Qed.

(** C4, as the code has it: [embed_documents] and [embed_query] never
    raise, whatever the endpoint does; when the endpoint keeps its
    contract on the answers that are used (and so also when every call
    fails and the fallback is used) they return one vector for each text,
    each of 384 numbers. *)
Theorem embeddings_total_and_shaped texts text w :
  (∃ vectors w',
     embed_documents texts w = (inr vectors, w')
     ∧ (honest →
        length vectors = length texts
        ∧ Forall (λ v, is_vector v = true) vectors))
  ∧ (∃ vector w',
       embed_query text w = (inr vector, w')
       ∧ (honest → is_vector vector = true)).
Proof.
  split.
  - destruct (embed_documents_run texts w) as (vectors & w' & Hrun & Hshape & _).
    eauto.
  - destruct (embed_query_run text w) as (vector & w' & Hrun & Hshape & _).
    eauto.
Qed.

(** A query changes nothing but the requests sent and the delays slept. *)
Lemma embed_query_frame text w :
  ∃ n delays,
    (embed_query text w).2 = after_requests n (payload [text]) delays w.
Proof.
  unfold embed_query, mbind, M_bind. rewrite call_api_run.
  destruct (retry_policy 0 (next_verdicts [text] w)) as [[r n] delays].
  exists n, delays. unfold lift.
  by destruct (py_truthy _), (py_getitem0 _).
Qed.

End EmbeddingFacts.

(** C3, as the code has it: while every remote call fails,
    [embed_query] returns the fallback vector of the text, whatever the
    failures are and whatever happened before.  The vector is a function
    of the text and of the hash seed of the process: two calls on the
    same text, in one process or in two that have the same seed, return
    the same vector. *)
Theorem fallback_is_deterministic `{Runtime} (env1 env2 : Environment)
    (text : string) (w1 w2 : world) :
  @all_fail env1 → @all_fail env2 →
  @hash_seed env1 = @hash_seed env2 →
  (@HuggingFaceAPIEmbeddings.embed_query _ env1 text w1).1
  = inr (@fake_vector _ env1 text)
  ∧ (@HuggingFaceAPIEmbeddings.embed_query _ env2 text w2).1
    = (@HuggingFaceAPIEmbeddings.embed_query _ env1 text w1).1.
Proof.
  intros Hfail1 Hfail2 Hseed.
  destruct (@embed_query_run _ env1 text w1) as (v1 & w1' & Hrun1 & _ & Hv1).
  destruct (@embed_query_run _ env2 text w2) as (v2 & w2' & Hrun2 & _ & Hv2).
  rewrite Hrun1, Hrun2. cbn. rewrite Hv1, Hv2 by done.
  unfold fake_vector. by rewrite Hseed.
Qed.

Lemma fallback_is_deterministic_witness :
  let env := Reference.environment [] [] in
  let w1 := Reference.boot in
  let w2 :=
    (@HuggingFaceAPIEmbeddings.embed_query Reference.runtime env "abc" w1).2 in
  @all_fail env
  ∧ (@HuggingFaceAPIEmbeddings.embed_query Reference.runtime env "abc" w1).1
    = inr (@fake_vector Reference.runtime env "abc")
  ∧ (@HuggingFaceAPIEmbeddings.embed_query Reference.runtime env "abc" w2).1
    = (@HuggingFaceAPIEmbeddings.embed_query Reference.runtime env "abc" w1).1.
Proof.
  intros env w1 w2.
  assert (Hfail : @all_fail env).
  { intros n inputs v. cbn. by destruct n. }
  split; [exact Hfail|].
  exact (@fallback_is_deterministic Reference.runtime env env "abc" w1 w2
           Hfail Hfail eq_refl).
Defined.

(** C3, as the specification words it, fails across processes: the
    vector is computed from [hash(text)], which CPython salts with the
    seed of the process.  With the endpoint unreachable, the text
    ["abc"] gets [hash(text) % 1000 = 413] and a vector that starts with
    [0.1 + 413 / 10000.0] in a process started with the seed 1, and
    [860] and [0.1 + 860 / 10000.0] in one started with the seed 2. *)
Lemma fallback_depends_on_hash_seed :
  let env1 := Reference.seeded 1 (Reference.environment [] []) in
  let env2 := Reference.seeded 2 (Reference.environment [] []) in
  let first_of (run : result pyval * world) : option float :=
    match run.1 with
    | inr (VList (VFloat x :: _)) => Some x
    | _ => None
    end in
  let run1 :=
    @HuggingFaceAPIEmbeddings.embed_query Reference.runtime env1 "abc"
      Reference.boot in
  let run2 :=
    @HuggingFaceAPIEmbeddings.embed_query Reference.runtime env2 "abc"
      Reference.boot in
  @all_fail env1 ∧ @all_fail env2
  ∧ (py_hash (Runtime := Reference.runtime) 1 "abc" `mod` 1000 = 413)%Z
  ∧ (py_hash (Runtime := Reference.runtime) 2 "abc" `mod` 1000 = 860)%Z
  ∧ first_of run1 = Some (0.1 + 413 / 10000.0 + 0 * 0.001)%float
  ∧ first_of run2 = Some (0.1 + 860 / 10000.0 + 0 * 0.001)%float
  ∧ run1.1 ≠ run2.1.
Proof.
  intros env1 env2 first_of run1 run2.
  assert (Hfirst1 : first_of run1 = Some (0.1 + 413 / 10000.0 + 0 * 0.001)%float)
    by (vm_compute; reflexivity).
  assert (Hfirst2 : first_of run2 = Some (0.1 + 860 / 10000.0 + 0 * 0.001)%float)
    by (vm_compute; reflexivity).
  split; [|split; [|split; [|split; [|split; [|split]]]]].
  - intros n inputs v. cbn. by destruct n.
  - intros n inputs v. cbn. by destruct n.
  - reflexivity.
  - reflexivity.
  - exact Hfirst1.
  - exact Hfirst2.
  - intros Hsame.
    assert (Hfirst : first_of run1 = first_of run2)
      by (unfold first_of; by rewrite Hsame).
    rewrite Hfirst1, Hfirst2 in Hfirst.
    apply (f_equal (λ o, match o with
                         | Some x => PrimFloat.ltb x 0.15
                         | None => false
                         end)) in Hfirst.
    vm_compute in Hfirst. discriminate Hfirst.
Qed.

(** C4, as the specification words it, fails on a 200 answer that does
    not have the promised shape: it is returned as it is, here one vector
    of one number for a query, and one vector for two texts. *)
Lemma unchecked_answer_is_returned :
  let env :=
    Reference.environment
      [HttpResponse 200 (inr (VList [VList [VFloat 0.5]]))] [] in
  (@HuggingFaceAPIEmbeddings.embed_query Reference.runtime env "a"
     Reference.boot).1 = inr (VList [VFloat 0.5])
  ∧ is_vector (VList [VFloat 0.5]) = false
  ∧ (@HuggingFaceAPIEmbeddings.embed_documents Reference.runtime env
       ["a"; "b"] Reference.boot).1 = inr [VList [VFloat 0.5]].
Proof. vm_compute. done. Qed.

Lemma embeddings_total_and_shaped_witness :
  let env := Reference.environment [] [] in
  @honest env
  ∧ (∃ vectors w',
       @HuggingFaceAPIEmbeddings.embed_documents Reference.runtime env
         ["a"; "b"] Reference.boot = (inr vectors, w')
       ∧ length vectors = 2
       ∧ Forall (λ v, is_vector v = true) vectors)
  ∧ (∃ vector w',
       @HuggingFaceAPIEmbeddings.embed_query Reference.runtime env "a"
         Reference.boot = (inr vector, w')
       ∧ is_vector vector = true).
Proof.
  intros env.
  assert (Hhonest : @honest env).
  { intros n texts v. cbn. by destruct n. }
  split; [exact Hhonest|].
  destruct (@embeddings_total_and_shaped Reference.runtime env
              ["a"; "b"] "a" Reference.boot)
    as [(vectors & w' & Hrun & Hshape) (vector & w'' & Hrun' & Hshape')].
  split.
  - exists vectors, w'. split; [exact Hrun|]. exact (Hshape Hhonest).
  - exists vector, w''. split; [exact Hrun'|]. exact (Hshape' Hhonest).
Defined.


(** ** Metadata at the storage boundary *)

Section MetadataFacts.
Context `{Runtime} `{Environment}.
Import EnhancedVectorStoreManager.

Lemma sanitized_is_scalar value : is_scalar (sanitized value) = true.
Proof. by destruct value. Qed.

Lemma sanitized_scalar value : is_scalar value = true → sanitized value = value.
Proof. by destruct value. Qed.

Lemma json_rejected_type_serializable :
  ∀ v, json_serializable v = bool_decide (json_rejected_type v = None).
Proof.
  fix IH 1. intros [| | | | |l|l|d|type_name text];
    [reflexivity|reflexivity|reflexivity|reflexivity|reflexivity
    | | | |reflexivity].
  - induction l as [|x l IHl]; [reflexivity|].
    cbn in IHl |- *. rewrite (IH x), IHl. clear IH IHl.
    by destruct (json_rejected_type x).
  - induction l as [|x l IHl]; [reflexivity|].
    cbn in IHl |- *. rewrite (IH x), IHl. clear IH IHl.
    by destruct (json_rejected_type x).
  - induction d as [|[key x] d IHd]; [reflexivity|].
    cbn in IHd |- *. rewrite (IH x), IHd. clear IH IHd.
    by destruct (json_rejected_type x).
Qed.

Lemma json_dumps_run value :
  json_dumps value
  = if json_serializable value then inr (json_encode value)
    else inl (rejection value).
Proof.
  unfold json_dumps, rejection. rewrite json_rejected_type_serializable.
  by destruct (json_rejected_type value).
Qed.

Lemma filter_value_run value :
  filter_value value
  = if convertible value then inr (sanitized value) else inl (rejection value).
Proof.
  destruct value; try done.
  unfold filter_value, convertible. cbn [is_scalar].
  rewrite json_dumps_run. by destruct (json_serializable _).
Qed.

Lemma filter_metadata_run (m : pydict) :
  (map_Forall (λ _ value, convertible value = true) m
   → filter_metadata m = inr (sanitized <$> m))
  ∧ (¬ map_Forall (λ _ value, convertible value = true) m
     → ∃ key value,
         m !! key = Some value ∧ convertible value = false
         ∧ filter_metadata m = inl (rejection value)).
Proof.
  unfold filter_metadata.
  apply (map_fold_weak_ind
           (λ acc m,
              (map_Forall (λ _ value, convertible value = true) m
               → acc = inr (sanitized <$> m))
              ∧ (¬ map_Forall (λ _ value, convertible value = true) m
                 → ∃ key value,
                     m !! key = Some value ∧ convertible value = false
                     ∧ acc = inl (rejection value)))).
  - split; [by rewrite fmap_empty|].
    intros Hnot. destruct Hnot. apply map_Forall_empty.
  - intros key value m' acc Hfresh [IHok IHnot]. split.
    + intros Hall. apply map_Forall_insert in Hall as [Hvalue Hall]; [|done].
      rewrite (IHok Hall). cbn. rewrite filter_value_run, Hvalue. cbn.
      by rewrite fmap_insert.
    + intros Hnot.
      destruct (decide (map_Forall (λ _ value, convertible value = true) m'))
        as [Hall|Hall].
      * rewrite (IHok Hall). cbn. rewrite filter_value_run.
        destruct (convertible value) eqn:Hvalue.
        { destruct Hnot. by apply map_Forall_insert. }
        exists key, value. by rewrite lookup_insert_eq.
      * destruct (IHnot Hall) as (key' & value' & Hkey' & Hvalue' & ->).
        exists key', value'. split_and!; [|done|done].
        rewrite lookup_insert_ne; [done|]. by intros ->; simplify_eq.
Qed.

Lemma filter_complex_metadata_ok documents :
  Forall convertible_document documents →
  _filter_complex_metadata documents = inr (sanitized_document <$> documents).
Proof.
  induction 1 as [|doc rest Hdoc Hrest IH]; [done|].
  cbn [_filter_complex_metadata].
  destruct (filter_metadata_run (metadata doc)) as [Hok _].
  rewrite (Hok Hdoc). cbn. by rewrite IH.
Qed.

Lemma filter_complex_metadata_raises documents :
  ¬ Forall convertible_document documents →
  ∃ doc key value,
    doc ∈ documents ∧ metadata doc !! key = Some value
    ∧ convertible value = false
    ∧ _filter_complex_metadata documents = inl (rejection value).
Proof.
  induction documents as [|doc rest IH]; intros Hnot.
  - destruct Hnot. constructor.
  - cbn [_filter_complex_metadata].
    destruct (filter_metadata_run (metadata doc)) as [Hok Hraises].
    destruct (decide (convertible_document doc)) as [Hdoc|Hdoc].
    + rewrite (Hok Hdoc). cbn.
      destruct IH as (doc' & key & value & Hin & Hkey & Hvalue & ->).
      { intros Hrest. apply Hnot. by constructor. }
      exists doc', key, value. split_and!; [by right|done|done|done].
    + destruct (Hraises Hdoc) as (key & value & Hkey & Hvalue & ->).
      exists doc, key, value. split_and!; [by left|done|done|done].
Qed.

Lemma filter_complex_metadata_inv documents filtered_docs :
  _filter_complex_metadata documents = inr filtered_docs →
  Forall convertible_document documents
  ∧ filtered_docs = sanitized_document <$> documents.
Proof.
  intros Hrun.
  destruct (decide (Forall convertible_document documents)) as [Hall|Hnot].
  - rewrite (filter_complex_metadata_ok _ Hall) in Hrun. by simplify_eq.
  - destruct (filter_complex_metadata_raises _ Hnot)
      as (doc & key & value & _ & _ & _ & Hraises).
    by rewrite Hraises in Hrun.
Qed.

(** What sanitization does, on any documents: it returns exactly when
    every dict among the values is JSON serializable, and raises the
    [TypeError] of [json.dumps] otherwise, which names the type of a
    value that a dict holds; when it returns, every value has become a
    string, integer, float, boolean or None: scalars pass through, a list
    becomes its items joined by [", "], a dict its JSON text, and any
    other value its string form. *)
Lemma filter_complex_metadata_sanitizes documents :
  (Forall convertible_document documents →
   _filter_complex_metadata documents = inr (sanitized_document <$> documents))
  ∧ (¬ Forall convertible_document documents →
     ∃ doc key d type_name,
       doc ∈ documents ∧ metadata doc !! key = Some (VDict d)
       ∧ json_rejected_type (VDict d) = Some type_name
       ∧ _filter_complex_metadata documents = inl (not_serializable type_name))
  ∧ (∀ value, is_scalar (sanitized value) = true)
  ∧ (∀ value,
       sanitized value
       = if is_scalar value then value
         else match value with
              | VList l => VStr (str_join ", " (py_str <$> l))
              | VDict _ => VStr (json_encode value)
              | _ => VStr (py_str value)
              end).
Proof.
  split; [|split; [|split]].
  - apply filter_complex_metadata_ok.
  - intros Hnot.
    destruct (filter_complex_metadata_raises _ Hnot)
      as (doc & key & value & Hin & Hkey & Hvalue & Hraises).
    destruct value as [| | | | | | |d|]; try done.
    unfold convertible in Hvalue.
    rewrite json_rejected_type_serializable in Hvalue.
    destruct (json_rejected_type (VDict d)) as [type_name|] eqn:Htype; [|done].
    exists doc, key, d, type_name. split_and!; [done|done|done|].
    rewrite Hraises. unfold rejection. by rewrite Htype.
  - apply sanitized_is_scalar.
  - by intros [].
Qed.

(** C10: sanitization keeps the contents, the keys and the scalar values
    of every document it returns, and it returns whenever no dict among
    the values is rejected by [json.dumps]. *)
Theorem filter_complex_metadata_frame documents :
  (∀ filtered_docs,
     _filter_complex_metadata documents = inr filtered_docs →
     Forall2
       (λ doc filtered_doc,
          page_content filtered_doc = page_content doc
          ∧ dom (metadata filtered_doc) =@{gset string} dom (metadata doc)
          ∧ ∀ key value,
              metadata doc !! key = Some value → is_scalar value = true →
              metadata filtered_doc !! key = Some value)
       documents filtered_docs)
  ∧ (Forall convertible_document documents
     → ∃ filtered_docs, _filter_complex_metadata documents = inr filtered_docs).
Proof.
  split.
  - intros filtered_docs [_ ->]%filter_complex_metadata_inv.
    apply Forall2_fmap_r, Forall_Forall2_diag, Forall_forall.
    intros doc _. cbn. split_and!; [done|by rewrite dom_fmap_L|].
    intros key value Hkey Hscalar.
    rewrite lookup_fmap, Hkey. cbn. by rewrite sanitized_scalar.
  - intros Hall. eexists. by apply filter_complex_metadata_ok.
Qed.

End MetadataFacts.


Example sample_document_sanitized :
  fmap (M := result)
    (fmap (M := list)
       (λ doc, (λ key, metadata doc !! key)
               <$> ["filename"; "chunk_id"; "keywords"; "extra"; "when"]))
    (@EnhancedVectorStoreManager._filter_complex_metadata Reference.runtime
       [sample_document])
  = inr [[ Some (VStr "a.txt"); Some (VInt 0); Some (VStr "alpha, beta");
           Some (VStr ("{" +:+ Reference.DQ +:+ "k" +:+ Reference.DQ +:+ ": 1}"));
           Some (VStr "2024-01-01 00:00:00") ]].
Proof. vm_compute. done. Qed.

Lemma filter_complex_metadata_frame_witness :
  let documents := [sample_document] in
  let filtered_docs := @sanitized_document Reference.runtime <$> documents in
  Forall (@convertible_document) documents
  ∧ @EnhancedVectorStoreManager._filter_complex_metadata Reference.runtime
      documents = inr filtered_docs
  ∧ Forall2
      (λ doc filtered_doc,
         page_content filtered_doc = page_content doc
         ∧ dom (metadata filtered_doc) =@{gset string} dom (metadata doc)
         ∧ ∀ key value,
             metadata doc !! key = Some value → is_scalar value = true →
             metadata filtered_doc !! key = Some value)
      documents filtered_docs.
Proof.
  intros documents filtered_docs.
  assert (Hall : Forall (@convertible_document) documents).
  { unfold convertible_document. apply (bool_decide_unpack _).
    vm_compute. exact I. }
  destruct (@filter_complex_metadata_frame Reference.runtime documents)
    as [Hframe Hreturns].
  destruct (Hreturns Hall) as [out Hout].
  assert (Hrun : @EnhancedVectorStoreManager._filter_complex_metadata
                   Reference.runtime documents = inr filtered_docs).
  { vm_compute. reflexivity. }
  split; [exact Hall|]. split; [exact Hrun|].
  exact (Hframe filtered_docs Hrun).
Defined.

(** ** The vector store *)

Section StoreFacts.
Context `{Runtime} `{Environment}.
Import EnhancedVectorStoreManager.

Lemma run_bind {A B} (m : M A) (f : A → M B) w :
  (m ≫= f) w
  = match m w with
    | (inl e, w') => (inl e, w')
    | (inr x, w') => f x w'
    end.
Proof. reflexivity. Qed.

(** Opening a collection adds no entry to any collection. *)
Lemma get_or_create_collection_entries collection_name store other :
  default [] (get_or_create_collection collection_name store !! other)
  = default [] (store !! other).
Proof.
  unfold get_or_create_collection.
  destruct (store !! collection_name) eqn:Hc; [done|].
  destruct (decide (collection_name = other)) as [<-|Hne].
  - by rewrite lookup_insert_eq, Hc.
  - by rewrite lookup_insert_ne.
Qed.

(** What [_initialize] does. *)
Lemma _initialize_run collection_name w :
  ∃ w',
    _initialize collection_name w = (inr (can_open w), w')
    ∧ same_entries w w'
    ∧ requests w' = requests w
    ∧ embeddings w' = embeddings w
    ∧ (can_open w = true →
       vectorstore w' = Some collection_name
       ∧ collections w'
         = get_or_create_collection collection_name (collections w))
    ∧ (can_open w = false →
       collections w' = collections w
       ∧ (vectorstore w = None → vectorstore w' = None)).
Proof.
  unfold _initialize, can_open, os_makedirs, PersistentClient, Chroma.
  unfold_steps. unfold same_entries, entries.
  destruct w as [rq sl rd so co em vs mh mx]. cbn.
  destruct em; cbn; [|by eexists].
  destruct (store_fault so); cbn; [by eexists|].
  destruct (store_fault (S so)); cbn; [by eexists|].
  destruct (store_fault (S (S so))); cbn; [by eexists|].
  eexists. split_and!; try done.
  intros other. cbn. apply get_or_create_collection_entries.
Qed.

(** The decorator changes nothing of the store: the measured call ends
    as the function ended, in a world with the same store. *)
Lemma measured_run {A} operation_name (func : M A) w :
  ∃ w',
    PerformanceMonitor.measure_performance operation_name func w
    = ((func (started w)).1, w')
    ∧ collections w' = collections (func (started w)).2
    ∧ vectorstore w' = vectorstore (func (started w)).2
    ∧ embeddings w' = embeddings (func (started w)).2
    ∧ requests w' = requests (func (started w)).2.
Proof.
  destruct (measure_performance_run operation_name func w)
    as (metrics & _ & _ & _ & ->).
  by eexists.
Qed.

Lemma initialize_vectorstore_run collection_name w :
  ∃ w',
    initialize_vectorstore collection_name w = (inr (can_open w), w')
    ∧ same_entries w w'
    ∧ requests w' = requests w
    ∧ embeddings w' = embeddings w
    ∧ (can_open w = true →
       vectorstore w' = Some collection_name
       ∧ collections w'
         = get_or_create_collection collection_name (collections w))
    ∧ (can_open w = false →
       collections w' = collections w
       ∧ (vectorstore w = None → vectorstore w' = None)).
Proof.
  unfold initialize_vectorstore.
  destruct (measured_run "initialize_vectorstore" (_initialize collection_name) w)
    as (w' & -> & Hco & Hvs & Hem & Hrq).
  destruct (_initialize_run collection_name (started w))
    as (w1 & Hrun & Hent & Hrq1 & Hem1 & Hopen & Hshut).
  rewrite Hrun in *. cbn in *.
  change (can_open (started w)) with (can_open w) in *.
  exists w'. split_and!; try done; try congruence.
  - intros other. unfold entries. rewrite Hco. apply Hent.
  - intros Hcan. destruct (Hopen Hcan) as [Hvs1 Hco1]. split; congruence.
  - intros Hcan. destruct (Hshut Hcan) as [Hco1 Hvs1]. split; [congruence|].
    intros Hnone. rewrite Hvs. by apply Hvs1.
Qed.

Lemma omap_lookup_nil {A B} (f : A → B) (positions : list nat) :
  omap (λ i, f <$> ([] : list A) !! i) positions = [].
Proof. induction positions as [|i rest IH]; [done|]. cbn. by rewrite IH. Qed.

(** A similarity search in a collection without entries finds nothing. *)
Lemma similarity_search_empty handle query k w documents w' :
  Chroma_similarity_search handle query k w = (inr documents, w') →
  entries w handle = [] →
  documents = [].
Proof.
  unfold Chroma_similarity_search. rewrite run_bind.
  destruct (embed_query_run query w) as (vector & w1 & Hrun & _).
  destruct (embed_query_frame query w) as (n & delays & Hframe).
  rewrite Hrun in *. cbn in Hframe. subst w1.
  unfold store_op, mbind, M_bind, mret, M_ret, get_world.
  destruct (store_fault _); [done|].
  intros [= <- <-] Hempty.
  change (entries (set_store_ops _ (after_requests n _ delays w)) handle)
    with (entries w handle).
  rewrite Hempty. apply omap_lookup_nil.
Qed.

Lemma the_vectorstore_run w handle :
  vectorstore w = Some handle → the_vectorstore w = (inr handle, w).
Proof.
  intros Hhandle. unfold the_vectorstore. rewrite run_bind.
  unfold get_world. by rewrite Hhandle.
Qed.

Lemma lookup_run query k w handle :
  vectorstore w = Some handle →
  ∃ results w',
    lookup query k w = (inr results, w')
    ∧ (∀ e, (Chroma_similarity_search handle query k w).1 = inl e → results = [])
    ∧ (entries w handle = [] → results = []).
Proof.
  intros Hhandle. unfold lookup.
  rewrite run_bind. unfold try_except.
  rewrite run_bind, (the_vectorstore_run w handle Hhandle), run_bind.
  destruct (Chroma_similarity_search handle query k w) as [[e|documents] w1]
    eqn:Hsearch; cbn.
  - by exists [], w1.
  - exists (enrich <$> documents), w1. split_and!; [done|done|].
    intros Hempty.
    by rewrite (similarity_search_empty _ _ _ _ _ _ Hsearch Hempty).
Qed.

Lemma _search_run query k w :
  let w1 := match vectorstore w with
            | Some _ => w
            | None => (initialize_vectorstore Config.COLLECTION_NAME w).2
            end in
  ∃ results w',
    _search query k w = (inr results, w')
    ∧ (vectorstore w = None → can_open w = false → results = [])
    ∧ (∀ handle e,
         vectorstore w1 = Some handle →
         (Chroma_similarity_search handle query k w1).1 = inl e →
         results = [])
    ∧ (entries w (default Config.COLLECTION_NAME (vectorstore w)) = [] →
       results = []).
Proof.
  intros w1. unfold _search. fold (lookup query k).
  unfold mbind at 1, M_bind at 1, get_world.
  destruct (vectorstore w) as [handle|] eqn:Hhandle; cbn [bool_decide negb].
  - rewrite (bool_decide_eq_true_2 (is_Some (Some _))) by (by eexists). cbn [negb].
    rewrite run_bind. unfold mret at 1, M_ret at 1. cbn [negb].
    destruct (lookup_run query k w handle Hhandle)
      as (results & w' & -> & Hraise & Hempty).
    exists results, w'. split_and!; [done|done| |done].
    intros handle' e Hh. subst w1. rewrite Hhandle in Hh. simplify_eq.
    apply Hraise.
  - rewrite (bool_decide_eq_false_2 (is_Some None)) by (by intros [? ?]). cbn [negb].
    rewrite !run_bind.
    destruct (initialize_vectorstore_run Config.COLLECTION_NAME w)
      as (w2 & Hinit & Hent & _ & _ & Hopen & Hshut).
    subst w1. rewrite Hinit. cbn [snd].
    rewrite run_bind. unfold get_world, mret at 1, M_ret at 1.
    destruct (can_open w) eqn:Hcan; cbn [negb orb].
    + destruct (Hopen eq_refl) as [Hhandle2 _]. rewrite Hhandle2.
      rewrite (bool_decide_eq_true_2 (is_Some (Some _))) by (by eexists).
      cbn [negb].
      destruct (lookup_run query k w2 _ Hhandle2)
        as (results & w' & -> & Hraise & Hempty).
      exists results, w'. split_and!; [done|done| |].
      * intros handle e Hh. simplify_eq. apply Hraise.
      * cbn. intros Hnone. apply Hempty. by rewrite Hent.
    + by exists [], w2.
Qed.

Lemma _add_documents_fails text filename chunk_size chunk_overlap w :
  SmartTextSplitter.split_documents_with_metadata text filename chunk_size chunk_overlap
  = []
  ∨ (vectorstore w = None ∧ can_open w = false) →
  ∃ msg w',
    _add_documents text filename chunk_size chunk_overlap w
    = (inl (ValueError msg), w')
    ∧ same_entries w w'
    ∧ (collections w' = collections w
       ∨ (vectorstore w = None ∧ can_open w = true
          ∧ collections w'
            = get_or_create_collection Config.COLLECTION_NAME (collections w))).
Proof.
  intros Hcase. unfold _add_documents.
  rewrite run_bind. unfold get_world at 1.
  match goal with
  | |- context [_ ≫= (λ _ : (), ?tail)] =>
      assert (Htail : ∀ w1,
        SmartTextSplitter.split_documents_with_metadata text filename chunk_size
          chunk_overlap = [] →
        ∃ msg, tail w1 = (inl (ValueError msg), w1))
  end.
  { intros w1 Hnone. rewrite run_bind. unfold get_world. cbv zeta.
    rewrite Hnone, bool_decide_eq_true_2 by done.
    destruct (embeddings w1); by eexists. }
  destruct (vectorstore w) as [handle|] eqn:Hhandle.
  - rewrite (bool_decide_eq_true_2 (is_Some (Some _))) by (by eexists).
    cbn [negb]. rewrite run_bind. unfold mret at 1, M_ret at 1.
    destruct Hcase as [Hnone|[? _]]; [|done].
    destruct (Htail w Hnone) as [msg ->]. exists msg, w. by split_and!; [..|left].
  - rewrite (bool_decide_eq_false_2 (is_Some None)) by (by intros [? ?]).
    cbn [negb]. rewrite !run_bind.
    destruct (initialize_vectorstore_run Config.COLLECTION_NAME w)
      as (w2 & -> & Hent & _ & _ & Hopen & Hshut).
    rewrite run_bind. unfold get_world at 1.
    destruct (can_open w) eqn:Hcan; cbn [negb orb].
    + destruct (Hopen eq_refl) as [Hhandle2 Hco2]. rewrite Hhandle2.
      rewrite (bool_decide_eq_true_2 (is_Some (Some _))) by (by eexists).
      cbn [negb]. unfold mret at 1, M_ret at 1.
      destruct Hcase as [Hnone|[_ ?]]; [|done].
      destruct (Htail w2 Hnone) as [msg ->]. exists msg, w2.
      split_and!; [done|done|by right].
    + exists "Échec d'initialisation du VectorStore", w2.
      destruct (Hshut eq_refl) as [Hco2 _]. by split_and!; [..|left].
Qed.

(** C6: an add whose splitting yields no chunk, or for which the store
    is not open and cannot be opened, raises a [ValueError] and leaves
    the entries of every collection as they were.  The store itself is
    as it was, unless the add had to open it before it found no chunk:
    opening creates the collection, without entries, if it did not
    exist. *)
Theorem add_fails_without_writing text filename chunk_size chunk_overlap w :
  SmartTextSplitter.split_documents_with_metadata text filename chunk_size chunk_overlap
  = []
  ∨ (vectorstore w = None ∧ can_open w = false) →
  ∃ msg w',
    add_documents_enhanced text filename chunk_size chunk_overlap w
    = (inl (ValueError msg), w')
    ∧ same_entries w w'
    ∧ (collections w' = collections w
       ∨ (vectorstore w = None ∧ can_open w = true
          ∧ collections w'
            = get_or_create_collection Config.COLLECTION_NAME (collections w))).
Proof.
  intros Hcase. unfold add_documents_enhanced.
  destruct (InputValidator.validate_chunk_size chunk_size)
    as [[] chunk_error]; cbn [negb];
    [|eexists _, w; by split_and!; [..|left]].
  destruct (measured_run "add_documents"
              (_add_documents text filename chunk_size chunk_overlap) w)
    as (w' & -> & Hco & _).
  destruct (_add_documents_fails text filename chunk_size chunk_overlap
              (started w) Hcase) as (msg & w1 & Hrun & Hent & Hstore).
  rewrite Hrun in *. cbn in *.
  exists msg, w'. split_and!; [done| |by rewrite Hco].
  intros other. unfold entries. rewrite Hco. apply Hent.
Qed.

(** C7: for a valid query and any [k], the search returns and does not
    raise; it returns the empty list when the store is not open and
    cannot be opened, when the similarity lookup raises, and when the
    collection has no entries. *)
Theorem search_degrades_to_empty query k w :
  (InputValidator.validate_question query).1 = true →
  ∃ results w',
    search_with_metadata query k w = (inr results, w')
    ∧ (vectorstore w = None → can_open w = false → results = [])
    ∧ (∀ handle e,
         vectorstore (lookup_world w) = Some handle →
         (Chroma_similarity_search handle query k (lookup_world w)).1 = inl e →
         results = [])
    ∧ (entries w (default Config.COLLECTION_NAME (vectorstore w)) = [] →
       results = []).
Proof.
  intros Hvalid. unfold search_with_metadata.
  destruct (InputValidator.validate_question query) as [valid query_error].
  cbn in Hvalid. subst valid. cbn [negb].
  destruct (measured_run "search_documents" (_search query k) w)
    as (w' & -> & _).
  destruct (_search_run query k (started w))
    as (results & w1 & Hrun & Hshut & Hraise & Hempty).
  rewrite Hrun. cbn [fst].
  exists results, w'. split_and!; [done|exact Hshut|exact Hraise|exact Hempty].
Qed.

End StoreFacts.

(** The manager, just built, where the endpoint is unreachable and the
    store works: an add of a blank text opens the store, which creates
    the collection without entries, and then raises. *)
Example add_blank_text_run :
  let env := Reference.environment [] [] in
  let w := (@EnhancedVectorStoreManager.__init__ env Reference.boot).2 in
  let run :=
    @EnhancedVectorStoreManager.add_documents_enhanced Reference.runtime env
      "   " "a.txt" 1000 200 w in
  collections w = ∅
  ∧ run.1 = inl (ValueError "Aucun document généré lors du découpage")
  ∧ collections run.2 = {[ Config.COLLECTION_NAME := [] ]}
  ∧ operation <$> metrics_history run.2
    = ["setup_embeddings"; "initialize_vectorstore"; "add_documents"]
  ∧ success <$> metrics_history run.2 = [true; true; false].
Proof. vm_compute. done. Qed.

Lemma add_fails_without_writing_witness :
  let env := Reference.environment [] [] in
  let down := Reference.environment [] [Some (Exception "OSError" "disk")] in
  let w := (@EnhancedVectorStoreManager.__init__ env Reference.boot).2 in
  (@SmartTextSplitter.split_documents_with_metadata Reference.runtime
     "   " "a.txt" 1000 200 = []
   ∧ ∃ msg w',
       @EnhancedVectorStoreManager.add_documents_enhanced Reference.runtime env
         "   " "a.txt" 1000 200 w = (inl (ValueError msg), w')
       ∧ @same_entries w w')
  ∧ ((vectorstore w = None ∧ @can_open down w = false)
     ∧ ∃ msg w',
         @EnhancedVectorStoreManager.add_documents_enhanced Reference.runtime
           down "Hello world" "a.txt" 1000 200 w = (inl (ValueError msg), w')
         ∧ @same_entries w w').
Proof.
  intros env down w.
  assert (Hdrop : ∀ rt e text,
    (∃ msg w',
       @EnhancedVectorStoreManager.add_documents_enhanced rt e
         text "a.txt" 1000 200 w = (inl (ValueError msg), w')
       ∧ @same_entries w w'
       ∧ (collections w' = collections w
          ∨ (vectorstore w = None ∧ @can_open e w = true
             ∧ collections w'
               = EnhancedVectorStoreManager.get_or_create_collection
                   Config.COLLECTION_NAME (collections w)))) →
    ∃ msg w',
      @EnhancedVectorStoreManager.add_documents_enhanced rt e
        text "a.txt" 1000 200 w = (inl (ValueError msg), w')
      ∧ @same_entries w w').
  { intros rt e text (msg & w' & Hrun & Hent & _). by exists msg, w'. }
  assert (Hnone : @SmartTextSplitter.split_documents_with_metadata Reference.runtime
                    "   " "a.txt" 1000 200 = []).
  { vm_compute. reflexivity. }
  assert (Hdown : vectorstore w = None ∧ @can_open down w = false).
  { vm_compute. split; reflexivity. }
  split; (split; [assumption|]).
  - apply Hdrop.
    exact (@add_fails_without_writing Reference.runtime env
             "   " "a.txt" 1000 200 w (or_introl Hnone)).
  - apply Hdrop.
    exact (@add_fails_without_writing Reference.runtime down
             "Hello world" "a.txt" 1000 200 w (or_intror Hdown)).
Defined.

Lemma search_degrades_to_empty_witness :
  let env := Reference.environment [] [] in
  let w := (@EnhancedVectorStoreManager.__init__ env Reference.boot).2 in
  (@InputValidator.validate_question Reference.runtime "what is this").1 = true
  ∧ @EnhancedVectorStoreManager.entries w
      (default Config.COLLECTION_NAME (vectorstore w)) = []
  ∧ ∃ w',
      @EnhancedVectorStoreManager.search_with_metadata Reference.runtime env
        "what is this" 3 w = (inr [], w').
Proof.
  intros env w.
  assert (Hvalid :
    (@InputValidator.validate_question Reference.runtime "what is this").1 = true).
  { vm_compute. reflexivity. }
  assert (Hempty : @EnhancedVectorStoreManager.entries w
                     (default Config.COLLECTION_NAME (vectorstore w)) = []).
  { vm_compute. reflexivity. }
  destruct (@search_degrades_to_empty Reference.runtime env "what is this" 3 w
              Hvalid) as (results & w' & Hrun & _ & _ & Hnil).
  split; [exact Hvalid|]. split; [exact Hempty|].
  exists w'. rewrite Hrun. f_equal. f_equal. exact (Hnil Hempty).
Defined.

(** ** The keywords of a chunk *)

Section KeywordFacts.
Context `{Runtime}.
Import SmartTextSplitter.

Lemma assoc_count_word k word freq :
  assoc k (count_word word freq)
  = if decide (k = word) then Some (default 0%Z (assoc word freq) + 1)%Z
    else assoc k freq.
Proof.
  induction freq as [|[w n] freq IH]; simpl.
  - destruct (String.eqb_spec k word); by case_decide.
  - destruct (String.eqb_spec word w) as [->|Hne]; simpl.
    + destruct (String.eqb_spec k w) as [->|Hne']; by case_decide.
    + destruct (String.eqb_spec k w) as [->|Hne'].
      * by case_decide.
      * rewrite IH. by case_decide.
Qed.

Lemma count_word_keys word freq :
  (count_word word freq).*1
  = if decide (word ∈ freq.*1) then freq.*1 else freq.*1 ++ [word].
Proof.
  induction freq as [|[w n] freq IH]; [done|].
  cbn [count_word]. destruct (String.eqb_spec word w) as [->|Hne].
  - rewrite !fmap_cons. cbn [fst]. rewrite decide_True; [done|left].
  - rewrite !fmap_cons, IH. cbn [fst].
    destruct (decide (word ∈ freq.*1)) as [Hin|Hin].
    + rewrite decide_True; [done|by right].
    + rewrite decide_False; [done|]. by intros [?|?]%elem_of_cons.
Qed.

Lemma assoc_keys {A} k (l : list (string * A)) :
  is_Some (assoc k l) ↔ k ∈ l.*1.
Proof.
  induction l as [|[w n] l IH]; simpl.
  - split; [by intros [? ?]|by intros ?%elem_of_nil].
  - destruct (String.eqb_spec k w) as [->|Hne].
    + split; [left|by eexists].
    + rewrite IH. split; [by right|]. by intros [?|?]%elem_of_cons.
Qed.

Lemma assoc_elem_of {A} k (v : A) (l : list (string * A)) :
  NoDup l.*1 → (k, v) ∈ l ↔ assoc k l = Some v.
Proof.
  induction l as [|[w n] l IH]; simpl; intros Hnodup.
  - split; [by intros ?%elem_of_nil|done].
  - apply NoDup_cons in Hnodup as [Hw Hnodup].
    destruct (String.eqb_spec k w) as [->|Hne].
    + split.
      * intros [?|Hin]%elem_of_cons; [by simplify_eq|].
        exfalso. apply Hw. apply list_elem_of_fmap. by exists (w, v).
      * intros ?; simplify_eq. left.
    + rewrite <- (IH Hnodup). split.
      * intros [?|?]%elem_of_cons; [by simplify_eq|done].
      * by right.
Qed.

(** The counting loop, from any dict. *)
Lemma word_freq_from words : ∀ freq,
  let freq' :=
    fold_left
      (fun freq word => if counted word then count_word word freq else freq)
      words freq in
  (NoDup freq.*1 → NoDup freq'.*1)
  ∧ (∀ k, default 0%Z (assoc k freq')
          = (default 0%Z (assoc k freq)
             + if counted k then occurrences k words else 0)%Z)
  ∧ (∀ k, k ∈ freq'.*1 ↔ k ∈ freq.*1 ∨ (counted k = true ∧ k ∈ words)).
Proof.
  induction words as [|word words IH]; intros freq; simpl.
  - split_and!; [done| |].
    + intros k. unfold occurrences. simpl. destruct (counted k); lia.
    + intros k. split; [by left|]. intros [?|[_ ?%elem_of_nil]]; done.
  - destruct (counted word) eqn:Hword.
    + destruct (IH (count_word word freq)) as (Hnodup & Hcount & Hkeys).
      split_and!.
      * intros Hfreq. apply Hnodup. rewrite count_word_keys.
        case_decide; [done|]. apply NoDup_app. split_and!; [done| |apply NoDup_singleton].
        intros x Hx ?%list_elem_of_singleton. by subst.
      * intros k. rewrite Hcount, assoc_count_word. unfold occurrences.
        rewrite filter_cons. case_decide as Hk.
        -- subst k. rewrite Hword, decide_True by done. simpl. lia.
        -- rewrite decide_False by done. done.
      * intros k. rewrite Hkeys, count_word_keys.
        case_decide as Hin.
        -- split; [intros [?|[? ?]]; [by left|right; split; [done|by right]]|].
           intros [?|[? [->|?]%elem_of_cons]]; [by left|by left|by right].
        -- rewrite elem_of_app, list_elem_of_singleton.
           split.
           ++ intros [[?| ->]|[? ?]]; [by left|right; split; [done|left]|].
              right. split; [done|by right].
           ++ intros [?|[? [->|?]%elem_of_cons]];
                [by left; left|by left; right|by right].
    + destruct (IH freq) as (Hnodup & Hcount & Hkeys).
      split_and!; [done| |].
      * intros k. rewrite Hcount. unfold occurrences. rewrite filter_cons.
        case_decide as Hk; [|done]. subst k. by rewrite Hword.
      * intros k. rewrite Hkeys. split.
        -- intros [?|[? ?]]; [by left|right; split; [done|by right]].
        -- intros [?|[Hk [->|?]%elem_of_cons]]; [by left|congruence|by right].
Qed.

Lemma word_freq_spec words :
  NoDup (word_freq words).*1
  ∧ (∀ k n, (k, n) ∈ word_freq words
            ↔ counted k = true ∧ k ∈ words ∧ n = occurrences k words).
Proof.
  destruct (word_freq_from words []) as (Hnodup & Hcount & Hkeys).
  fold (word_freq words) in *. simpl in *.
  specialize (Hnodup (NoDup_nil_2)).
  split; [done|]. intros k n. rewrite (assoc_elem_of _ _ _ Hnodup).
  split.
  - intros Hk.
    assert (Hin : k ∈ (word_freq words).*1) by (apply assoc_keys; by eexists).
    apply Hkeys in Hin as [?%elem_of_nil|[Hc Hin]]; [done|].
    split_and!; [done|done|]. specialize (Hcount k). rewrite Hk, Hc in Hcount.
    simpl in Hcount. lia.
  - intros (Hc & Hin & ->).
    assert (Hsome : is_Some (assoc k (word_freq words))).
    { apply assoc_keys, Hkeys. by right. }
    destruct Hsome as [n Hn]. specialize (Hcount k). rewrite Hn, Hc in Hcount.
    simpl in Hcount. rewrite Hn. f_equal. lia.
Qed.

Lemma insert_desc_perm {A} (key : A → Z) x l : insert_desc key x l ≡ₚ x :: l.
Proof.
  induction l as [|y l IH]; simpl; [done|].
  destruct (key y <=? key x)%Z; [done|]. rewrite IH. apply Permutation_swap.
Qed.

Lemma sorted_desc_perm {A} (key : A → Z) l : sorted_desc key l ≡ₚ l.
Proof.
  induction l as [|x l IH]; simpl; [done|].
  by rewrite insert_desc_perm, IH.
Qed.

Lemma precedes_cons {A} (a b x : A) l : precedes a b l → precedes a b (x :: l).
Proof. intros (l1 & l2 & -> & Hb). by exists (x :: l1), l2. Qed.

Lemma sorted_order_cons {A} (key : A → Z) x l a b :
  sorted_order key l a b → sorted_order key (x :: l) a b.
Proof. intros [?|[? ?]]; [by left|right; split; [done|by apply precedes_cons]]. Qed.

Lemma StronglySorted_mono {A} (R R' : relation A) l :
  (∀ a b, a ∈ l → b ∈ l → R a b → R' a b) →
  StronglySorted R l → StronglySorted R' l.
Proof.
  induction l as [|a l IH]; intros Himpl Hsorted; [constructor|].
  apply StronglySorted_cons in Hsorted as [Ha Hsorted].
  apply StronglySorted_cons. split.
  - rewrite Forall_forall in Ha. apply Forall_forall. intros b Hb.
    apply Himpl; [left|by right|by apply Ha].
  - apply IH; [|done]. intros b c Hb Hc. apply Himpl; by right.
Qed.

Lemma insert_desc_sorted {A} (key : A → Z) x l sorted :
  (∀ y, y ∈ sorted → y ∈ l) →
  StronglySorted (sorted_order key l) sorted →
  StronglySorted (sorted_order key (x :: l)) (insert_desc key x sorted).
Proof.
  induction sorted as [|y sorted IH]; intros Hin Hsorted; simpl.
  - repeat constructor.
  - apply StronglySorted_cons in Hsorted as [Hy Hsorted].
    assert (Htail : StronglySorted (sorted_order key (x :: l)) (y :: sorted)).
    { apply StronglySorted_cons. split.
      - eapply Forall_impl; [exact Hy|]. intros z. apply sorted_order_cons.
      - eapply StronglySorted_mono; [|exact Hsorted].
        intros a b _ _. apply sorted_order_cons. }
    destruct (Z.leb_spec (key y) (key x)) as [Hle|Hlt].
    + apply StronglySorted_cons. split; [|done].
      assert (Hfirst : ∀ z, z ∈ y :: sorted → (key z ≤ key y)%Z).
      { intros z [->|Hz]%elem_of_cons; [lia|].
        rewrite Forall_forall in Hy. destruct (Hy z Hz) as [?|[? _]]; lia. }
      apply Forall_forall. intros z Hz.
      destruct (Z.eq_dec (key z) (key x)) as [Heq|Hne].
      * right. split; [done|]. exists [], l. split; [done|]. by apply Hin.
      * left. specialize (Hfirst z Hz). lia.
    + apply StronglySorted_cons. split.
      * apply Forall_forall. intros z Hz.
        apply (elem_of_Permutation_proper _ _ _ (insert_desc_perm key x sorted)) in Hz.
        apply elem_of_cons in Hz as [->|Hz]; [by left|].
        apply sorted_order_cons. rewrite Forall_forall in Hy. by apply Hy.
      * apply IH; [|done]. intros z Hz. apply Hin. by right.
Qed.

Lemma sorted_desc_sorted {A} (key : A → Z) l :
  StronglySorted (sorted_order key l) (sorted_desc key l).
Proof.
  induction l as [|x l IH]; simpl; [constructor|].
  apply insert_desc_sorted; [|done].
  intros y Hy. by rewrite <- (sorted_desc_perm key l).
Qed.

Lemma new_keys_fresh words : ∀ seen x,
  x ∈ new_keys seen words → counted x = true ∧ (x ∉ seen) ∧ x ∈ words.
Proof.
  induction words as [|word words IH]; intros seen x; simpl.
  - by intros ?%elem_of_nil.
  - destruct (counted word) eqn:Hword; simpl.
    + case_bool_decide as Hseen; simpl.
      * intros Hx. destruct (IH _ _ Hx) as (? & ? & ?).
        split_and!; [done|done|by right].
      * intros [->|Hx]%elem_of_cons; [split_and!; [done|done|left]|].
        destruct (IH _ _ Hx) as (? & Hnot & ?).
        split_and!; [done| |by right].
        intros ?. apply Hnot, elem_of_app. by left.
    + intros Hx. destruct (IH _ _ Hx) as (? & ? & ?).
      split_and!; [done|done|by right].
Qed.

Lemma new_keys_order words : ∀ seen l1 a l2 b,
  new_keys seen words = l1 ++ a :: l2 → b ∈ l2 → occurs_first a b words.
Proof.
  induction words as [|word words IH]; intros seen l1 a l2 b; simpl.
  - by destruct l1.
  - assert (Hskip : new_keys seen words = l1 ++ a :: l2 → b ∈ l2 →
                    (counted word = false ∨ word ∈ seen) →
                    occurs_first a b (word :: words)).
    { intros Hkeys Hb Hword.
      destruct (IH _ _ _ _ _ Hkeys Hb) as (m1 & m2 & -> & Hnot).
      exists (word :: m1), m2. split; [done|].
      intros [->|?]%elem_of_cons; [|done].
      destruct (new_keys_fresh (m1 ++ a :: m2) seen word) as (Hc & Hs & _).
      { rewrite Hkeys, elem_of_app. right. by right. }
      destruct Hword; [congruence|done]. }
    destruct (counted word) eqn:Hword; simpl; [|intros; apply Hskip; auto].
    case_bool_decide as Hseen; simpl; [intros; apply Hskip; auto|].
    destruct l1 as [|x l1]; simpl; intros Hkeys Hb; simplify_eq.
    + exists [], words. split; [done|]. by intros ?%elem_of_nil.
    + destruct (IH _ _ _ _ _ H1 Hb) as (m1 & m2 & -> & Hnot).
      exists (x :: m1), m2. split; [done|].
      intros [->|?]%elem_of_cons; [|done].
      destruct (new_keys_fresh (m1 ++ a :: m2) (seen ++ [x]) x) as (_ & Hs & _).
      { rewrite H1, elem_of_app. right. by right. }
      apply Hs, elem_of_app. right. left.
Qed.

Lemma word_freq_keys words : ∀ freq,
  (fold_left
     (fun freq word => if counted word then count_word word freq else freq)
     words freq).*1
  = freq.*1 ++ new_keys freq.*1 words.
Proof.
  induction words as [|word words IH]; intros freq; simpl.
  - by rewrite app_nil_r.
  - destruct (counted word); simpl; [|apply IH].
    rewrite IH, count_word_keys.
    destruct (decide (word ∈ freq.*1)) as [Hin|Hin].
    + by rewrite bool_decide_eq_true_2.
    + rewrite bool_decide_eq_false_2 by done. simpl. by rewrite <- app_assoc.
Qed.

Lemma precedes_fmap {A B} (f : A → B) a b l :
  precedes a b l → precedes (f a) (f b) (f <$> l).
Proof.
  intros (l1 & l2 & -> & Hb). exists (f <$> l1), (f <$> l2).
  rewrite fmap_app, fmap_cons. split; [done|]. by apply list_elem_of_fmap_2.
Qed.

(** The words with their counts, as [_extract_keywords] sorts them. *)
Lemma sorted_words_spec words :
  let sorted_words := sorted_desc snd (word_freq words) in
  NoDup sorted_words.*1
  ∧ (∀ k n, (k, n) ∈ sorted_words
            ↔ counted k = true ∧ k ∈ words ∧ n = occurrences k words)
  ∧ StronglySorted (λ a b, outranks words a.1 b.1) sorted_words.
Proof.
  intros sorted_words.
  destruct (word_freq_spec words) as [Hnodup Hspec].
  assert (Hperm : sorted_words ≡ₚ word_freq words) by apply sorted_desc_perm.
  assert (Hin : ∀ k n, (k, n) ∈ sorted_words
            ↔ counted k = true ∧ k ∈ words ∧ n = occurrences k words).
  { intros k n. by rewrite Hperm, Hspec. }
  split_and!; [by rewrite Hperm|done|].
  pose proof (sorted_desc_sorted snd (word_freq words)) as Hsorted.
  fold sorted_words in Hsorted.
  eapply StronglySorted_mono; [|exact Hsorted].
  intros [a ca] [b cb] (_ & _ & ->)%Hin (_ & _ & ->)%Hin Hab. simpl.
  destruct Hab as [?|[? Hprec]]; [by left|right; split; [done|]].
  apply (precedes_fmap fst) in Hprec as (l1 & l2 & Hkeys & Hl2). simpl in *.
  unfold word_freq in Hkeys. rewrite word_freq_keys in Hkeys. simpl in Hkeys.
  by eapply new_keys_order.
Qed.

Lemma extract_keywords_unfold chunk max_keywords :
  _extract_keywords chunk max_keywords
  = (take max_keywords (sorted_desc snd (word_freq (found_words chunk)))).*1.
Proof. reflexivity. Qed.

(** X1: the keywords of a chunk are at most [max_keywords] words, all
    different, each of them found in the lowercased chunk by the pattern,
    no stop word, and longer than two characters. *)
Theorem extract_keywords_sound chunk max_keywords :
  let keywords := _extract_keywords chunk max_keywords in
  (length keywords ≤ max_keywords)%nat
  ∧ NoDup keywords
  ∧ ∀ k, k ∈ keywords →
      k ∈ found_words chunk ∧ (k ∉ stop_words) ∧ (2 < py_len k)%Z.
Proof.
  intros keywords. subst keywords. rewrite extract_keywords_unfold.
  destruct (sorted_words_spec (found_words chunk)) as (Hnodup & Hin & _).
  split_and!.
  - rewrite length_fmap, length_take. lia.
  - rewrite fmap_take. eapply sublist_NoDup; [exact Hnodup|apply sublist_take].
  - intros k Hk. rewrite fmap_take in Hk.
    apply elem_of_take in Hk as (i & Hk & _).
    apply list_lookup_fmap_Some in Hk as ([k' n] & -> & Hk).
    assert (Hk' : (k', n) ∈ sorted_desc snd (word_freq (found_words chunk))).
    { apply list_elem_of_lookup. by exists i. }
    clear Hk. rename Hk' into Hk.
    apply Hin in Hk as (Hc & Hw & _). simpl. split; [done|].
    unfold counted in Hc. apply andb_prop in Hc as [Hstop Hlen].
    apply negb_true_iff, bool_decide_eq_false in Hstop.
    apply Z.ltb_lt in Hlen. done.
Qed.

(** X2: the keywords are the highest ranked counted words, best first:
    a word that occurs more often comes before one that occurs less
    often, and of two words that occur as often, the one that occurs
    first in the chunk comes first; a counted word that is left out is
    outranked by every keyword, and then there are [max_keywords]
    keywords. *)
Theorem extract_keywords_most_frequent chunk max_keywords :
  let keywords := _extract_keywords chunk max_keywords in
  let words := found_words chunk in
  (∀ (i j : nat) a b,
     (i < j)%nat → keywords !! i = Some a → keywords !! j = Some b →
     outranks words a b)
  ∧ (∀ w, w ∈ words → counted w = true → w ∉ keywords →
       length keywords = max_keywords
       ∧ ∀ k, k ∈ keywords → outranks words k w).
Proof.
  intros keywords words. subst keywords. rewrite extract_keywords_unfold.
  fold words.
  destruct (sorted_words_spec words) as (Hnodup & Hin & Hsorted).
  set (sorted_words := sorted_desc snd (word_freq words)) in *.
  split.
  - intros i j a b Hij Ha Hb.
    rewrite list_lookup_fmap in Ha, Hb.
    destruct (take max_keywords sorted_words !! i) as [[a' ca]|] eqn:Hi;
      simplify_eq/=.
    destruct (take max_keywords sorted_words !! j) as [[b' cb]|] eqn:Hj;
      simplify_eq/=.
    apply lookup_take_Some in Hi as [Hi _].
    apply lookup_take_Some in Hj as [Hj _].
    rewrite <- (take_drop j sorted_words) in Hsorted.
    apply (StronglySorted_app_1_elem_of _ _ _ (a, ca) (b, cb)) in Hsorted;
      [done| |].
    + apply elem_of_take. by exists i.
    + apply list_elem_of_lookup. exists 0. by rewrite lookup_drop, Nat.add_0_r.
  - intros w Hw Hc Hout.
    assert (Hpair : (w, occurrences w words) ∈ sorted_words) by by apply Hin.
    rewrite <- (take_drop max_keywords sorted_words), elem_of_app in Hpair.
    destruct Hpair as [Hpair|Hpair].
    { exfalso. apply Hout. apply list_elem_of_fmap. by eexists (_, _). }
    split.
    + rewrite length_fmap, length_take. apply Nat.min_l.
      destruct (decide (max_keywords ≤ length sorted_words)%nat); [done|].
      rewrite drop_ge in Hpair by lia. by apply elem_of_nil in Hpair.
    + intros k ([k' ck] & -> & Hk)%list_elem_of_fmap. simpl.
      rewrite <- (take_drop max_keywords sorted_words) in Hsorted.
      by apply (StronglySorted_app_1_elem_of _ _ _ (k', ck) (w, occurrences w words))
        in Hsorted.
Qed.

End KeywordFacts.

(** ** The documents of a text *)

Section DocumentFacts.
Context `{Runtime}.
Import SmartTextSplitter.

Lemma split_documents_lookup text filename chunk_size chunk_overlap (i : nat) d :
  let chunks := smart_split text chunk_size chunk_overlap true in
  split_documents_with_metadata text filename chunk_size chunk_overlap !! i
  = Some d →
  ∃ chunk, chunks !! i = Some chunk
    ∧ d = mkDocument chunk
            (chunk_metadata filename (detect_document_type text) chunks i chunk).
Proof.
  intros chunks Hd. unfold split_documents_with_metadata in Hd.
  rewrite list_lookup_imap in Hd. fold chunks in Hd.
  destruct (chunks !! i) as [chunk|]; simplify_eq/=. eauto.
Qed.

Lemma split_documents_contents text filename chunk_size chunk_overlap :
  page_content
  <$> split_documents_with_metadata text filename chunk_size chunk_overlap
  = smart_split text chunk_size chunk_overlap true.
Proof.
  apply list_eq. intros i. rewrite list_lookup_fmap.
  destruct (split_documents_with_metadata text filename chunk_size chunk_overlap
            !! i) as [d|] eqn:Hd; simpl.
  - apply split_documents_lookup in Hd as (chunk & Hc & ->). by rewrite Hc.
  - symmetry. apply lookup_ge_None. apply lookup_ge_None in Hd.
    by rewrite <- (split_documents_length text filename).
Qed.

Lemma smart_split_not_blank text chunk_size chunk_overlap preserve_structure chunk :
  chunk ∈ smart_split text chunk_size chunk_overlap preserve_structure →
  str_strip chunk ≠ EmptyString.
Proof. unfold smart_split. by intros [? _]%list_elem_of_filter. Qed.

Lemma chunk_metadata_keywords filename doc_type chunks i chunk :
  chunk_metadata filename doc_type chunks i chunk !! "keywords"
  = match _extract_keywords chunk 5 with
    | [] => None
    | (_ :: _) as keywords => Some (VList (VStr <$> keywords))
    end.
Proof.
  unfold chunk_metadata. destruct (_extract_keywords chunk 5); [done|].
  by rewrite lookup_insert_eq.
Qed.

Lemma chunk_metadata_dom filename doc_type chunks i chunk key :
  is_Some (chunk_metadata filename doc_type chunks i chunk !! key) →
  key ∈ chunk_metadata_keys.
Proof.
  destruct (decide (key = "keywords")) as [->|Hkey].
  { intros _. unfold chunk_metadata_keys. rewrite !elem_of_cons. tauto. }
  rewrite chunk_metadata_lookup by done.
  intros [v Hv]. apply elem_of_list_to_map_2 in Hv.
  apply (list_elem_of_fmap_2 fst) in Hv. simpl in Hv.
  unfold chunk_metadata_keys. rewrite !elem_of_cons in Hv. rewrite !elem_of_cons.
  tauto.
Qed.

Lemma split_documents_describe_chunks_aux text filename chunk_size chunk_overlap d :
  d ∈ split_documents_with_metadata text filename chunk_size chunk_overlap →
  metadata d !! "filename" = Some (VStr filename)
  ∧ page_content d ∈ smart_split text chunk_size chunk_overlap true.
Proof.
  intros (i & Hd)%list_elem_of_lookup.
  apply split_documents_lookup in Hd as (chunk & Hchunk & ->). simpl.
  split; [by rewrite chunk_metadata_lookup|].
  apply list_elem_of_lookup. by exists i.
Qed.

(** X3: every document of [split_documents_with_metadata] describes its
    own chunk: the chunk is not blank, the metadata carry the file name,
    the type detected on the whole text, the length of the chunk and
    whether it has structure markers; the key [keywords] is there exactly
    when the chunk has keywords, and holds them; no other key is set. *)
Theorem split_documents_describe_chunks text filename chunk_size chunk_overlap d :
  d ∈ split_documents_with_metadata text filename chunk_size chunk_overlap →
  str_strip (page_content d) ≠ EmptyString
  ∧ metadata d !! "filename" = Some (VStr filename)
  ∧ metadata d !! "document_type" = Some (VStr (detect_document_type text))
  ∧ metadata d !! "chunk_size" = Some (VInt (py_len (page_content d)))
  ∧ metadata d !! "contains_structure"
    = Some (VBool (_has_structure_markers (page_content d)))
  ∧ metadata d !! "keywords"
    = match _extract_keywords (page_content d) 5 with
      | [] => None
      | (_ :: _) as keywords => Some (VList (VStr <$> keywords))
      end
  ∧ ∀ key, is_Some (metadata d !! key) → key ∈ chunk_metadata_keys.
Proof.
  intros (i & Hd)%list_elem_of_lookup.
  apply split_documents_lookup in Hd as (chunk & Hchunk & ->). simpl.
  split_and!.
  - eapply smart_split_not_blank, list_elem_of_lookup. by exists i.
  - by rewrite chunk_metadata_lookup.
  - by rewrite chunk_metadata_lookup.
  - by rewrite chunk_metadata_lookup.
  - by rewrite chunk_metadata_lookup.
  - apply chunk_metadata_keywords.
  - apply chunk_metadata_dom.
Qed.

End DocumentFacts.

(** ** The history and its summary *)

Section SummaryFacts.
Context `{Environment} `{Platform}.
Import PerformanceMonitor.

Lemma recorded_window cap history metrics :
  (1 ≤ cap)%Z →
  recorded cap history metrics = last_n (Z.to_nat cap) (history ++ [metrics]).
Proof.
  intros Hcap. unfold recorded, last_n.
  destruct (Z.ltb_spec cap (Z.of_nat (length (history ++ [metrics]))))
    as [Hlt|Hge].
  - by rewrite py_slice_from_last by lia.
  - replace (length (history ++ [metrics]) - Z.to_nat cap) with 0 by lia.
    done.
Qed.

Lemma last_n_snoc {A} (n : nat) (l : list A) x :
  0 < n → last_n n (last_n n l ++ [x]) = last_n n (l ++ [x]).
Proof.
  intros Hn. unfold last_n.
  rewrite !length_app, length_drop. simpl.
  destruct (decide (length l ≤ n)%nat) as [Hle|Hgt].
  - replace (length l - n) with 0 by lia. simpl.
    by replace (length l - 0 + 1 - n) with (length l + 1 - n) by lia.
  - replace (length l - (length l - n) + 1 - n) with 1 by lia.
    replace (length l + 1 - n) with (S (length l - n)) by lia.
    rewrite !drop_app_le by (rewrite ?length_drop; lia).
    rewrite drop_drop. by replace (length l - n + 1) with (S (length l - n)) by lia.
Qed.

Lemma add_all_run metrics_list : ∀ w,
  (1 ≤ max_history w)%Z →
  max_history (add_all metrics_list w) = max_history w
  ∧ last_n (Z.to_nat (max_history w)) (metrics_history (add_all metrics_list w))
    = last_n (Z.to_nat (max_history w)) (metrics_history w ++ metrics_list)
  ∧ (metrics_list ≠ [] →
     metrics_history (add_all metrics_list w)
     = last_n (Z.to_nat (max_history w)) (metrics_history w ++ metrics_list)).
Proof.
  induction metrics_list as [|metrics metrics_list IH]; intros w Hcap.
  - simpl. rewrite app_nil_r. done.
  - change (add_all (metrics :: metrics_list) w)
      with (add_all metrics_list (_add_metrics metrics w).2).
    rewrite add_metrics_run. cbn [snd].
    set (w1 := set_metrics_history _ w).
    assert (Hcap1 : max_history w1 = max_history w) by done.
    destruct (IH w1) as (Hmax & Hlast & Hne); [by rewrite Hcap1|].
    rewrite Hcap1 in *.
    assert (Hw1 : metrics_history w1
                  = last_n (Z.to_nat (max_history w)) (metrics_history w ++ [metrics])).
    { unfold w1. destruct w. cbn. by apply recorded_window. }
    assert (Hstep : ∀ rest,
      last_n (Z.to_nat (max_history w)) (metrics_history w1 ++ rest)
      = last_n (Z.to_nat (max_history w)) (metrics_history w ++ metrics :: rest)).
    { intros rest. rewrite Hw1.
      induction rest as [|x rest IHrest] using rev_ind.
      - rewrite !app_nil_r. unfold last_n at 1.
        unfold last_n at 1. rewrite length_drop.
        set (n := Z.to_nat (max_history w)).
        set (l := metrics_history w ++ [metrics]).
        replace (length l - (length l - n) - n) with 0 by lia. done.
      - rewrite (app_assoc _ rest [x]). rewrite <- last_n_snoc by lia.
        rewrite IHrest. rewrite last_n_snoc by lia.
        by rewrite <- app_assoc. }
    split_and!; [done| |].
    + by rewrite Hlast, Hstep.
    + intros _. destruct metrics_list as [|m' rest].
      * change (add_all [] w1) with w1. by rewrite Hw1.
      * rewrite Hne by done. apply Hstep.
Qed.

(** X5: with a cap of at least one, after any number of recordings the
    history is the last [max_history] metrics recorded, oldest first: the
    recordings never change the cap, and never leave more than
    [max_history] metrics. *)
Theorem history_is_sliding_window metrics_list w :
  (1 ≤ max_history w)%Z →
  (Z.of_nat (length (metrics_history w)) ≤ max_history w)%Z →
  let w' := add_all metrics_list w in
  max_history w' = max_history w
  ∧ metrics_history w'
    = last_n (Z.to_nat (max_history w)) (metrics_history w ++ metrics_list)
  ∧ (Z.of_nat (length (metrics_history w')) ≤ max_history w)%Z.
Proof.
  intros Hcap Hlen w'.
  destruct (add_all_run metrics_list w Hcap) as (Hmax & _ & Hne).
  assert (Hhistory : metrics_history w'
    = last_n (Z.to_nat (max_history w)) (metrics_history w ++ metrics_list)).
  { destruct metrics_list as [|m rest]; [|by apply Hne].
    change (add_all [] w) with w in w'. subst w'. rewrite app_nil_r.
    unfold last_n.
    by replace (length (metrics_history w) - Z.to_nat (max_history w))
      with 0 by lia. }
  split_and!; [done|done|].
  rewrite Hhistory. unfold last_n. rewrite length_drop. lia.
Qed.

Lemma get_metrics_summary_run operation_name last_n_minutes w :
  get_metrics_summary operation_name last_n_minutes w
  = match last_n_minutes with
    | Some minutes =>
        if (minutes =? 0)%Z
        then (inr (summary (of_operation operation_name (metrics_history w))), w)
        else
          match minus_minutes (time_time (readings w)) minutes with
          | inl e => (inl e, set_readings (S (readings w)) w)
          | inr cutoff_time =>
              (inr (summary (since cutoff_time
                               (of_operation operation_name (metrics_history w)))),
               set_readings (S (readings w)) w)
          end
    | None => (inr (summary (of_operation operation_name (metrics_history w))), w)
    end.
Proof.
  unfold get_metrics_summary, of_operation, since.
  unfold mbind at 1, M_bind at 1, get_world.
  destruct last_n_minutes as [minutes|]; [|done].
  destruct (minutes =? 0)%Z; [done|].
  unfold mbind, M_bind, read, lift. cbn.
  by destruct (minus_minutes _ _).
Qed.

Lemma get_metrics_summary_reports_frame operation_name last_n_minutes w :
  metrics_history (get_metrics_summary operation_name last_n_minutes w).2
  = metrics_history w
  ∧ max_history (get_metrics_summary operation_name last_n_minutes w).2
    = max_history w.
Proof.
  rewrite get_metrics_summary_run.
  destruct last_n_minutes as [minutes|]; [|done].
  destruct (minutes =? 0)%Z; [done|].
  destruct (minus_minutes _ _); by destruct w.
Qed.

Lemma summary_total_operations kept :
  kept ≠ [] →
  summary kept !! "total_operations" = Some (VInt (Z.of_nat (length kept)))
  ∧ summary kept !! "message" = None
  ∧ summary kept !! "recent_errors"
    = Some (VList (recent_error
                   <$> filter (λ m, success m = false) (last_n 5 kept))).
Proof.
  destruct kept as [|m rest]; [done|]. intros _.
  unfold summary. split_and!; [done|done|].
  change (-5)%Z with (Z.opp 5). rewrite py_slice_from_last by lia. done.
Qed.

Lemma of_operation_app operation_name l1 l2 :
  of_operation operation_name (l1 ++ l2)
  = of_operation operation_name l1 ++ of_operation operation_name l2.
Proof.
  unfold of_operation. destruct operation_name as [name|]; [|done].
  destruct (String.eqb name EmptyString); [done|]. apply filter_app.
Qed.

Lemma get_metrics_summary_selected operation_name last_n_minutes w :
  (get_metrics_summary operation_name last_n_minutes w).1
  = summary <$> selected operation_name last_n_minutes
                  (time_time (readings w)) (metrics_history w).
Proof.
  rewrite get_metrics_summary_run. unfold selected.
  destruct last_n_minutes as [minutes|]; [|done].
  destruct (minutes =? 0)%Z; [done|].
  by destruct (minus_minutes _ _).
Qed.

Lemma selected_sublist operation_name last_n_minutes now history kept :
  selected operation_name last_n_minutes now history = inr kept →
  kept `sublist_of` of_operation operation_name history.
Proof.
  unfold selected. destruct last_n_minutes as [minutes|]; [|by intros [= <-]].
  destruct (minutes =? 0)%Z; [by intros [= <-]|].
  destruct (minus_minutes now minutes) as [|cutoff_time]; [done|].
  intros [= <-]. apply sublist_filter.
Qed.

(** X6: a summary asked for from inside a measured call does not count
    that call, which is recorded when it ends.  Whatever the period
    asked for (none, or the last minute as the chat engine asks), the
    summary for the operation is that of the metrics selected, at the
    time it is asked, in the history as it was before the call: earlier
    calls of the operation, those of the period only; when none of them
    is selected, because there was none or because they are older than
    the period, it says that no metric is available, although a call is
    running.  The call is then recorded, and a summary without period
    taken afterwards counts one call more. *)
Theorem summary_inside_measured_call name last_n_minutes w :
  name ≠ EmptyString →
  (Z.of_nat (length (metrics_history w)) < max_history w)%Z →
  let earlier := of_operation (Some name) (metrics_history w) in
  let now := time_time (3 + readings w) in
  let call :=
    measure_performance name (get_metrics_summary (Some name) last_n_minutes) in
  (call w).1
  = summary <$> selected (Some name) last_n_minutes now (metrics_history w)
  ∧ (last_n_minutes = None → (call w).1 = inr (summary earlier))
  ∧ (∀ kept,
       selected (Some name) last_n_minutes now (metrics_history w) = inr kept →
       kept `sublist_of` earlier
       ∧ (kept = [] → (call w).1 = inr no_metrics)
       ∧ (kept ≠ [] →
          ∃ report,
            (call w).1 = inr report
            ∧ report !! "total_operations"
              = Some (VInt (Z.of_nat (length kept)))))
  ∧ ∃ metrics,
      operation metrics = name
      ∧ metrics_history (call w).2 = metrics_history w ++ [metrics]
      ∧ (get_metrics_summary (Some name) None (call w).2).1
        = inr (summary (earlier ++ [metrics]))
      ∧ summary (earlier ++ [metrics]) !! "total_operations"
        = Some (VInt (Z.of_nat (length earlier) + 1)).
Proof.
  intros Hname Hroom earlier now call.
  destruct (measure_performance_run name
              (get_metrics_summary (Some name) last_n_minutes) w)
    as (metrics & Hop & _ & _ & Hrun).
  fold call in Hrun.
  assert (Hresult : (call w).1
    = summary <$> selected (Some name) last_n_minutes now (metrics_history w)).
  { rewrite Hrun. cbn [fst]. rewrite get_metrics_summary_selected.
    by destruct w. }
  assert (Hhistory : metrics_history (call w).2 = metrics_history w ++ [metrics]).
  { rewrite Hrun. cbn [snd].
    destruct (get_metrics_summary_reports_frame (Some name) last_n_minutes
                (started w)) as [Hmh Hmx].
    set (w2 := (get_metrics_summary (Some name) last_n_minutes (started w)).2)
      in *.
    replace (metrics_history
               (set_metrics_history
                  (recorded (max_history w2) (metrics_history w2) metrics)
                  (set_readings (S (S (S (S (readings w2))))) w2)))
      with (recorded (max_history w2) (metrics_history w2) metrics)
      by (by destruct w2).
    rewrite Hmh, Hmx.
    replace (metrics_history (started w)) with (metrics_history w)
      by (by destruct w).
    replace (max_history (started w)) with (max_history w) by (by destruct w).
    unfold recorded. rewrite length_app. simpl.
    destruct (Z.ltb_spec (max_history w)
                (Z.of_nat (length (metrics_history w) + 1))); [lia|done]. }
  split; [done|]. split; [|split].
  - intros ->. by rewrite Hresult.
  - intros kept Hkept. split; [by eapply selected_sublist|].
    rewrite Hresult, Hkept. split.
    + by intros ->.
    + intros Hsome. exists (summary kept). split; [done|].
      by destruct (summary_total_operations kept Hsome) as (-> & _).
  - exists metrics. split_and!; [done|done| |].
    + rewrite get_metrics_summary_run. cbn [fst]. rewrite Hhistory.
      rewrite of_operation_app. fold earlier. do 3 f_equal.
      unfold of_operation. apply String.eqb_neq in Hname. rewrite Hname.
      rewrite filter_cons, filter_nil. by rewrite decide_True.
    + destruct (summary_total_operations (earlier ++ [metrics])) as (-> & _).
      { by destruct earlier. }
      rewrite length_app. simpl. do 2 f_equal. lia.
Qed.

(** X7: what a summary reports.  [get_metrics_summary] reads the
    history and leaves it as it is; it raises only if the arithmetic on
    dates does.  An empty operation name and a period of zero minutes
    select like no name and no period: all the metrics.  The summary says
    that no metric is available exactly when no metric is selected;
    otherwise it counts the metrics selected, and lists as recent errors
    the failures among the last five of them, so at most five. *)
Theorem get_metrics_summary_reports operation_name last_n_minutes w :
  let run := get_metrics_summary operation_name last_n_minutes w in
  (metrics_history run.2 = metrics_history w ∧ max_history run.2 = max_history w)
  ∧ (get_metrics_summary (Some EmptyString) last_n_minutes w
     = get_metrics_summary None last_n_minutes w)
  ∧ (get_metrics_summary operation_name (Some 0%Z) w
     = get_metrics_summary operation_name None w)
  ∧ (∀ e, run.1 = inl e →
       ∃ minutes, last_n_minutes = Some minutes
         ∧ minus_minutes (time_time (readings w)) minutes = inl e)
  ∧ (∀ result, run.1 = inr result →
       ∃ kept,
         kept `sublist_of` of_operation operation_name (metrics_history w)
         ∧ (last_n_minutes = None →
            kept = of_operation operation_name (metrics_history w))
         ∧ result = summary kept
         ∧ (kept = [] ↔ result = no_metrics)
         ∧ (kept ≠ [] →
            result !! "total_operations" = Some (VInt (Z.of_nat (length kept)))
            ∧ ∃ errors,
                result !! "recent_errors" = Some (VList (recent_error <$> errors))
                ∧ errors = filter (λ m, success m = false) (last_n 5 kept)
                ∧ (length errors ≤ 5)%nat)).
Proof.
  intros run. subst run. rewrite !get_metrics_summary_run.
  assert (Hsummary : ∀ kept,
    (kept = [] ↔ summary kept = no_metrics)
    ∧ (kept ≠ [] →
       summary kept !! "total_operations" = Some (VInt (Z.of_nat (length kept)))
       ∧ ∃ errors,
           summary kept !! "recent_errors" = Some (VList (recent_error <$> errors))
           ∧ errors = filter (λ m, success m = false) (last_n 5 kept)
           ∧ (length errors ≤ 5)%nat)).
  { intros kept. split.
    - split; [by intros ->|]. intros Hnone.
      destruct kept as [|m rest]; [done|].
      destruct (summary_total_operations (m :: rest)) as (_ & Hmessage & _);
        [done|].
      by rewrite Hnone in Hmessage.
    - intros Hsome.
      destruct (summary_total_operations kept Hsome) as (Htotal & _ & Herrors).
      split; [done|]. eexists. split_and!; [done|done|].
      etrans; [apply length_filter|]. unfold last_n. rewrite length_drop. lia. }
  split; [|split; [|split; [|split]]].
  - destruct last_n_minutes as [minutes|]; [|done].
    destruct (minutes =? 0)%Z; [done|].
    destruct (minus_minutes _ _); by destruct w.
  - done.
  - done.
  - intros e. destruct last_n_minutes as [minutes|]; [|done].
    destruct (minutes =? 0)%Z; [done|].
    destruct (minus_minutes _ _) eqn:Hminus; [|done].
    intros [= <-]. by exists minutes.
  - intros result.
    destruct last_n_minutes as [minutes|].
    + destruct (minutes =? 0)%Z.
      * intros [= <-]. eexists. split_and!; [done|done|done|..]; apply Hsummary.
      * destruct (minus_minutes _ _) as [|cutoff]; [done|]. intros [= <-].
        exists (since cutoff (of_operation operation_name (metrics_history w))).
        split_and!; [apply sublist_filter|done|done|..]; apply Hsummary.
    + intros [= <-]. eexists. split_and!; [done|done|done|..]; apply Hsummary.
Qed.

End SummaryFacts.

(** ** The requests of the embeddings *)

Section RequestFacts.
Context `{Runtime} `{Environment}.
Import HuggingFaceAPIEmbeddings EnhancedVectorStoreManager.

Lemma traffic_none w : traffic [] [] w = w.
Proof. destruct w. unfold traffic. cbn. by rewrite !app_nil_r. Qed.

Lemma traffic_compose rs1 rs2 ds1 ds2 w :
  traffic rs2 ds2 (traffic rs1 ds1 w) = traffic (rs1 ++ rs2) (ds1 ++ ds2) w.
Proof. destruct w. unfold traffic. cbn. by rewrite !app_assoc. Qed.

Lemma after_requests_traffic n inputs delays w :
  after_requests n inputs delays w = traffic (replicate n inputs) delays w.
Proof. reflexivity. Qed.

Lemma sum_Z_app l1 l2 : sum_Z (l1 ++ l2) = (sum_Z l1 + sum_Z l2)%Z.
Proof. induction l1 as [|x l1 IH]; simpl; lia. Qed.

(** The bounds of the retry policy on three answers. *)
Lemma retry_policy_bounds v0 v1 v2 :
  let '(r, n, delays) := retry_policy 0 [v0; v1; v2] in
  (1 ≤ n ≤ 3)%nat
  ∧ (sum_Z delays ≤ 7)%Z
  ∧ Forall (λ d, d = 1 ∨ d = 2 ∨ d = 4)%Z delays
  ∧ (length delays ≤ n)%nat
  ∧ (∀ v, v0 = Usable v → r = Some v ∧ n = 1%nat ∧ delays = []).
Proof.
  destruct v0, v1, v2; simpl.
  all: repeat match goal with
              | |- _ ∧ _ => split
              | |- Forall _ [] => apply Forall_nil_2
              | |- Forall _ (_ :: _) => apply Forall_cons_2
              | |- ∀ _, _ => intros; simplify_eq
              end; try done; try lia.
Qed.

Lemma test_api_connection_run w :
  _test_api_connection w = (inr tt, traffic [VStr "test"] [] w).
Proof.
  unfold _test_api_connection, try_except, mbind, M_bind, requests_post, traffic.
  cbn. rewrite app_nil_r.
  destruct (remote _ _); by destruct w.
Qed.

Lemma call_api_traffic texts w :
  ∃ v n delays,
    _call_api texts 3 w = (inr v, traffic (replicate n (payload texts)) delays w)
    ∧ call_result texts v
    ∧ (1 ≤ n ≤ 3)%nat
    ∧ (sum_Z delays ≤ 7)%Z
    ∧ Forall (λ d, d = 1 ∨ d = 2 ∨ d = 4)%Z delays
    ∧ (∀ u, classify (remote (length (requests w)) (payload texts)) = Usable u →
       v = u ∧ n = 1%nat ∧ delays = []).
Proof.
  destruct (call_api_result texts w) as (v & w' & Hrun & Hv).
  rewrite call_api_run in Hrun.
  pose proof (retry_policy_bounds
    (classify (remote (length (requests w) + 0) (payload texts)))
    (classify (remote (length (requests w) + 1) (payload texts)))
    (classify (remote (length (requests w) + 2) (payload texts)))) as Hb.
  change (retry_policy 0 _) with (retry_policy 0 (next_verdicts texts w)) in Hb.
  rewrite call_api_run.
  destruct (retry_policy 0 (next_verdicts texts w)) as [[r n] delays].
  destruct Hb as (Hn & Hsum & Hdelays & _ & Hfirst).
  simplify_eq. exists (default (_generate_fake_embeddings texts) r), n, delays.
  split; [done|]. split; [done|]. split; [done|]. split; [done|].
  split; [done|].
  intros u Hu. rewrite Nat.add_0_r in Hfirst.
  destruct (Hfirst u Hu) as (-> & -> & ->). done.
Qed.

Lemma embed_batches_traffic texts size starts : ∀ all_embeddings w,
  ∃ news counts delays,
    embed_batches texts size starts all_embeddings w
    = (inr (all_embeddings ++ concat news),
       traffic
         (concat (zip_with
                    (λ n i, replicate n (payload (py_slice i (i + size) texts)))
                    counts starts))
         delays w)
    ∧ length counts = length starts
    ∧ Forall (λ n, 1 ≤ n ≤ 3)%nat counts
    ∧ (sum_Z delays ≤ 7 * Z.of_nat (length starts))%Z
    ∧ Forall (λ d, d = 1 ∨ d = 2 ∨ d = 4)%Z delays.
Proof.
  induction starts as [|i rest IH]; intros acc w.
  - exists [], [], []. cbn. rewrite app_nil_r, traffic_none.
    split_and!; [done|done|constructor|lia|constructor].
  - cbn [embed_batches]. unfold mbind, M_bind.
    destruct (call_api_traffic (py_slice i (i + size) texts) w)
      as (v & n & delays & -> & Hv & Hn & Hsum & Hdelays & _).
    destruct (call_result_iter _ _ Hv) as [items Hitems].
    unfold lift. rewrite Hitems.
    destruct (IH (acc ++ items)
                (traffic (replicate n (payload (py_slice i (i + size) texts)))
                         delays w))
      as (news & counts & delays' & -> & Hlen & Hcounts & Hsum' & Hdelays').
    exists (items :: news), (n :: counts), (delays ++ delays').
    rewrite traffic_compose. cbn [zip_with concat length].
    split_and!.
    + by rewrite <- app_assoc.
    + by rewrite Hlen.
    + by constructor.
    + rewrite sum_Z_app. lia.
    + by apply Forall_app.
Qed.

Lemma batches_sizes texts :
  Forall (λ batch, 1 ≤ length batch ≤ 10)%nat (batches texts).
Proof.
  unfold batches, py_range_step. rewrite <- list_fmap_compose.
  apply Forall_fmap, Forall_forall. intros k Hk%elem_of_seq. cbn.
  unfold py_slice. rewrite length_take, length_drop.
  assert (k * 10 < length texts)%nat; [|lia].
  pose proof (Nat.div_mod (length texts + 10 - 1) 10 ltac:(lia)).
  pose proof (Nat.mod_upper_bound (length texts + 10 - 1) 10 ltac:(lia)).
  lia.
Qed.

(** X9: [embed_documents] sends the texts in batches of at most ten, in
    order: between one and three requests for each batch, each with the
    whole batch, and nothing else happens to the world but the sleeps
    between the attempts, of at most seven seconds for a batch.  No
    request is sent for an empty list of texts. *)
Theorem embed_documents_batches texts w :
  concat (batches texts) = texts
  ∧ Forall (λ batch, 1 ≤ length batch ≤ 10)%nat (batches texts)
  ∧ (∃ vectors counts delays,
       embed_documents texts w
       = (inr vectors,
          traffic
            (concat (zip_with (λ n batch, replicate n (payload batch))
                              counts (batches texts)))
            delays w)
       ∧ length counts = length (batches texts)
       ∧ Forall (λ n, 1 ≤ n ≤ 3)%nat counts
       ∧ (sum_Z delays ≤ 7 * Z.of_nat (length (batches texts)))%Z)
  ∧ (texts = [] → embed_documents texts w = (inr [], w)).
Proof.
  split_and!.
  - apply batches_cover. lia.
  - apply batches_sizes.
  - unfold embed_documents.
    destruct (embed_batches_traffic texts 10
                (py_range_step (length texts) 10) [] w)
      as (news & counts & delays & -> & Hlen & Hcounts & Hsum & _).
    exists (concat news), counts, delays. unfold batches.
    rewrite zip_with_fmap_r, length_fmap. done.
  - intros ->. cbn. done.
Qed.

Lemma embed_documents_frame texts w :
  ∃ vectors inputs delays,
    embed_documents texts w = (inr vectors, traffic inputs delays w)
    ∧ (honest →
       length vectors = length texts ∧ Forall (λ v, is_vector v = true) vectors)
    ∧ (all_fail → vectors = fake_vector <$> texts).
Proof.
  destruct (embed_documents_run texts w) as (vectors & w' & Hrun & Hhonest & Hfail).
  destruct (embed_batches_traffic texts 10
              (py_range_step (length texts) 10) [] w)
    as (news & counts & delays & Htraffic & _).
  unfold embed_documents in Hrun. rewrite Hrun in Htraffic. simplify_eq.
  unfold embed_documents. rewrite Hrun. by eexists _, _, _.
Qed.

Lemma embed_query_traffic text w :
  ∃ vector inputs delays,
    embed_query text w = (inr vector, traffic inputs delays w)
    ∧ (honest → is_vector vector = true)
    ∧ (all_fail → vector = fake_vector text).
Proof.
  destruct (embed_query_run text w) as (vector & w' & Hrun & Hhonest & Hfail).
  destruct (embed_query_frame text w) as (n & delays & Hframe).
  rewrite Hrun in Hframe. cbn in Hframe. subst w'.
  rewrite Hrun. by eexists _, _, _.
Qed.

End RequestFacts.

(** ** Adding to the store *)

Section AddFacts.
Context `{Runtime} `{Environment} `{Platform}.
Import HuggingFaceAPIEmbeddings EnhancedVectorStoreManager.

Lemma can_open_store_works w :
  can_open w = true ↔ embeddings w = true ∧ store_works 3 w.
Proof.
  unfold can_open, store_works. rewrite !andb_true_iff, !bool_decide_eq_true.
  split.
  - intros (((Hem & Hf0) & Hf1) & Hf2). split; [done|].
    intros [|[|[|i]]] Hi; cbn; try done; lia.
  - intros (Hem & Hall). split_and!; [done|..].
    + apply (Hall 0). lia.
    + apply (Hall 1). lia.
    + apply (Hall 2). lia.
Qed.

Lemma _initialize_opened collection_name w :
  can_open w = true →
  _initialize collection_name w = (inr true, opened collection_name w).
Proof.
  unfold _initialize, can_open, os_makedirs, PersistentClient, Chroma, opened,
    after_store_ops.
  unfold_steps.
  destruct w as [rq sl rd so co em vs mh mx]. cbn.
  rewrite !andb_true_iff, !bool_decide_eq_true.
  intros (((-> & Hf0) & Hf1) & Hf2). cbn.
  rewrite Hf0. cbn. rewrite Hf1. cbn. rewrite Hf2. done.
Qed.

Lemma initialize_vectorstore_opened collection_name w :
  can_open w = true →
  ∃ metrics,
    operation metrics = "initialize_vectorstore"
    ∧ success metrics = true
    ∧ initialize_vectorstore collection_name w
      = (inr true, measured metrics (opened collection_name (started w))).
Proof.
  intros Hcan. unfold initialize_vectorstore.
  destruct (measure_performance_run "initialize_vectorstore"
              (_initialize collection_name) w)
    as (metrics & Hop & Hsuccess & _ & Hrun).
  rewrite _initialize_opened in Hrun, Hsuccess by done.
  exists metrics. by rewrite Hrun.
Qed.

Lemma chroma_add_documents_run handle documents w :
  honest → store_works 1 w →
  ∃ vectors inputs delays,
    length vectors = length documents
    ∧ Forall (λ v, is_vector v = true) vectors
    ∧ Chroma_add_documents handle documents w
      = (inr tt,
         set_collections
           (<[handle := entries w handle ++ stored_entries documents vectors]>
              (collections w))
           (after_store_ops 1 (traffic inputs delays w))).
Proof.
  intros Hhonest Hworks. unfold Chroma_add_documents. rewrite run_bind.
  destruct (embed_documents_frame (page_content <$> documents) w)
    as (vectors & inputs & delays & -> & Hshape & _).
  destruct (Hshape Hhonest) as [Hlen Hvec]. rewrite length_fmap in Hlen.
  exists vectors, inputs, delays. split_and!; [done|done|].
  rewrite bool_decide_eq_true_2 by done. unfold store_write.
  change (store_ops (traffic inputs delays w)) with (store_ops w).
  pose proof (Hworks 0 ltac:(lia)) as Hfault. cbn in Hfault. rewrite Hfault.
  destruct w. done.
Qed.

Lemma split_documents_convertible text filename chunk_size chunk_overlap :
  Forall convertible_document
    (SmartTextSplitter.split_documents_with_metadata
       text filename chunk_size chunk_overlap).
Proof.
  apply Forall_forall. intros d (i & Hd)%list_elem_of_lookup.
  apply split_documents_lookup in Hd as (chunk & _ & ->).
  unfold convertible_document. cbn. intros key value Hvalue.
  destruct (decide (key = "keywords")) as [->|Hkey].
  - rewrite chunk_metadata_keywords in Hvalue.
    destruct (SmartTextSplitter._extract_keywords chunk 5); by simplify_eq.
  - rewrite chunk_metadata_lookup in Hvalue by done.
    apply elem_of_list_to_map_2 in Hvalue.
    repeat (apply elem_of_cons in Hvalue as [Hvalue|Hvalue];
            [by simplify_eq|]).
    by apply elem_of_nil in Hvalue.
Qed.

Lemma insert_get_or_create collection_name stored
    (store : gmap string (list StoredEntry)) :
  <[collection_name := stored]> (get_or_create_collection collection_name store)
  = <[collection_name := stored]> store.
Proof.
  unfold get_or_create_collection.
  destruct (store !! collection_name); [done|]. apply insert_insert_eq.
Qed.

(** The inner function of [add_documents_enhanced], where it can write. *)
Lemma _add_documents_run text filename chunk_size chunk_overlap w :
  let documents :=
    SmartTextSplitter.split_documents_with_metadata
      text filename chunk_size chunk_overlap in
  honest → can_add w → documents ≠ [] →
  ∃ vectors inputs delays w1,
    length vectors = length documents
    ∧ Forall (λ v, is_vector v = true) vectors
    ∧ match vectorstore w with
      | Some _ => w1 = w
      | None =>
          ∃ metrics,
            operation metrics = "initialize_vectorstore"
            ∧ success metrics = true
            ∧ w1 = measured metrics (opened Config.COLLECTION_NAME (started w))
      end
    ∧ _add_documents text filename chunk_size chunk_overlap w
      = (inr (Z.of_nat (length documents), doc_info documents),
         set_collections
           (<[target w :=
                entries w (target w)
                ++ stored_entries (sanitized_document <$> documents) vectors]>
              (collections w))
           (after_store_ops 1 (traffic inputs delays w1))).
Proof.
  intros documents Hhonest Hcan Hsome.
  assert (Htail : ∀ w1 handle,
    vectorstore w1 = Some handle → embeddings w1 = true → store_works 1 w1 →
    ∃ vectors inputs delays,
      length vectors = length documents
      ∧ Forall (λ v, is_vector v = true) vectors
      ∧ (w1 ← get_world;
         if negb (embeddings w1) then raise (ValueError "Embeddings non initialisés")
         else
           if bool_decide (documents = []) then
             raise (ValueError "Aucun document généré lors du découpage")
           else
             filtered_documents ← lift (_filter_complex_metadata documents);
             handle ← the_vectorstore;
             Chroma_add_documents handle filtered_documents;;
             mret (Z.of_nat (length documents), doc_info documents)) w1
        = (inr (Z.of_nat (length documents), doc_info documents),
           set_collections
             (<[handle :=
                  entries w1 handle
                  ++ stored_entries (sanitized_document <$> documents) vectors]>
                (collections w1))
             (after_store_ops 1 (traffic inputs delays w1)))).
  { intros w1 handle Hhandle Hem Hworks.
    destruct (chroma_add_documents_run handle (sanitized_document <$> documents)
                w1 Hhonest Hworks)
      as (vectors & inputs & delays & Hlen & Hvec & Hadd).
    rewrite length_fmap in Hlen.
    exists vectors, inputs, delays. split_and!; [done|done|].
    rewrite run_bind. unfold get_world. rewrite Hem. cbn [negb].
    rewrite bool_decide_eq_false_2 by done.
    rewrite run_bind. unfold lift.
    rewrite filter_complex_metadata_ok
      by apply split_documents_convertible.
    rewrite run_bind, (the_vectorstore_run w1 handle Hhandle), run_bind, Hadd.
    done. }
  unfold _add_documents. fold documents.
  rewrite run_bind. unfold get_world at 1.
  unfold can_add, target in *.
  destruct (vectorstore w) as [handle|] eqn:Hhandle; cbn [default].
  - destruct Hcan as [Hem Hworks].
    rewrite (bool_decide_eq_true_2 (is_Some (Some _))) by (by eexists).
    cbn [negb]. rewrite run_bind. unfold mret at 1, M_ret at 1.
    destruct (Htail w handle Hhandle Hem Hworks)
      as (vectors & inputs & delays & Hlen & Hvec & ->).
    by exists vectors, inputs, delays, w.
  - destruct Hcan as [Hem Hworks].
    rewrite (bool_decide_eq_false_2 (is_Some None)) by (by intros [? ?]).
    cbn [negb]. rewrite !run_bind.
    destruct (initialize_vectorstore_opened Config.COLLECTION_NAME w)
      as (metrics & Hop & Hsuccess & ->).
    { apply can_open_store_works. split; [done|].
      intros i Hi. apply Hworks. lia. }
    set (w1 := measured metrics (opened Config.COLLECTION_NAME (started w))).
    rewrite run_bind. unfold get_world at 1. cbn [negb orb].
    change (vectorstore w1) with (Some Config.COLLECTION_NAME).
    rewrite (bool_decide_eq_true_2 (is_Some (Some _))) by (by eexists).
    cbn [negb]. unfold mret at 1, M_ret at 1.
    destruct (Htail w1 Config.COLLECTION_NAME) as
      (vectors & inputs & delays & Hlen & Hvec & ->); [done|done| |].
    { intros i Hi. change (store_ops w1) with (3 + store_ops w).
      replace (i + (3 + store_ops w)) with (i + 3 + store_ops w) by lia.
      apply Hworks. lia. }
    exists vectors, inputs, delays, w1. split_and!; [done|done|by eexists|].
    do 2 f_equal.
    change (collections w1)
      with (get_or_create_collection Config.COLLECTION_NAME (collections w)).
    rewrite insert_get_or_create. do 2 f_equal.
    unfold entries.
    change (collections w1)
      with (get_or_create_collection Config.COLLECTION_NAME (collections w)).
    apply get_or_create_collection_entries.
Qed.

Lemma stored_entries_fields documents vectors :
  length vectors = length documents →
  entry_content <$> stored_entries documents vectors = page_content <$> documents
  ∧ entry_metadata <$> stored_entries documents vectors = metadata <$> documents
  ∧ entry_embedding <$> stored_entries documents vectors = vectors.
Proof.
  unfold stored_entries. revert vectors.
  induction documents as [|doc documents IH]; intros [|v vectors] Hlen;
    simplify_eq/=; [done|].
  destruct (IH vectors) as (-> & -> & ->); [done|]. done.
Qed.

(** [add_documents_enhanced], where it can write. *)
Lemma add_documents_enhanced_run text filename chunk_size chunk_overlap w :
  let documents :=
    SmartTextSplitter.split_documents_with_metadata
      text filename chunk_size chunk_overlap in
  honest → can_add w → (100 ≤ chunk_size ≤ 4000)%Z → documents ≠ [] →
  ∃ metrics vectors inputs delays w1,
    length vectors = length documents
    ∧ Forall (λ v, is_vector v = true) vectors
    ∧ operation metrics = "add_documents"
    ∧ success metrics = true
    ∧ match vectorstore w with
      | Some _ => w1 = started w
      | None =>
          ∃ metrics,
            operation metrics = "initialize_vectorstore"
            ∧ success metrics = true
            ∧ w1 = measured metrics
                     (opened Config.COLLECTION_NAME (started (started w)))
      end
    ∧ add_documents_enhanced text filename chunk_size chunk_overlap w
      = (inr (Z.of_nat (length documents), doc_info documents),
         measured metrics
           (set_collections
              (<[target w :=
                   entries w (target w)
                   ++ stored_entries (sanitized_document <$> documents) vectors]>
                 (collections w))
              (after_store_ops 1 (traffic inputs delays w1)))).
Proof.
  intros documents Hhonest Hcan Hsize Hsome.
  unfold add_documents_enhanced, InputValidator.validate_chunk_size.
  destruct (Z.ltb_spec chunk_size 100); [lia|].
  destruct (Z.ltb_spec 4000 chunk_size); [lia|]. cbn [negb].
  destruct (measure_performance_run "add_documents"
              (_add_documents text filename chunk_size chunk_overlap) w)
    as (metrics & Hop & Hsuccess & _ & ->).
  destruct (_add_documents_run text filename chunk_size chunk_overlap
              (started w) Hhonest Hcan Hsome)
    as (vectors & inputs & delays & w1 & Hlen & Hvec & Hw1 & Hrun).
  rewrite Hrun in *. cbn [fst snd] in *.
  by exists metrics, vectors, inputs, delays, w1.
Qed.

(** X10: an add that can write stores the chunks and returns their
    number: with a chunk size the validator accepts, an overlap within
    the chunk size (as langchain's splitter requires), a text that gives
    at least one chunk, a store that is open or can be opened, and an
    endpoint that keeps its contract, [add_documents_enhanced] returns
    the number of chunks with the summary of the documents, and appends
    to the collection one entry for each chunk, in order, with the chunk
    as content, the sanitized metadata of its document and a vector of
    the backend's dimension; the entries that were there stay, the other
    collections are as they were, and the store is left open. *)
Theorem add_stores_chunks text filename chunk_size chunk_overlap w :
  let documents :=
    SmartTextSplitter.split_documents_with_metadata
      text filename chunk_size chunk_overlap in
  honest → can_add w →
  (100 ≤ chunk_size ≤ 4000)%Z → (0 ≤ chunk_overlap ≤ chunk_size)%Z →
  documents ≠ [] →
  ∃ added w',
    add_documents_enhanced text filename chunk_size chunk_overlap w
    = (inr (Z.of_nat (length documents), doc_info documents), w')
    ∧ collections w'
      = <[target w := entries w (target w) ++ added]> (collections w)
    ∧ entry_content <$> added
      = SmartTextSplitter.smart_split text chunk_size chunk_overlap true
    ∧ entry_metadata <$> added = (λ doc, sanitized <$> metadata doc) <$> documents
    ∧ Forall (λ e, is_vector (entry_embedding e) = true) added
    ∧ vectorstore w' = Some (target w).
Proof.
  intros documents Hhonest Hcan Hsize _ Hsome.
  destruct (add_documents_enhanced_run text filename chunk_size chunk_overlap
              w Hhonest Hcan Hsize Hsome)
    as (metrics & vectors & inputs & delays & w1 & Hlen & Hvec & _ & _ & Hw1 & ->).
  fold documents in Hlen |- *.
  destruct (stored_entries_fields (sanitized_document <$> documents) vectors)
    as (Hcontent & Hmetadata & Hembedding); [by rewrite length_fmap|].
  exists (stored_entries (sanitized_document <$> documents) vectors).
  eexists. split_and!; [done|done| | | |].
  - rewrite Hcontent, <- list_fmap_compose.
    apply split_documents_contents.
  - by rewrite Hmetadata, <- list_fmap_compose.
  - rewrite <- Hembedding in Hvec. by apply Forall_fmap in Hvec.
  - unfold target. cbn.
    destruct (vectorstore w) eqn:Hhandle.
    + subst w1. cbn. by rewrite Hhandle.
    + by destruct Hw1 as (? & _ & _ & ->).
Qed.

End AddFacts.

(** ** Searching the store, and the checks at the entry *)

Section SearchFacts.
Context `{Runtime} `{Environment} `{Platform}.
Import HuggingFaceAPIEmbeddings EnhancedVectorStoreManager.

Lemma similarity_search_run handle query k w :
  ∃ vector inputs delays,
    Chroma_similarity_search handle query k w
    = match store_fault (store_ops w) with
      | Some e => (inl e, after_store_ops 1 (traffic inputs delays w))
      | None =>
          (inr (omap (λ i, entry_document <$> entries w handle !! i)
                     (nearest vector (entries w handle) k)),
           after_store_ops 1 (traffic inputs delays w))
      end.
Proof.
  unfold Chroma_similarity_search. rewrite run_bind.
  destruct (embed_query_traffic query w) as (vector & inputs & delays & -> & _).
  exists vector, inputs, delays.
  unfold store_op, mbind, M_bind, mret, M_ret, get_world.
  change (store_ops (traffic inputs delays w)) with (store_ops w).
  by destruct (store_fault _).
Qed.

Lemma lookup_origin query k w handle :
  vectorstore w = Some handle →
  ∃ results w',
    lookup query k w = (inr results, w')
    ∧ collections w' = collections w
    ∧ Forall (from_entries (entries w handle)) results.
Proof.
  intros Hhandle. unfold lookup.
  rewrite run_bind. unfold try_except.
  rewrite run_bind, (the_vectorstore_run w handle Hhandle), run_bind.
  destruct (similarity_search_run handle query k w)
    as (vector & inputs & delays & ->).
  destruct (store_fault (store_ops w)); cbn.
  - eexists [], _. split_and!; [done|by destruct w|constructor].
  - eexists _, _. split_and!; [done|by destruct w|].
    apply Forall_fmap, Forall_forall. intros doc Hdoc.
    apply list_elem_of_omap in Hdoc as (i & _ & Hi).
    destruct (entries w handle !! i) as [e|] eqn:He; simplify_eq/=.
    exists e. split_and!; try done. apply list_elem_of_lookup. by exists i.
Qed.

Lemma _search_origin query k w :
  ∃ results w',
    _search query k w = (inr results, w')
    ∧ same_entries w w'
    ∧ Forall (from_entries (entries w (target w))) results.
Proof.
  unfold _search. fold (lookup query k).
  unfold mbind at 1, M_bind at 1, get_world. unfold target.
  destruct (vectorstore w) as [handle|] eqn:Hhandle; cbn [bool_decide negb default].
  - rewrite (bool_decide_eq_true_2 (is_Some (Some _))) by (by eexists). cbn [negb].
    rewrite run_bind. unfold mret at 1, M_ret at 1. cbn [negb].
    destruct (lookup_origin query k w handle Hhandle)
      as (results & w' & -> & Hco & Hfrom).
    exists results, w'. split_and!; [done| |done].
    intros other. unfold entries. by rewrite Hco.
  - rewrite (bool_decide_eq_false_2 (is_Some None)) by (by intros [? ?]). cbn [negb].
    rewrite !run_bind.
    destruct (initialize_vectorstore_run Config.COLLECTION_NAME w)
      as (w2 & -> & Hent & _ & _ & Hopen & Hshut).
    rewrite run_bind. unfold get_world, mret at 1, M_ret at 1.
    destruct (can_open w) eqn:Hcan; cbn [negb orb].
    + destruct (Hopen eq_refl) as [Hhandle2 _]. rewrite Hhandle2.
      rewrite (bool_decide_eq_true_2 (is_Some (Some _))) by (by eexists).
      cbn [negb].
      destruct (lookup_origin query k w2 _ Hhandle2)
        as (results & w' & -> & Hco & Hfrom).
      exists results, w'. split_and!; [done| |by rewrite <- Hent].
      intros other. unfold entries. rewrite Hco. apply Hent.
    + exists [], w2. split_and!; [done|done|constructor].
Qed.

Lemma search_with_metadata_run query k w :
  (InputValidator.validate_question query).1 = true →
  ∃ results w',
    search_with_metadata query k w = (inr results, w')
    ∧ Forall (from_entries (entries w (target w))) results
    ∧ same_entries w w'.
Proof.
  intros Hvalid. unfold search_with_metadata.
  destruct (InputValidator.validate_question query) as [valid query_error].
  cbn in Hvalid. subst valid. cbn [negb].
  destruct (measured_run "search_documents" (_search query k) w)
    as (w' & -> & Hco & _).
  destruct (_search_origin query k (started w))
    as (results & w1 & Hrun & Hent & Hfrom).
  rewrite Hrun in *. cbn [fst snd] in *.
  exists results, w'. split_and!; [done|done|].
  intros other. unfold entries. rewrite Hco. apply Hent.
Qed.

Lemma enrich_picked query_vector stored k :
  Forall2 describes (picked query_vector stored k)
    (enrich <$> omap (λ i, entry_document <$> stored !! i)
                     (nearest query_vector stored k)).
Proof.
  unfold picked.
  induction (nearest query_vector stored k) as [|i positions IH]; cbn;
    [constructor|].
  destruct (stored !! i) as [e|]; cbn; [|done].
  constructor; [|done]. by split_and!.
Qed.

Lemma lookup_picks query k w handle :
  vectorstore w = Some handle → store_fault (store_ops w) = None →
  ∃ query_vector results w',
    lookup query k w = (inr results, w')
    ∧ (embed_query query w).1 = inr query_vector
    ∧ collections w' = collections w
    ∧ Forall2 describes (picked query_vector (entries w handle) k) results.
Proof.
  intros Hhandle Hfault. unfold lookup.
  rewrite run_bind. unfold try_except.
  rewrite run_bind, (the_vectorstore_run w handle Hhandle), run_bind.
  unfold Chroma_similarity_search. rewrite run_bind.
  destruct (embed_query_traffic query w)
    as (query_vector & inputs & delays & Hquery & _).
  rewrite Hquery.
  unfold store_op, mbind, M_bind, mret, M_ret, get_world.
  change (store_ops (traffic inputs delays w)) with (store_ops w).
  rewrite Hfault.
  exists query_vector. eexists _, _. split_and!; [done|done|by destruct w|].
  replace (entries (set_store_ops (S (store_ops w)) (traffic inputs delays w))
             handle) with (entries w handle) by (by destruct w).
  apply enrich_picked.
Qed.

Lemma _search_picks query k w :
  can_search w →
  let asked :=
    match vectorstore w with
    | Some _ => w
    | None => (initialize_vectorstore Config.COLLECTION_NAME w).2
    end in
  ∃ query_vector results w',
    _search query k w = (inr results, w')
    ∧ (embed_query query asked).1 = inr query_vector
    ∧ same_entries w w'
    ∧ Forall2 describes (picked query_vector (entries w (target w)) k) results.
Proof.
  intros Hcan asked. unfold _search. fold (lookup query k).
  unfold mbind at 1, M_bind at 1, get_world.
  unfold can_search in Hcan. unfold target. subst asked.
  destruct (vectorstore w) as [handle|] eqn:Hhandle; cbn [bool_decide negb default].
  - rewrite (bool_decide_eq_true_2 (is_Some (Some _))) by (by eexists). cbn [negb].
    rewrite run_bind. unfold mret at 1, M_ret at 1. cbn [negb].
    destruct (lookup_picks query k w handle Hhandle)
      as (query_vector & results & w' & -> & Hquery & Hco & Hpicked).
    { apply (Hcan 0). lia. }
    exists query_vector, results, w'. split_and!; [done|done| |done].
    intros other. unfold entries. by rewrite Hco.
  - destruct Hcan as [Hem Hworks].
    rewrite (bool_decide_eq_false_2 (is_Some None)) by (by intros [? ?]). cbn [negb].
    rewrite !run_bind.
    destruct (initialize_vectorstore_opened Config.COLLECTION_NAME w)
      as (opening & _ & _ & ->).
    { apply can_open_store_works. split; [done|].
      intros i Hi. apply Hworks. lia. }
    set (w1 := measured opening (opened Config.COLLECTION_NAME (started w))).
    cbn [snd]. rewrite run_bind. cbn beta.
    change (vectorstore w1) with (Some Config.COLLECTION_NAME).
    rewrite (bool_decide_eq_true_2 (is_Some (Some _))) by (by eexists).
    cbn [negb orb]. unfold mret at 1, M_ret at 1. cbn [negb].
    destruct (lookup_picks query k w1 Config.COLLECTION_NAME)
      as (query_vector & results & w' & -> & Hquery & Hco & Hpicked); [done| |].
    { change (store_ops w1) with (3 + store_ops w). apply (Hworks 3). lia. }
    assert (Hentries : ∀ other, entries w1 other = entries w other).
    { intros other. unfold entries.
      change (collections w1)
        with (get_or_create_collection Config.COLLECTION_NAME (collections w)).
      apply get_or_create_collection_entries. }
    exists query_vector, results, w'. split_and!; [done|done| |].
    + intros other. unfold entries at 1. rewrite Hco. apply Hentries.
    + by rewrite <- Hentries.
Qed.

(** X11: a search returns the entries the store selects, each described
    from its metadata.  For a query the validator accepts, on a store
    that is open, or can be opened, and does not raise,
    [search_with_metadata] returns one result for each entry that the
    similarity search of the store selects in the collection for the
    vector of the query, in the order of the store: the result has the
    content and the metadata of the entry, no relevance score, and as
    chunk information the position, the number of chunks, the number of
    the chunk, the structure flag and the keywords that the metadata
    hold, or ["unknown"], [0], [0], [False] and the empty list for what
    they do not hold.  The search leaves the entries of every collection
    as they were. *)
Theorem search_returns_stored_chunks query k w :
  (InputValidator.validate_question query).1 = true →
  can_search w →
  ∃ query_vector results w',
    search_with_metadata query k w = (inr results, w')
    ∧ (embed_query query (lookup_world w)).1 = inr query_vector
    ∧ Forall2 describes (picked query_vector (entries w (target w)) k) results
    ∧ same_entries w w'.
Proof.
  intros Hvalid Hcan. unfold search_with_metadata.
  destruct (InputValidator.validate_question query) as [valid query_error].
  cbn in Hvalid. subst valid. cbn [negb].
  destruct (measured_run "search_documents" (_search query k) w)
    as (w' & -> & Hco & _).
  destruct (_search_picks query k (started w))
    as (query_vector & results & w1 & Hrun & Hquery & Hent & Hpicked).
  { by destruct w. }
  rewrite Hrun in *. cbn [fst snd] in *.
  exists query_vector, results, w'. split_and!; [done| | |].
  - unfold lookup_world. by destruct w as [rq sl rd so co em [handle|] mh mx].
  - by destruct w.
  - intros other. unfold entries. rewrite Hco. apply Hent.
Qed.

Lemma validate_question_refused question :
  (InputValidator.validate_question question).1 = false ↔ refused_question question.
Proof.
  unfold InputValidator.validate_question, refused_question.
  destruct (String.eqb_spec question EmptyString) as [->|Hq]; cbn [orb].
  { split; [by left|done]. }
  destruct (String.eqb_spec (str_strip question) EmptyString) as [Hs|Hs].
  { split; [by right; left|done]. }
  destruct (Z.ltb_spec (py_len (str_strip question)) 3).
  { split; [by right; right; left|done]. }
  destruct (Z.ltb_spec 1000 (py_len (str_strip question))).
  { split; [by right; right; right; left|done]. }
  destruct (existsb _ _) eqn:Hpattern; cbn [fst].
  - split; [|done]. intros _. do 4 right.
    apply existsb_exists in Hpattern as (pattern & Hin & Hp).
    exists pattern. split; [|done]. by apply list_elem_of_In.
  - split; [done|].
    intros [?|[?|[?|[?|(pattern & Hin & Hp)]]]]; try done; try lia.
    apply not_true_iff_false in Hpattern. exfalso. apply Hpattern.
    apply existsb_exists. exists pattern. split; [|done].
    by apply list_elem_of_In.
Qed.

(** X12: [add_documents_enhanced] refuses a chunk size below 100 or
    above 4000 before it does anything: it raises a [ValueError], and the
    world is as it was (no metrics are recorded, the store is not
    opened, nothing is sent to the endpoint). *)
Theorem add_rejects_chunk_size text filename chunk_size chunk_overlap w :
  (chunk_size < 100 ∨ 4000 < chunk_size)%Z →
  ∃ msg,
    add_documents_enhanced text filename chunk_size chunk_overlap w
    = (inl (ValueError ("Chunk size invalide: " +:+ msg)), w).
Proof.
  intros Hsize. unfold add_documents_enhanced, InputValidator.validate_chunk_size.
  destruct (Z.ltb_spec chunk_size 100); [by eexists|].
  destruct (Z.ltb_spec 4000 chunk_size); [by eexists|]. lia.
Qed.

(** X13: [search_with_metadata] refuses an empty or blank query, a query
    of fewer than 3 or more than 1000 characters once stripped, and a
    query in which a suspicious pattern is found, before it does
    anything: it raises a [ValueError], and the world is as it was; any
    other query is measured and returns. *)
Theorem search_rejects_query query k w :
  (refused_question query →
   ∃ msg,
     search_with_metadata query k w
     = (inl (ValueError ("Requête invalide: " +:+ msg)), w))
  ∧ (¬ refused_question query →
     ∃ results w', search_with_metadata query k w = (inr results, w')).
Proof.
  split.
  - intros Hrefused%validate_question_refused. unfold search_with_metadata.
    destruct (InputValidator.validate_question query) as [valid query_error].
    cbn in Hrefused. subst valid. cbn [negb]. by eexists.
  - intros Hvalid. rewrite <- validate_question_refused in Hvalid.
    apply not_false_iff_true in Hvalid.
    destruct (search_with_metadata_run query k w Hvalid)
      as (results & w' & Hrun & _).
    by exists results, w'.
Qed.

End SearchFacts.

(** ** The manager: construction, reset, retriever *)

Section ManagerFacts.
Context `{Runtime} `{Environment} `{Platform}.
Import HuggingFaceAPIEmbeddings EnhancedVectorStoreManager.

(** X14: building the manager never fails, whatever the endpoint
    answers to the test request, or if it cannot be reached: the
    constructor sends that one request, sets the embeddings, leaves the
    store closed and untouched, and starts a history of at most 100
    metrics with the successful [setup_embeddings]; the property
    [performance_metrics] then reports one operation and no error. *)
Theorem manager_init_never_fails w :
  ∃ metrics,
    EnhancedVectorStoreManager.__init__ w = (inr tt, constructed metrics w)
    ∧ operation metrics = "setup_embeddings"
    ∧ success metrics = true
    ∧ error_message metrics = None
    ∧ ∃ report,
        performance_metrics (constructed metrics w)
        = (inr report, constructed metrics w)
        ∧ report !! "total_operations" = Some (VInt 1)
        ∧ report !! "recent_errors" = Some (VList []).
Proof.
  destruct w as [rq sl rd so co em vs mh mx].
  set (w1 := mkWorld rq sl rd so co false None [] 100).
  change (EnhancedVectorStoreManager.__init__ _)
    with (PerformanceMonitor.measure_performance "setup_embeddings" _setup w1).
  destruct (measure_performance_run "setup_embeddings" _setup w1)
    as (metrics & Hop & Hsuccess & Herror & ->).
  unfold _setup, HuggingFaceAPIEmbeddings.__init__ in *.
  rewrite run_bind, test_api_connection_run in *.
  cbn [fst snd] in *. exists metrics. split_and!; [|done|done|done|].
  - f_equal. unfold constructed, traffic. cbn. by rewrite app_nil_r.
  - unfold performance_metrics. rewrite get_metrics_summary_run.
    eexists. split; [done|].
    change (of_operation None (metrics_history (constructed metrics _)))
      with [metrics].
    destruct (summary_total_operations [metrics]) as (-> & _ & ->); [done|].
    split; [done|]. unfold last_n. cbn [length drop Nat.sub].
    rewrite filter_cons, decide_False by (by rewrite Hsuccess). done.
Qed.

Lemma delete_collection_run collection_name w :
  store_fault (store_ops w) = None →
  delete_collection collection_name w
  = match collections w !! collection_name with
    | Some _ =>
        (inr tt,
         set_collections (delete collection_name (collections w))
           (after_store_ops 1 w))
    | None => (inl (missing_collection collection_name), after_store_ops 1 w)
    end.
Proof.
  intros Hfault. unfold delete_collection, store_op. rewrite Hfault.
  rewrite run_bind. unfold get_world.
  change (collections (set_store_ops _ w)) with (collections w).
  by destruct (collections w !! collection_name).
Qed.

Lemma reset_collection_run collection_name w :
  store_works 4 w →
  reset_collection collection_name w
  = match collections w !! collection_name with
    | Some _ => (inr tt, reset collection_name w)
    | None =>
        if is_ValueError (missing_collection collection_name)
        then (inr tt, reset collection_name w)
        else (inl (missing_collection collection_name), after_store_ops 3 w)
    end.
Proof.
  intros Hworks.
  pose proof (Hworks 0 ltac:(lia)) as Hf0.
  pose proof (Hworks 1 ltac:(lia)) as Hf1.
  pose proof (Hworks 2 ltac:(lia)) as Hf2.
  pose proof (Hworks 3 ltac:(lia)) as Hf3.
  cbn in Hf0, Hf1, Hf2, Hf3.
  unfold reset_collection, os_makedirs, PersistentClient.
  rewrite run_bind. unfold store_op at 1. rewrite Hf0.
  unfold mret at 1, M_ret at 1.
  rewrite run_bind. unfold store_op at 1. cbn [store_ops set_store_ops].
  rewrite Hf1. unfold mret at 1, M_ret at 1.
  rewrite run_bind. unfold try_except.
  rewrite delete_collection_run by done.
  cbn [collections set_store_ops].
  unfold Chroma, store_op, reset, after_store_ops, get_or_create_collection.
  destruct (collections w !! collection_name) as [stored|] eqn:Hstored.
  - rewrite run_bind. cbn. rewrite Hf3.
    unfold mbind, M_bind, modify_world, mret, M_ret. cbn.
    rewrite lookup_delete_eq, insert_delete_eq. by destruct w.
  - destruct (is_ValueError (missing_collection collection_name)).
    + unfold mret at 1, M_ret at 1. rewrite run_bind. cbn. rewrite Hf3.
      unfold mbind, M_bind, modify_world, mret, M_ret. cbn.
      rewrite Hstored. by destruct w.
    + by destruct w.
Qed.

(** X15: [reset_collection] leaves the collection empty and the store
    open on it: where the operations on the store do not raise, and
    chromadb raises a [ValueError] for a collection that does not exist,
    the reset returns, whether the collection existed or not; afterwards
    the collection exists and has no entries, the other collections are
    as they were, and the manager works on the collection.  The reset is
    not measured.  With a chromadb that raises another exception for a
    collection that does not exist, the reset of such a collection
    raises it, and the store is not opened. *)
Theorem reset_collection_empties collection_name w :
  store_works 4 w →
  (is_ValueError (missing_collection collection_name) = true
   ∨ is_Some (collections w !! collection_name) →
   reset_collection collection_name w = (inr tt, reset collection_name w)
   ∧ collections (reset collection_name w) !! collection_name = Some []
   ∧ (∀ other, other ≠ collection_name →
        collections (reset collection_name w) !! other = collections w !! other)
   ∧ vectorstore (reset collection_name w) = Some collection_name
   ∧ metrics_history (reset collection_name w) = metrics_history w)
  ∧ (is_ValueError (missing_collection collection_name) = false →
     collections w !! collection_name = None →
     ∃ w',
       reset_collection collection_name w
       = (inl (missing_collection collection_name), w')
       ∧ collections w' = collections w
       ∧ vectorstore w' = vectorstore w).
Proof.
  intros Hworks. rewrite reset_collection_run by done.
  split.
  - intros Hcase. split_and!.
    + destruct (collections w !! collection_name); [done|].
      destruct Hcase as [->|[? ?]]; done.
    + unfold reset. cbn. by rewrite lookup_insert_eq.
    + intros other Hother. unfold reset. cbn. by rewrite lookup_insert_ne.
    + done.
    + by destruct w.
  - intros Hother Hnone. rewrite Hnone, Hother.
    exists (after_store_ops 3 w). by destruct w.
Qed.

(** X16: a document replaces the previous one.  The application resets
    the collection and then adds the text, with an overlap of a fifth of
    the chunk size and at least 50, which is smaller than any chunk size
    the validator accepts.  Where the next five operations on the store
    do not raise, the endpoint keeps its contract, the chunk size is
    accepted and the text gives at least one chunk: if the collection
    exists, or chromadb raises a [ValueError] for a collection that does
    not exist, the collection then holds the chunks of the new text and
    nothing else, one entry for each chunk, in order; if the collection
    does not exist and chromadb raises another exception for that, as on
    a new store, the reset raises it, and nothing is added. *)
Theorem reset_then_add_replaces text filename chunk_size w :
  let chunk_overlap := Z.max 50 (chunk_size / 5) in
  let documents :=
    SmartTextSplitter.split_documents_with_metadata
      text filename chunk_size chunk_overlap in
  let ingest :=
    reset_collection Config.COLLECTION_NAME;;
    add_documents_enhanced text filename chunk_size chunk_overlap in
  honest → embeddings w = true → store_works 5 w →
  (100 ≤ chunk_size ≤ 4000)%Z →
  documents ≠ [] →
  (50 ≤ chunk_overlap < chunk_size)%Z
  ∧ (is_Some (collections w !! Config.COLLECTION_NAME)
     ∨ is_ValueError (missing_collection Config.COLLECTION_NAME) = true →
     ∃ added w',
       ingest w = (inr (Z.of_nat (length documents), doc_info documents), w')
       ∧ collections w' = <[Config.COLLECTION_NAME := added]> (collections w)
       ∧ entry_content <$> added
         = SmartTextSplitter.smart_split text chunk_size chunk_overlap true
       ∧ entry_metadata <$> added
         = (λ doc, sanitized <$> metadata doc) <$> documents)
  ∧ (collections w !! Config.COLLECTION_NAME = None →
     is_ValueError (missing_collection Config.COLLECTION_NAME) = false →
     ∃ w',
       ingest w = (inl (missing_collection Config.COLLECTION_NAME), w')
       ∧ collections w' = collections w
       ∧ vectorstore w' = vectorstore w).
Proof.
  intros chunk_overlap documents ingest Hhonest Hem Hworks Hsize Hsome.
  split.
  { unfold chunk_overlap.
    pose proof (Z.div_lt_upper_bound chunk_size 5 chunk_size). lia. }
  assert (Hreset : reset_collection Config.COLLECTION_NAME w
    = match collections w !! Config.COLLECTION_NAME with
      | Some _ => (inr tt, reset Config.COLLECTION_NAME w)
      | None =>
          if is_ValueError (missing_collection Config.COLLECTION_NAME)
          then (inr tt, reset Config.COLLECTION_NAME w)
          else (inl (missing_collection Config.COLLECTION_NAME),
                after_store_ops 3 w)
      end).
  { apply reset_collection_run. intros i Hi. apply Hworks. lia. }
  unfold ingest. rewrite run_bind, Hreset. clear Hreset. split.
  - intros Hcase.
    assert (Hreset : (match collections w !! Config.COLLECTION_NAME with
                      | Some _ => (inr tt, reset Config.COLLECTION_NAME w)
                      | None =>
                          if is_ValueError
                               (missing_collection Config.COLLECTION_NAME)
                          then (inr tt, reset Config.COLLECTION_NAME w)
                          else (inl (missing_collection Config.COLLECTION_NAME),
                                after_store_ops 3 w)
                      end : result unit * world)
                     = (inr tt, reset Config.COLLECTION_NAME w)).
    { destruct (collections w !! Config.COLLECTION_NAME); [done|].
      destruct Hcase as [[? ?]| ->]; done. }
    rewrite Hreset. clear Hreset.
    set (w0 := reset Config.COLLECTION_NAME w).
    destruct (add_documents_enhanced_run text filename chunk_size chunk_overlap w0)
      as (metrics & vectors & inputs & delays & w1 & Hlen & Hvec & _ & _ & Hw1 & ->);
      [done| |done|done|].
    { unfold can_add. cbn. split; [done|].
      intros i Hi. replace i with 0 by lia. apply (Hworks 4). lia. }
    fold documents in Hlen |- *.
    destruct (stored_entries_fields (sanitized_document <$> documents) vectors)
      as (Hcontent & Hmetadata & _); [by rewrite length_fmap|].
    exists (stored_entries (sanitized_document <$> documents) vectors).
    eexists. split_and!; [done| | |].
    + cbn. unfold entries, target. cbn. rewrite lookup_insert_eq. cbn.
      apply insert_insert_eq.
    + rewrite Hcontent, <- list_fmap_compose. apply split_documents_contents.
    + by rewrite Hmetadata, <- list_fmap_compose.
  - intros -> ->. exists (after_store_ops 3 w). by destruct w.
Qed.

(** X17: [get_retriever] opens the store if it is closed, and raises if
    it cannot: on an open store it returns a retriever on the collection
    with the [k] it is given, whatever [k] is, and changes nothing; on a
    closed store that can be opened it returns a retriever on the
    configured collection, and the store is left open; on a closed store
    that cannot be opened it raises a [ValueError], where
    [search_with_metadata] returns no result. *)
Theorem get_retriever_opens_or_raises k w :
  (∀ handle, vectorstore w = Some handle →
     get_retriever k w = (inr (mkRetriever handle k), w))
  ∧ (vectorstore w = None → can_open w = true →
     ∃ w', get_retriever k w = (inr (mkRetriever Config.COLLECTION_NAME k), w')
       ∧ vectorstore w' = Some Config.COLLECTION_NAME
       ∧ same_entries w w')
  ∧ (vectorstore w = None → can_open w = false →
     ∃ w', get_retriever k w
           = (inl (ValueError
                     "Impossible d'initialiser le VectorStore pour le retriever"),
              w')
       ∧ vectorstore w' = None
       ∧ collections w' = collections w).
Proof.
  split_and!.
  all: unfold get_retriever; rewrite run_bind; unfold get_world at 1.
  - intros handle Hhandle. rewrite Hhandle.
    rewrite (bool_decide_eq_true_2 (is_Some (Some _))) by (by eexists).
    cbn [negb]. rewrite run_bind. unfold mret at 1, M_ret at 1.
    by rewrite run_bind, (the_vectorstore_run w handle Hhandle).
  - intros Hnone Hcan. rewrite Hnone.
    rewrite (bool_decide_eq_false_2 (is_Some None)) by (by intros [? ?]).
    cbn [negb]. rewrite !run_bind.
    destruct (initialize_vectorstore_run Config.COLLECTION_NAME w)
      as (w2 & -> & Hent & _ & _ & Hopen & _).
    destruct (Hopen Hcan) as [Hhandle2 _].
    rewrite run_bind. unfold get_world at 1. rewrite Hcan, Hhandle2.
    rewrite (bool_decide_eq_true_2 (is_Some (Some _))) by (by eexists).
    cbn [negb orb]. unfold mret at 1, M_ret at 1.
    rewrite run_bind, (the_vectorstore_run w2 _ Hhandle2).
    by exists w2.
  - intros Hnone Hcan. rewrite Hnone.
    rewrite (bool_decide_eq_false_2 (is_Some None)) by (by intros [? ?]).
    cbn [negb]. rewrite !run_bind.
    destruct (initialize_vectorstore_run Config.COLLECTION_NAME w)
      as (w2 & -> & _ & _ & _ & _ & Hshut).
    destruct (Hshut Hcan) as [Hco Hvs].
    rewrite run_bind. unfold get_world at 1. rewrite Hcan. cbn [negb orb].
    exists w2. split_and!; [done|by apply Hvs|done].
Qed.

End ManagerFacts.

(** ** Metadata through the store *)

Section RoundTripFacts.
Context `{Runtime} `{Environment} `{Platform}.
Import HuggingFaceAPIEmbeddings EnhancedVectorStoreManager.

Lemma sanitized_idempotent value : sanitized (sanitized value) = sanitized value.
Proof. apply sanitized_scalar, sanitized_is_scalar. Qed.

Lemma sanitized_convertible value : convertible (sanitized value) = true.
Proof. by destruct value. Qed.

(** X18: sanitizing twice is sanitizing once: the documents that
    [_filter_complex_metadata] returns pass through it unchanged, and it
    does not raise on them. *)
Theorem filter_complex_metadata_idempotent documents filtered_docs :
  _filter_complex_metadata documents = inr filtered_docs →
  _filter_complex_metadata filtered_docs = inr filtered_docs.
Proof.
  intros [_ ->]%filter_complex_metadata_inv.
  rewrite filter_complex_metadata_ok.
  - f_equal. rewrite <- list_fmap_compose. apply list_fmap_ext.
    intros _ [text m] _. unfold sanitized_document. cbn. f_equal.
    rewrite <- map_fmap_compose. apply map_fmap_ext.
    intros key value _. apply sanitized_idempotent.
  - apply Forall_fmap, Forall_forall. intros doc _.
    unfold convertible_document. cbn. intros key value.
    rewrite lookup_fmap. intros (v & _ & ->)%fmap_Some.
    apply sanitized_convertible.
Qed.

(** X19: the numbering of a chunk survives the store, its keywords as
    one string: for the [i]-th document of
    [split_documents_with_metadata], sanitized as it is stored, a search
    result reports the chunk, its number [i], the number of chunks and
    its position as the splitter set them; the keywords come back not as
    the list the splitter made but joined in one string, and as the empty
    list when the chunk has none. *)
Theorem stored_chunk_information text filename chunk_size chunk_overlap
    (i : nat) doc :
  let documents :=
    SmartTextSplitter.split_documents_with_metadata
      text filename chunk_size chunk_overlap in
  let r := enrich (sanitized_document doc) in
  documents !! i = Some doc →
  _filter_complex_metadata documents = inr (sanitized_document <$> documents)
  ∧ content r = page_content doc
  ∧ chunk_info r !! "chunk_id" = Some (VInt (Z.of_nat i))
  ∧ chunk_info r !! "total_chunks" = Some (VInt (Z.of_nat (length documents)))
  ∧ chunk_info r !! "position" = metadata doc !! "chunk_position"
  ∧ chunk_info r !! "has_structure"
    = Some (VBool (SmartTextSplitter._has_structure_markers (page_content doc)))
  ∧ chunk_info r !! "keywords"
    = Some (match SmartTextSplitter._extract_keywords (page_content doc) 5 with
            | [] => VList []
            | (_ :: _) as keywords =>
                VStr (str_join ", " (py_str <$> (VStr <$> keywords)))
            end).
Proof.
  intros documents r Hdoc.
  split.
  { apply filter_complex_metadata_ok, split_documents_convertible. }
  pose proof (split_documents_length text filename chunk_size chunk_overlap)
    as Hlen. fold documents in Hlen.
  apply split_documents_lookup in Hdoc as (chunk & Hchunk & ->).
  subst r. unfold enrich, sanitized_document, dict_get_default. cbn.
  rewrite !lookup_fmap.
  rewrite chunk_metadata_keywords.
  rewrite !chunk_metadata_lookup by done. cbn.
  rewrite Hlen. split_and!; try done.
  by destruct (SmartTextSplitter._extract_keywords chunk 5).
Qed.

(** X20: an add that writes (accepted chunk size, overlap within it as
    langchain's splitter requires, at least one chunk, a store that is
    open or can be opened) is recorded last: its metrics close the
    history, after those of the opening of the store when the add had to
    open it; both are recorded as successes, and the history keeps its
    cap. *)
Theorem add_records_metrics text filename chunk_size chunk_overlap w :
  let documents :=
    SmartTextSplitter.split_documents_with_metadata
      text filename chunk_size chunk_overlap in
  let w' := (add_documents_enhanced text filename chunk_size chunk_overlap w).2 in
  honest → can_add w →
  (100 ≤ chunk_size ≤ 4000)%Z → (0 ≤ chunk_overlap ≤ chunk_size)%Z →
  documents ≠ [] →
  (1 ≤ max_history w)%Z →
  ∃ news,
    metrics_history w'
    = last_n (Z.to_nat (max_history w)) (metrics_history w ++ news)
    ∧ operation <$> news
      = match vectorstore w with
        | Some _ => ["add_documents"]
        | None => ["initialize_vectorstore"; "add_documents"]
        end
    ∧ Forall (λ m, success m = true) news
    ∧ max_history w' = max_history w.
Proof.
  intros documents w' Hhonest Hcan Hsize _ Hsome Hcap. subst w'.
  destruct (add_documents_enhanced_run text filename chunk_size chunk_overlap
              w Hhonest Hcan Hsize Hsome)
    as (metrics & vectors & inputs & delays & w1 & _ & _ & Hop & Hsuccess
        & Hw1 & ->).
  cbn [snd]. destruct (vectorstore w) as [handle|].
  - subst w1. exists [metrics]. split_and!.
    + destruct w. cbn in *. by apply recorded_window.
    + by rewrite <- Hop.
    + by constructor.
    + by destruct w.
  - destruct Hw1 as (opening & Hop1 & Hsuccess1 & ->).
    exists [opening; metrics]. split_and!.
    + destruct w. cbn in *. rewrite !recorded_window by done.
      rewrite last_n_snoc by lia. by rewrite <- app_assoc.
    + by rewrite <- Hop, <- Hop1.
    + by repeat constructor.
    + by destruct w.
Qed.

End RoundTripFacts.

(** ** Opening the store, and failures *)

Section FailureFacts.
Context `{Runtime} `{Environment} `{Platform}.
Import HuggingFaceAPIEmbeddings EnhancedVectorStoreManager.

Lemma _initialize_world collection_name w :
  ∃ w',
    _initialize collection_name w = (inr (can_open w), w')
    ∧ vectorstore w' = initialized collection_name w
    ∧ metrics_history w' = metrics_history w
    ∧ max_history w' = max_history w
    ∧ collections w'
      = (if can_open w
         then get_or_create_collection collection_name (collections w)
         else collections w).
Proof.
  unfold _initialize, initialized, can_open, os_makedirs, PersistentClient, Chroma.
  unfold_steps.
  destruct w as [rq sl rd so co em vs mh mx]. cbn.
  destruct em; cbn; [|by eexists].
  destruct (store_fault so); cbn; [by eexists|].
  destruct (store_fault (S so)); cbn; [by eexists|].
  destruct (store_fault (S (S so))); cbn; by eexists.
Qed.

(** X21: [initialize_vectorstore] never raises and tells whether the
    store is open: it returns [True] exactly when the embeddings are set
    and no operation on the store raises, and then the manager works on
    the collection, whose entries, if it existed, are kept; when an
    operation raises, it returns [False] and the manager is left without
    a store, even if it had one.  The failure is not seen by the
    monitor: with a cap of at least one, the last metrics of the history
    are those of the call, recorded as a success in both cases. *)
Theorem initialize_vectorstore_reports collection_name w :
  ∃ metrics w',
    initialize_vectorstore collection_name w = (inr (can_open w), w')
    ∧ vectorstore w' = initialized collection_name w
    ∧ same_entries w w'
    ∧ (can_open w = true → is_Some (collections w' !! collection_name))
    ∧ operation metrics = "initialize_vectorstore"
    ∧ success metrics = true
    ∧ error_message metrics = None
    ∧ ((1 ≤ max_history w)%Z → last (metrics_history w') = Some metrics).
Proof.
  unfold initialize_vectorstore.
  destruct (measure_performance_run "initialize_vectorstore"
              (_initialize collection_name) w)
    as (metrics & Hop & Hsuccess & Herror & ->).
  destruct (_initialize_world collection_name (started w))
    as (w1 & Hrun & Hvs & Hmh & Hmx & Hco).
  rewrite Hrun in *. cbn [fst snd] in *.
  change (can_open (started w)) with (can_open w) in *.
  exists metrics. eexists. split_and!; [done| | | |done|done|done|].
  - by destruct w1.
  - intros other. unfold entries. cbn.
    replace (collections
               (set_metrics_history
                  (recorded (max_history w1) (metrics_history w1) metrics)
                  (set_readings (S (S (S (S (readings w1))))) w1)))
      with (collections w1) by (by destruct w1).
    rewrite Hco. destruct (can_open w); [|done].
    apply get_or_create_collection_entries.
  - intros Hcan.
    replace (collections
               (set_metrics_history
                  (recorded (max_history w1) (metrics_history w1) metrics)
                  (set_readings (S (S (S (S (readings w1))))) w1)))
      with (collections w1) by (by destruct w1).
    rewrite Hco, Hcan. unfold get_or_create_collection.
    destruct (collections (started w) !! collection_name) eqn:Hc;
      [by rewrite Hc|by rewrite lookup_insert_eq].
  - intros Hcap.
    replace (metrics_history
               (set_metrics_history
                  (recorded (max_history w1) (metrics_history w1) metrics)
                  (set_readings (S (S (S (S (readings w1))))) w1)))
      with (recorded (max_history w1) (metrics_history w1) metrics)
      by (by destruct w1).
    apply recorded_bounded. rewrite Hmx. by destruct w.
Qed.

Lemma chroma_add_documents_fault handle documents w e :
  honest → store_fault (store_ops w) = Some e →
  ∃ vectors inputs delays,
    length vectors = length documents
    ∧ Chroma_add_documents handle documents w
      = (inl e,
         set_collections
           (<[handle :=
                entries w handle
                ++ written_of (store_ops w)
                     (stored_entries documents vectors)]> (collections w))
           (after_store_ops 1 (traffic inputs delays w))).
Proof.
  intros Hhonest Hfault. unfold Chroma_add_documents. rewrite run_bind.
  destruct (embed_documents_frame (page_content <$> documents) w)
    as (vectors & inputs & delays & -> & Hshape & _).
  destruct (Hshape Hhonest) as [Hlen _]. rewrite length_fmap in Hlen.
  exists vectors, inputs, delays. split; [done|].
  rewrite bool_decide_eq_true_2 by done. unfold store_write.
  change (store_ops (traffic inputs delays w)) with (store_ops w).
  rewrite Hfault. by destruct w.
Qed.

(** X22: a store that fails while the entries are written makes the add
    fail with the exception of the store, and what the store had written
    by then stays.  Where the endpoint keeps its contract, the chunk size
    is accepted, the overlap is within it, the text gives at least one
    chunk, and the write raises, [add_documents_enhanced] raises that
    exception, as it is; the code undoes nothing: the collection holds
    its earlier entries followed by those of the entries of the document
    that the store had stored, so it is as it was only when the store
    had stored none; the other collections are as they were; and,
    with a cap of at least one, the last metrics of the history are those
    of the add, recorded as a failure with the message of the
    exception. *)
Theorem add_propagates_store_failure text filename chunk_size chunk_overlap w e :
  let documents :=
    SmartTextSplitter.split_documents_with_metadata
      text filename chunk_size chunk_overlap in
  honest → add_fails_with e w →
  (100 ≤ chunk_size ≤ 4000)%Z → (0 ≤ chunk_overlap ≤ chunk_size)%Z →
  documents ≠ [] →
  ∃ metrics vectors w',
    add_documents_enhanced text filename chunk_size chunk_overlap w = (inl e, w')
    ∧ length vectors = length documents
    ∧ entries w' (target w)
      = entries w (target w)
        ++ written_of (write_op w)
             (stored_entries (sanitized_document <$> documents) vectors)
    ∧ (∀ other, other ≠ target w → entries w' other = entries w other)
    ∧ (written_before_fault (write_op w) = [] → same_entries w w')
    ∧ operation metrics = "add_documents"
    ∧ success metrics = false
    ∧ error_message metrics = Some (exn_str e)
    ∧ ((1 ≤ max_history w)%Z → last (metrics_history w') = Some metrics).
Proof.
  intros documents Hhonest [Hem Hfails] Hsize _ Hsome.
  unfold add_documents_enhanced, InputValidator.validate_chunk_size.
  destruct (Z.ltb_spec chunk_size 100); [lia|].
  destruct (Z.ltb_spec 4000 chunk_size); [lia|]. cbn [negb].
  destruct (measure_performance_run "add_documents"
              (_add_documents text filename chunk_size chunk_overlap) w)
    as (metrics & Hop & Hsuccess & Herror & ->).
  assert (Htail : ∀ w1 handle,
    vectorstore w1 = Some handle → embeddings w1 = true →
    store_fault (store_ops w1) = Some e →
    ∃ vectors inputs delays,
      length vectors = length documents
      ∧ (w1 ← get_world;
         if negb (embeddings w1) then raise (ValueError "Embeddings non initialisés")
         else
           if bool_decide (documents = []) then
             raise (ValueError "Aucun document généré lors du découpage")
           else
             filtered_documents ← lift (_filter_complex_metadata documents);
             handle ← the_vectorstore;
             Chroma_add_documents handle filtered_documents;;
             mret (Z.of_nat (length documents), doc_info documents)) w1
        = (inl e,
           set_collections
             (<[handle :=
                  entries w1 handle
                  ++ written_of (store_ops w1)
                       (stored_entries (sanitized_document <$> documents)
                                          vectors)]> (collections w1))
             (after_store_ops 1 (traffic inputs delays w1)))).
  { intros w1 handle Hhandle Hem1 Hfault.
    destruct (chroma_add_documents_fault handle
                (sanitized_document <$> documents) w1 e Hhonest Hfault)
      as (vectors & inputs & delays & Hlen & Hadd).
    rewrite length_fmap in Hlen.
    exists vectors, inputs, delays. split; [done|].
    rewrite run_bind. unfold get_world. rewrite Hem1. cbn [negb].
    rewrite bool_decide_eq_false_2 by done.
    rewrite run_bind. unfold lift.
    rewrite filter_complex_metadata_ok by apply split_documents_convertible.
    by rewrite run_bind, (the_vectorstore_run w1 handle Hhandle), run_bind, Hadd. }
  assert (Hrun : ∃ vectors w2,
    _add_documents text filename chunk_size chunk_overlap (started w) = (inl e, w2)
    ∧ length vectors = length documents
    ∧ collections w2
      = <[target w :=
            entries w (target w)
            ++ written_of (write_op w)
                 (stored_entries (sanitized_document <$> documents) vectors)]>
          (match vectorstore w with
           | Some _ => collections w
           | None =>
               get_or_create_collection Config.COLLECTION_NAME (collections w)
           end)
    ∧ max_history w2 = max_history w).
  { unfold _add_documents. fold documents.
    rewrite run_bind. unfold get_world at 1.
    change (vectorstore (started w)) with (vectorstore w).
    unfold target, write_op.
    destruct (vectorstore w) as [handle|] eqn:Hhandle.
    - rewrite (bool_decide_eq_true_2 (is_Some (Some _))) by (by eexists).
      cbn [negb]. rewrite run_bind. unfold mret at 1, M_ret at 1.
      destruct (Htail (started w) handle) as (vectors & inputs & delays & Hlen & ->);
        [done|done|done|].
      exists vectors. eexists. split_and!; [done|done| |by destruct w].
      by destruct w.
    - destruct Hfails as [Hworks Hfault].
      rewrite (bool_decide_eq_false_2 (is_Some None)) by (by intros [? ?]).
      cbn [negb]. rewrite !run_bind.
      destruct (initialize_vectorstore_opened Config.COLLECTION_NAME (started w))
        as (opening & _ & _ & ->).
      { apply can_open_store_works. by split. }
      set (w1 := measured opening
                   (opened Config.COLLECTION_NAME (started (started w)))).
      rewrite run_bind. unfold get_world at 1. cbn [negb orb].
      change (vectorstore w1) with (Some Config.COLLECTION_NAME).
      rewrite (bool_decide_eq_true_2 (is_Some (Some _))) by (by eexists).
      cbn [negb]. unfold mret at 1, M_ret at 1.
      destruct (Htail w1 Config.COLLECTION_NAME)
        as (vectors & inputs & delays & Hlen & ->); [done|done|done|].
      exists vectors. eexists. split_and!; [done|done| |by destruct w].
      cbn [default].
      change (collections (set_collections _ _))
        with (<[Config.COLLECTION_NAME :=
                  entries w1 Config.COLLECTION_NAME
                  ++ written_of (store_ops w1)
                       (stored_entries (sanitized_document <$> documents)
                                          vectors)]> (collections w1)).
      change (collections w1)
        with (get_or_create_collection Config.COLLECTION_NAME (collections w)).
      change (store_ops w1) with (3 + store_ops w).
      replace (entries w1 Config.COLLECTION_NAME)
        with (entries w Config.COLLECTION_NAME); [done|].
      symmetry. apply get_or_create_collection_entries. }
  destruct Hrun as (vectors & w2 & Hrun & Hlen & Hco & Hmx).
  rewrite Hrun in *. cbn [fst snd] in *.
  set (w' := set_metrics_history _ _).
  assert (Hco' : collections w' = collections w2) by (by destruct w2).
  assert (Htarget : entries w' (target w)
    = entries w (target w)
      ++ written_of (write_op w)
           (stored_entries (sanitized_document <$> documents) vectors)).
  { unfold entries at 1. by rewrite Hco', Hco, lookup_insert_eq. }
  assert (Hothers : ∀ other, other ≠ target w → entries w' other = entries w other).
  { intros other Hother. unfold entries at 1.
    rewrite Hco', Hco, lookup_insert_ne by done.
    destruct (vectorstore w); [done|].
    apply get_or_create_collection_entries. }
  exists metrics, vectors, w'. split_and!; [done|done|done|done| |done|done|done|].
  - intros Hnone other. destruct (decide (other = target w)) as [->|Hother].
    + rewrite Htarget. unfold written_of. by rewrite Hnone, app_nil_r.
    + by apply Hothers.
  - intros Hcap. subst w'.
    replace (metrics_history
               (set_metrics_history
                  (recorded (max_history w2) (metrics_history w2) metrics)
                  (set_readings (S (S (S (S (readings w2))))) w2)))
      with (recorded (max_history w2) (metrics_history w2) metrics)
      by (by destruct w2).
    apply recorded_bounded. by rewrite Hmx.
Qed.

Lemma filter_imap_length {A B} (P : B → Prop) `{∀ y, Decision (P y)}
    (Q : A → Prop) `{∀ x, Decision (Q x)} (l : list A) : ∀ (f : nat → A → B),
  (∀ i x, P (f i x) ↔ Q x) →
  length (filter P (imap f l)) = length (filter Q l).
Proof.
  induction l as [|x l IH]; intros f Hf; [done|].
  cbn [imap]. rewrite !filter_cons.
  assert (Hrest : length (filter P (imap (f ∘ S) l)) = length (filter Q l)).
  { apply IH. intros i y. apply Hf. }
  destruct (decide (P (f 0 x))) as [HP|HP], (decide (Q x)) as [HQ|HQ]; cbn.
  - by rewrite Hrest.
  - by apply Hf in HP.
  - by apply (Hf 0) in HQ.
  - done.
Qed.

Lemma existsb_imap {A B} (g : B → bool) (h : A → bool) (l : list A) :
  ∀ (f : nat → A → B),
  (∀ i x, g (f i x) = h x) → existsb g (imap f l) = existsb h l.
Proof.
  induction l as [|x l IH]; intros f Hf; [done|].
  cbn. rewrite Hf. f_equal. apply IH. intros i y. apply Hf.
Qed.

Lemma doc_info_lookup doc rest :
  let documents := doc :: rest in
  doc_info documents !! "total_chunks"
  = Some (VInt (Z.of_nat (length documents)))
  ∧ doc_info documents !! "document_type"
    = Some (dict_get_default "document_type" (VStr "unknown") (metadata doc))
  ∧ doc_info documents !! "average_chunk_size"
    = Some (VFloat (float_of_Z (sum_Z (py_len <$> (page_content <$> documents)))
                    / float_of_Z (Z.of_nat (length documents)))%float)
  ∧ doc_info documents !! "keywords_extracted"
    = Some (VBool (existsb (λ doc, dict_has "keywords" (metadata doc)) documents))
  ∧ doc_info documents !! "structure_preserved"
    = Some (VInt (Z.of_nat (length (filter
              (λ doc, py_truthy (dict_get_default "contains_structure"
                                   (VBool false) (metadata doc)) = true)
              documents)))).
Proof.
  intros documents. split_and!; try done.
  unfold doc_info, sum_Z. rewrite <- list_fmap_compose. done.
Qed.

(** X23: the summary of an add agrees with the chunks: for the
    documents of a text that gives at least one chunk, [doc_info] reports
    the number of chunks, the type detected on the text, the mean length
    of the chunks, whether some chunk has keywords, and the number of
    chunks with structure markers. *)
Theorem doc_info_summarises text filename chunk_size chunk_overlap :
  let chunks := SmartTextSplitter.smart_split text chunk_size chunk_overlap true in
  let documents :=
    SmartTextSplitter.split_documents_with_metadata
      text filename chunk_size chunk_overlap in
  documents ≠ [] →
  doc_info documents !! "total_chunks" = Some (VInt (Z.of_nat (length chunks)))
  ∧ doc_info documents !! "document_type"
    = Some (VStr (SmartTextSplitter.detect_document_type text))
  ∧ doc_info documents !! "average_chunk_size"
    = Some (VFloat (float_of_Z (sum_Z (py_len <$> chunks))
                    / float_of_Z (Z.of_nat (length chunks)))%float)
  ∧ doc_info documents !! "keywords_extracted"
    = Some (VBool (existsb
                     (λ chunk, negb (bool_decide
                        (SmartTextSplitter._extract_keywords chunk 5 = [])))
                     chunks))
  ∧ doc_info documents !! "structure_preserved"
    = Some (VInt (Z.of_nat (length (filter
              (λ chunk, SmartTextSplitter._has_structure_markers chunk = true)
              chunks)))).
Proof.
  intros chunks documents Hsome.
  pose proof (split_documents_length text filename chunk_size chunk_overlap)
    as Hlen.
  pose proof (split_documents_contents text filename chunk_size chunk_overlap)
    as Hcontents.
  assert (Hkeywords :
    existsb (λ doc, dict_has "keywords" (metadata doc)) documents
    = existsb (λ chunk, negb (bool_decide
                 (SmartTextSplitter._extract_keywords chunk 5 = []))) chunks).
  { apply existsb_imap. intros i chunk. cbn.
    unfold dict_has. rewrite chunk_metadata_keywords.
    destruct (SmartTextSplitter._extract_keywords chunk 5).
    - by rewrite bool_decide_eq_false_2 by (by intros [? ?]).
    - by rewrite bool_decide_eq_true_2 by (by eexists). }
  assert (Hstructure :
    length (filter
              (λ doc, py_truthy (dict_get_default "contains_structure"
                                   (VBool false) (metadata doc)) = true)
              documents)
    = length (filter
                (λ chunk, SmartTextSplitter._has_structure_markers chunk = true)
                chunks)).
  { apply filter_imap_length. intros i chunk. cbn.
    unfold dict_get_default. by rewrite chunk_metadata_lookup. }
  assert (Htype : ∀ doc, documents !! 0 = Some doc →
    metadata doc !! "document_type"
    = Some (VStr (SmartTextSplitter.detect_document_type text))).
  { intros doc (chunk & _ & ->)%split_documents_lookup. cbn.
    by rewrite chunk_metadata_lookup. }
  fold documents chunks in Hlen, Hcontents. clearbody documents chunks.
  destruct documents as [|doc rest]; [done|].
  destruct (doc_info_lookup doc rest) as (-> & -> & -> & -> & ->).
  rewrite Hcontents, Hkeywords, Hstructure, <- Hlen.
  unfold dict_get_default at 1. rewrite (Htype doc) by done.
  done.
Qed.

(** X24: after a document is ingested, a search returns chunks of that
    document only: where the store works, deleting a missing collection
    raises a ValueError, the endpoint keeps its contract and the text
    gives at least one chunk, the reset and the add of the application
    succeed, and every result of a following search, for a query the
    validator accepts and any [k], has as content one of the chunks of
    the text just added, and as file name the one it was added under. *)
Theorem search_after_ingestion text filename chunk_size query k w :
  let chunk_overlap := Z.max 50 (chunk_size / 5) in
  let documents :=
    SmartTextSplitter.split_documents_with_metadata
      text filename chunk_size chunk_overlap in
  let ingest :=
    reset_collection Config.COLLECTION_NAME;;
    add_documents_enhanced text filename chunk_size chunk_overlap in
  honest → embeddings w = true → store_works 5 w →
  is_ValueError (missing_collection Config.COLLECTION_NAME) = true →
  (100 ≤ chunk_size ≤ 4000)%Z →
  documents ≠ [] →
  (InputValidator.validate_question query).1 = true →
  ∃ info w1 results w2,
    ingest w = (inr info, w1)
    ∧ search_with_metadata query k w1 = (inr results, w2)
    ∧ Forall
        (λ r, content r
              ∈ SmartTextSplitter.smart_split text chunk_size chunk_overlap true
              ∧ result_metadata r !! "filename" = Some (VStr filename))
        results.
Proof.
  intros chunk_overlap documents ingest Hhonest Hem Hworks Hmissing Hsize Hsome
    Hvalid.
  unfold ingest.
  rewrite run_bind, reset_collection_run
    by (intros i Hi; apply Hworks; lia).
  rewrite Hmissing.
  assert (Hreset : (match collections w !! Config.COLLECTION_NAME with
                    | Some _ => (inr tt, reset Config.COLLECTION_NAME w)
                    | None => (inr tt, reset Config.COLLECTION_NAME w)
                    end : result unit * world)
                   = (inr tt, reset Config.COLLECTION_NAME w))
    by (by destruct (collections w !! Config.COLLECTION_NAME)).
  rewrite Hreset. clear Hreset.
  set (w0 := reset Config.COLLECTION_NAME w).
  destruct (add_documents_enhanced_run text filename chunk_size chunk_overlap w0)
    as (metrics & vectors & inputs & delays & w1 & Hlen & _ & _ & _ & Hw1 & ->);
    [done| |done|done|].
  { unfold can_add. cbn. split; [done|].
    intros i Hi. replace i with 0 by lia. apply (Hworks 4). lia. }
  fold documents in Hlen |- *.
  match goal with
  | |- context [(inr ?i, ?w')] => set (info := i); set (w2 := w')
  end.
  destruct (search_with_metadata_run query k w2 Hvalid)
    as (results & w3 & Hsearch & Hfrom & _).
  exists info, w2, results, w3. split_and!; [done|done|].
  assert (Hentries : entries w2 (target w2)
                     = stored_entries (sanitized_document <$> documents) vectors).
  { cbn in Hw1. subst w1. unfold entries, target, w2. cbn.
    rewrite lookup_insert_eq. cbn [default].
    assert (Hnone : entries w0 Config.COLLECTION_NAME = []).
    { unfold entries, w0, reset. cbn. by rewrite lookup_insert_eq. }
    by rewrite Hnone. }
  rewrite Hentries in Hfrom.
  eapply Forall_impl; [exact Hfrom|].
  intros r (e & He & Hcontent & Hmetadata & _).
  apply elem_of_zip_with in He as (doc' & v & -> & Hdoc' & _).
  apply list_elem_of_fmap in Hdoc' as (doc & -> & Hdoc).
  rewrite Hcontent, Hmetadata. cbn.
  destruct (split_documents_describe_chunks_aux text filename chunk_size
              chunk_overlap doc Hdoc) as (Hname & Hchunk).
  split; [done|]. by rewrite lookup_fmap, Hname.
Qed.

End FailureFacts.

(** ** Instances *)

(** The chunk of a short text, with its keywords. *)
Lemma split_documents_describe_chunks_witness :
  let docs := @SmartTextSplitter.split_documents_with_metadata Reference.runtime
                "alpha beta alpha" "a.txt" 1000 200 in
  ∃ d, d ∈ docs
    ∧ @str_strip Reference.runtime (page_content d) ≠ EmptyString
    ∧ metadata d !! "filename" = Some (VStr "a.txt")
    ∧ metadata d !! "chunk_size" = Some (VInt (py_len (page_content d)))
    ∧ metadata d !! "keywords" = Some (VList [VStr "alpha"; VStr "beta"]).
Proof.
  intros docs.
  destruct (docs !! 0) as [d|] eqn:Hd; [|by vm_compute in Hd].
  assert (Hin : d ∈ docs) by (apply list_elem_of_lookup; by exists 0).
  destruct (@split_documents_describe_chunks Reference.runtime
              "alpha beta alpha" "a.txt" 1000 200 d Hin)
    as (Hblank & Hname & _ & Hsize & _ & Hkeywords & _).
  exists d. split; [exact Hin|]. split; [exact Hblank|].
  split; [exact Hname|]. split; [exact Hsize|].
  rewrite Hkeywords. vm_compute in Hd. injection Hd as <-. reflexivity.
Defined.

(** A history of at most two metrics, after three recordings. *)
Lemma history_is_sliding_window_witness :
  let w := (@PerformanceMonitor.__init__ 2 Reference.boot).2 in
  let m1 := mkMetrics 1 "a" 0 0 0 true None in
  let m2 := mkMetrics 2 "b" 0 0 0 false (Some "error") in
  let m3 := mkMetrics 3 "c" 0 0 0 true None in
  (1 ≤ max_history w)%Z
  ∧ (Z.of_nat (length (metrics_history w)) ≤ max_history w)%Z
  ∧ metrics_history (add_all [m1; m2; m3] w) = [m2; m3].
Proof.
  intros w m1 m2 m3.
  assert (Hcap : (1 ≤ max_history w)%Z) by (cbn; lia).
  assert (Hlen : (Z.of_nat (length (metrics_history w)) ≤ max_history w)%Z)
    by (cbn; lia).
  destruct (history_is_sliding_window [m1; m2; m3] w Hcap Hlen)
    as (_ & Hhistory & _).
  split; [exact Hcap|]. split; [exact Hlen|]. exact Hhistory.
Defined.

(** Three measured calls of an operation that asks for its summary of
    the last minute, as the chat engine does: the first finds no metric;
    the second, a few seconds later, finds the first; the third, a
    quarter of an hour later, finds no metric again, the first call
    being older than a minute. *)
Lemma summary_inside_measured_call_witness :
  let env := Reference.environment [] [] in
  let call :=
    @PerformanceMonitor.measure_performance env pydict "process_question"
      (@PerformanceMonitor.get_metrics_summary env Reference.platform
         (Some "process_question") (Some 1%Z)) in
  let w1 := (call Reference.boot).2 in
  let w2 := set_readings 1000 w1 in
  ("process_question" ≠ EmptyString
   ∧ (Z.of_nat (length (metrics_history Reference.boot))
      < max_history Reference.boot)%Z
   ∧ (Z.of_nat (length (metrics_history w1)) < max_history w1)%Z
   ∧ (Z.of_nat (length (metrics_history w2)) < max_history w2)%Z)
  ∧ (call Reference.boot).1 = inr no_metrics
  ∧ length (metrics_history w1) = 1
  ∧ (λ report : pydict, report !! "total_operations") <$> (call w1).1
    = inr (Some (VInt 1))
  ∧ length (metrics_history w2) = 1
  ∧ (call w2).1 = inr no_metrics.
Proof.
  intros env call w1 w2.
  assert (Hname : "process_question" ≠ EmptyString) by discriminate.
  assert (Hroom : (Z.of_nat (length (metrics_history Reference.boot))
                   < max_history Reference.boot)%Z) by (cbn; lia).
  assert (Hroom1 : (Z.of_nat (length (metrics_history w1)) < max_history w1)%Z)
    by (vm_compute; reflexivity).
  assert (Hroom2 : (Z.of_nat (length (metrics_history w2)) < max_history w2)%Z)
    by (vm_compute; reflexivity).
  destruct (@summary_inside_measured_call env Reference.platform
              "process_question" (Some 1%Z) Reference.boot Hname Hroom)
    as (_ & _ & Hkept & _).
  destruct (@summary_inside_measured_call env Reference.platform
              "process_question" (Some 1%Z) w1 Hname Hroom1)
    as (Hresult1 & _).
  destruct (@summary_inside_measured_call env Reference.platform
              "process_question" (Some 1%Z) w2 Hname Hroom2)
    as (_ & _ & Hkept2 & _).
  split; [by split_and!|].
  split; [apply (Hkept []); [vm_compute; reflexivity|reflexivity]|].
  split; [vm_compute; reflexivity|].
  split; [fold call in Hresult1; rewrite Hresult1; vm_compute; reflexivity|].
  split; [vm_compute; reflexivity|].
  apply (Hkept2 []); [vm_compute; reflexivity|reflexivity].
Defined.

(** A size below the range. *)
Lemma add_rejects_chunk_size_witness :
  let env := Reference.environment [] [] in
  (50 < 100 ∨ 4000 < 50)%Z
  ∧ ∃ msg,
      @EnhancedVectorStoreManager.add_documents_enhanced Reference.runtime env
        "Hello world" "a.txt" 50 10 Reference.boot
      = (inl (ValueError ("Chunk size invalide: " +:+ msg)), Reference.boot).
Proof.
  intros env.
  assert (Hsize : (50 < 100 ∨ 4000 < 50)%Z) by (left; lia).
  split; [exact Hsize|].
  exact (@add_rejects_chunk_size Reference.runtime env
           "Hello world" "a.txt" 50 10 Reference.boot Hsize).
Defined.

(** The sample document, sanitized. *)
Lemma filter_complex_metadata_idempotent_witness :
  let filtered_docs := @sanitized_document Reference.runtime <$> [sample_document] in
  @EnhancedVectorStoreManager._filter_complex_metadata Reference.runtime
    [sample_document] = inr filtered_docs
  ∧ @EnhancedVectorStoreManager._filter_complex_metadata Reference.runtime
      filtered_docs = inr filtered_docs.
Proof.
  intros filtered_docs.
  assert (Hrun : @EnhancedVectorStoreManager._filter_complex_metadata
                   Reference.runtime [sample_document] = inr filtered_docs).
  { vm_compute. reflexivity. }
  split; [exact Hrun|].
  exact (@filter_complex_metadata_idempotent Reference.runtime
           [sample_document] filtered_docs Hrun).
Defined.

(** The chunk of a short text, as a search reports it. *)
Lemma stored_chunk_information_witness :
  let documents :=
    @SmartTextSplitter.split_documents_with_metadata Reference.runtime
      "alpha beta alpha" "a.txt" 1000 200 in
  ∃ doc,
    documents !! 0 = Some doc
    ∧ let r := @EnhancedVectorStoreManager.enrich
                 (@sanitized_document Reference.runtime doc) in
      chunk_info r !! "chunk_id" = Some (VInt 0)
      ∧ chunk_info r !! "total_chunks" = Some (VInt 1)
      ∧ chunk_info r !! "keywords" = Some (VStr "alpha, beta").
Proof.
  intros documents.
  destruct (documents !! 0) as [doc|] eqn:Hdoc; [|by vm_compute in Hdoc].
  destruct (@stored_chunk_information Reference.runtime
              "alpha beta alpha" "a.txt" 1000 200 0 doc Hdoc)
    as (_ & _ & Hid & Htotal & _ & _ & Hkeywords).
  exists doc. split; [reflexivity|]. split; [exact Hid|].
  split; [exact Htotal|].
  rewrite Hkeywords. vm_compute in Hdoc. injection Hdoc as <-. reflexivity.
Defined.

(** The summary of the add of a short text. *)
Lemma doc_info_summarises_witness :
  let documents :=
    @SmartTextSplitter.split_documents_with_metadata Reference.runtime
      "alpha beta alpha" "a.txt" 1000 200 in
  documents ≠ []
  ∧ @EnhancedVectorStoreManager.doc_info documents !! "total_chunks"
    = Some (VInt 1)
  ∧ @EnhancedVectorStoreManager.doc_info documents !! "document_type"
    = Some (VStr "default")
  ∧ @EnhancedVectorStoreManager.doc_info documents !! "keywords_extracted"
    = Some (VBool true).
Proof.
  intros documents.
  assert (Hsome : documents ≠ []).
  { intros Hnone. apply (f_equal length) in Hnone. vm_compute in Hnone.
    discriminate. }
  destruct (@doc_info_summarises Reference.runtime
              "alpha beta alpha" "a.txt" 1000 200 Hsome)
    as (Htotal & Htype & _ & Hkeywords & _).
  split; [exact Hsome|]. split; [exact Htotal|].
  split; [exact Htype|]. exact Hkeywords.
Defined.

(** The manager, just built, where the endpoint cannot be reached and
    the store works: the add of a short text opens the store and stores
    the one chunk. *)
Lemma add_stores_chunks_witness :
  let env := Reference.environment [] [] in
  let w := (@EnhancedVectorStoreManager.__init__ env Reference.boot).2 in
  let documents :=
    @SmartTextSplitter.split_documents_with_metadata Reference.runtime
      "Hello world" "a.txt" 1000 200 in
  (@honest env ∧ @can_add env w ∧ documents ≠ [])
  ∧ ∃ added w',
      @EnhancedVectorStoreManager.add_documents_enhanced Reference.runtime env
        "Hello world" "a.txt" 1000 200 w
      = (inr (1%Z, @EnhancedVectorStoreManager.doc_info documents), w')
      ∧ collections w' = {[ Config.COLLECTION_NAME := added ]}
      ∧ entry_content <$> added = ["Hello world"].
Proof.
  intros env w documents.
  assert (Hhonest : @honest env).
  { intros n texts v. cbn. by destruct n. }
  assert (Hcan : @can_add env w).
  { unfold can_add. change (vectorstore w) with (@None string).
    split; [reflexivity|]. intros i _.
    change (nth (i + store_ops w) [] None = (None : option exn)).
    by destruct (i + store_ops w). }
  assert (Hsome : documents ≠ []).
  { intros Hnone. apply (f_equal length) in Hnone. vm_compute in Hnone.
    discriminate. }
  split; [by split_and!|].
  destruct (@add_stores_chunks Reference.runtime env
              "Hello world" "a.txt" 1000 200 w Hhonest Hcan)
    as (added & w' & Hrun & Hco & Hcontent & _); [lia|lia|exact Hsome|].
  exists added, w'. split; [exact Hrun|]. split; [|exact Hcontent].
  rewrite Hco. reflexivity.
Defined.

(** The search of a valid query on the manager just built. *)
Lemma search_returns_stored_chunks_witness :
  let env := Reference.environment [] [] in
  let w0 := (@EnhancedVectorStoreManager.__init__ env Reference.boot).2 in
  let w :=
    (@EnhancedVectorStoreManager.add_documents_enhanced Reference.runtime env
       "Hello world" "a.txt" 1000 200 w0).2 in
  ((@InputValidator.validate_question Reference.runtime "what is this").1 = true
   ∧ @can_search env w)
  ∧ ∃ results w',
      @EnhancedVectorStoreManager.search_with_metadata Reference.runtime env
        "what is this" 3 w = (inr results, w')
      ∧ content <$> results = ["Hello world"]
      ∧ (λ r, (λ key, chunk_info r !! key)
              <$> ["position"; "total_chunks"; "chunk_id"; "has_structure";
                   "keywords"; "filename"]) <$> results
        = [[ Some (VStr "start"); Some (VInt 1); Some (VInt 0);
             Some (VBool false); Some (VStr "hello, world"); None ]]
      ∧ @same_entries w w'.
Proof.
  intros env w0 w.
  assert (Hvalid :
    (@InputValidator.validate_question Reference.runtime "what is this").1 = true).
  { vm_compute. reflexivity. }
  assert (Hcan : @can_search env w).
  { unfold can_search. change (vectorstore w) with (Some Config.COLLECTION_NAME).
    intros i _.
    change (nth (i + store_ops w) [] None = (None : option exn)).
    by destruct (i + store_ops w). }
  split; [by split|].
  destruct (@search_returns_stored_chunks Reference.runtime env
              "what is this" 3 w Hvalid Hcan)
    as (query_vector & results & w' & Hrun & _ & _ & Hsame).
  exists results, w'. split; [exact Hrun|].
  apply (f_equal fst) in Hrun. cbn [fst] in Hrun.
  vm_compute in Hrun. injection Hrun as <-.
  split; [reflexivity|]. split; [vm_compute; reflexivity|exact Hsame].
Defined.

(** The reset of the configured collection, which does not exist yet. *)
Lemma reset_collection_empties_witness :
  let env := Reference.environment [] [] in
  let w := (@EnhancedVectorStoreManager.__init__ env Reference.boot).2 in
  @store_works env 4 w
  ∧ @is_ValueError Reference.platform
      (@missing_collection Reference.platform Config.COLLECTION_NAME) = true
  ∧ @EnhancedVectorStoreManager.reset_collection env Reference.platform
      Config.COLLECTION_NAME w
    = (inr tt, @reset Config.COLLECTION_NAME w)
  ∧ collections (@reset Config.COLLECTION_NAME w) !! Config.COLLECTION_NAME
    = Some [].
Proof.
  intros env w.
  assert (Hworks : @store_works env 4 w).
  { intros i _.
    change (nth (i + store_ops w) [] None = (None : option exn)).
    by destruct (i + store_ops w). }
  assert (Hmissing : @is_ValueError Reference.platform
            (@missing_collection Reference.platform Config.COLLECTION_NAME)
          = true) by reflexivity.
  destruct (@reset_collection_empties env Reference.platform
              Config.COLLECTION_NAME w Hworks) as [Hreset _].
  destruct (Hreset (or_introl Hmissing)) as (Hrun & Hempty & _).
  split; [exact Hworks|]. split; [exact Hmissing|].
  split; [exact Hrun|exact Hempty].
Defined.

(** A second document after a first one: the collection holds the chunk
    of the second. *)
Lemma reset_then_add_replaces_witness :
  let env := Reference.environment [] [] in
  let w0 := (@EnhancedVectorStoreManager.__init__ env Reference.boot).2 in
  let w :=
    (@EnhancedVectorStoreManager.add_documents_enhanced Reference.runtime env
       "first text" "a.txt" 1000 200 w0).2 in
  let documents :=
    @SmartTextSplitter.split_documents_with_metadata Reference.runtime
      "second text" "b.txt" 1000 (Z.max 50 (1000 / 5)) in
  (@honest env ∧ embeddings w = true ∧ @store_works env 5 w ∧ documents ≠ []
   ∧ is_Some (collections w !! Config.COLLECTION_NAME))
  ∧ (entry_content <$> @EnhancedVectorStoreManager.entries w Config.COLLECTION_NAME
     = ["first text"])
  ∧ ∃ added w',
      (@EnhancedVectorStoreManager.reset_collection env Reference.platform
         Config.COLLECTION_NAME;;
       @EnhancedVectorStoreManager.add_documents_enhanced Reference.runtime env
         "second text" "b.txt" 1000 (Z.max 50 (1000 / 5))) w
      = (inr (1%Z, @EnhancedVectorStoreManager.doc_info documents), w')
      ∧ collections w' = <[Config.COLLECTION_NAME := added]> (collections w)
      ∧ entry_content <$> added = ["second text"].
Proof.
  intros env w0 w documents.
  assert (Hhonest : @honest env).
  { intros n texts v. cbn. by destruct n. }
  assert (Hem : embeddings w = true) by (vm_compute; reflexivity).
  assert (Hworks : @store_works env 5 w).
  { intros i _.
    change (nth (i + store_ops w) [] None = (None : option exn)).
    by destruct (i + store_ops w). }
  assert (Hsome : documents ≠ []).
  { intros Hnone. apply (f_equal length) in Hnone. vm_compute in Hnone.
    discriminate. }
  assert (Hexists : is_Some (collections w !! Config.COLLECTION_NAME)).
  { apply (bool_decide_unpack _). vm_compute. exact I. }
  split; [by split_and!|].
  split; [vm_compute; reflexivity|].
  destruct (@reset_then_add_replaces Reference.runtime env Reference.platform
              "second text" "b.txt" 1000 w Hhonest Hem Hworks)
    as (_ & Hreplaces & _); [lia|exact Hsome|].
  destruct (Hreplaces (or_introl Hexists))
    as (added & w' & Hrun & Hco & Hcontent & _).
  exists added, w'. split; [exact Hrun|]. split; [exact Hco|exact Hcontent].
Defined.

(** The add on the manager just built records the opening of the store
    and then itself. *)
Lemma add_records_metrics_witness :
  let env := Reference.environment [] [] in
  let w := (@EnhancedVectorStoreManager.__init__ env Reference.boot).2 in
  let documents :=
    @SmartTextSplitter.split_documents_with_metadata Reference.runtime
      "Hello world" "a.txt" 1000 200 in
  let w' :=
    (@EnhancedVectorStoreManager.add_documents_enhanced Reference.runtime env
       "Hello world" "a.txt" 1000 200 w).2 in
  (@honest env ∧ @can_add env w ∧ documents ≠ [] ∧ (1 ≤ max_history w)%Z)
  ∧ operation <$> metrics_history w'
    = ["setup_embeddings"; "initialize_vectorstore"; "add_documents"].
Proof.
  intros env w documents w'.
  assert (Hhonest : @honest env).
  { intros n texts v. cbn. by destruct n. }
  assert (Hcan : @can_add env w).
  { unfold can_add. change (vectorstore w) with (@None string).
    split; [reflexivity|]. intros i _.
    change (nth (i + store_ops w) [] None = (None : option exn)).
    by destruct (i + store_ops w). }
  assert (Hsome : documents ≠ []).
  { intros Hnone. apply (f_equal length) in Hnone. vm_compute in Hnone.
    discriminate. }
  assert (Hcap : (1 ≤ max_history w)%Z).
  { change (max_history w) with 100%Z. lia. }
  split; [by split_and!|].
  destruct (@add_records_metrics Reference.runtime env
              "Hello world" "a.txt" 1000 200 w Hhonest Hcan)
    as (news & Hhistory & Hops & _); [lia|lia|exact Hsome|exact Hcap|].
  fold w' in Hhistory. rewrite Hhistory.
  unfold last_n. cbn [vectorstore w] in Hops.
  change (vectorstore w) with (@None string) in Hops.
  destruct news as [|m1 [|m2 [|m3 news]]]; try discriminate Hops.
  injection Hops as Hop1 Hop2.
  assert (Hops : operation <$> metrics_history w = ["setup_embeddings"])
    by (vm_compute; reflexivity).
  assert (Hlen : length (metrics_history w) = 1) by (vm_compute; reflexivity).
  replace (length (metrics_history w ++ [m1; m2]) - Z.to_nat (max_history w))
    with 0.
  - rewrite drop_0, fmap_app, Hops. cbn. rewrite Hop1, Hop2. reflexivity.
  - rewrite length_app, Hlen. change (max_history w) with 100%Z. reflexivity.
Defined.

(** Two keywords of four words: the word counted twice, then the first
    of the two counted once; the other is left out. *)
Lemma extract_keywords_most_frequent_witness :
  let chunk := "beta alpha beta gamma" in
  let keywords := @SmartTextSplitter._extract_keywords Reference.runtime chunk 2 in
  let words := @found_words Reference.runtime chunk in
  keywords = ["beta"; "alpha"]
  ∧ ("gamma" ∈ words ∧ @counted "gamma" = true ∧ "gamma" ∉ keywords)
  ∧ outranks words "beta" "alpha"
  ∧ outranks words "alpha" "gamma".
Proof.
  intros chunk keywords words.
  assert (Hkeywords : keywords = ["beta"; "alpha"]) by (vm_compute; reflexivity).
  assert (Hin : "gamma" ∈ words).
  { apply list_elem_of_lookup. exists 3. vm_compute. reflexivity. }
  assert (Hcounted : @counted "gamma" = true) by (vm_compute; reflexivity).
  assert (Hout : "gamma" ∉ keywords).
  { rewrite Hkeywords. intros Hg.
    apply elem_of_cons in Hg as [Hg|Hg]; [discriminate Hg|].
    apply elem_of_cons in Hg as [Hg|Hg]; [discriminate Hg|].
    by apply elem_of_nil in Hg. }
  destruct (@extract_keywords_most_frequent Reference.runtime chunk 2)
    as [Horder Hleft].
  split; [exact Hkeywords|]. split; [by split_and!|]. split.
  - apply (Horder 0 1); [lia|vm_compute; reflexivity|vm_compute; reflexivity].
  - destruct (Hleft "gamma" Hin Hcounted Hout) as [_ Hall].
    apply Hall. change ("alpha" ∈ keywords). rewrite Hkeywords. right. left.
Defined.

(** The empty query. *)
Lemma search_rejects_query_witness :
  let env := Reference.environment [] [] in
  @refused_question Reference.runtime EmptyString
  ∧ ∃ msg,
      @EnhancedVectorStoreManager.search_with_metadata Reference.runtime env
        EmptyString 3 Reference.boot
      = (inl (ValueError ("Requête invalide: " +:+ msg)), Reference.boot).
Proof.
  intros env.
  assert (Hrefused : @refused_question Reference.runtime EmptyString)
    by (by left).
  destruct (@search_rejects_query Reference.runtime env EmptyString 3
              Reference.boot) as [Hraise _].
  split; [exact Hrefused|exact (Hraise Hrefused)].
Defined.

(** A store whose directory cannot be made. *)
Lemma get_retriever_opens_or_raises_witness :
  let env := Reference.environment [] [Some (Exception "OSError" "disk")] in
  let w := (@EnhancedVectorStoreManager.__init__ env Reference.boot).2 in
  (vectorstore w = None ∧ @can_open env w = false)
  ∧ ∃ w',
      @EnhancedVectorStoreManager.get_retriever env 3 w
      = (inl (ValueError
                "Impossible d'initialiser le VectorStore pour le retriever"),
         w')
      ∧ vectorstore w' = None.
Proof.
  intros env w.
  assert (Hnone : vectorstore w = None) by (vm_compute; reflexivity).
  assert (Hshut : @can_open env w = false) by (vm_compute; reflexivity).
  destruct (@get_retriever_opens_or_raises env 3 w) as (_ & _ & Hraise).
  destruct (Hraise Hnone Hshut) as (w' & Hrun & Hvs & _).
  split; [by split|]. exists w'. by split.
Defined.

(** A store that opens, and then fails when it has written the one
    chunk of the text: the add raises what the store raises, and the
    chunk is in the collection. *)
Lemma add_propagates_store_failure_witness :
  let e := Exception "OSError" "disk full" in
  let env :=
    Reference.interrupted [0]
      (Reference.environment [] [None; None; None; Some e]) in
  let w := (@EnhancedVectorStoreManager.__init__ env Reference.boot).2 in
  let documents :=
    @SmartTextSplitter.split_documents_with_metadata Reference.runtime
      "Hello world" "a.txt" 1000 200 in
  (@honest env ∧ @add_fails_with env e w ∧ documents ≠ [])
  ∧ ∃ w',
      @EnhancedVectorStoreManager.add_documents_enhanced Reference.runtime env
        "Hello world" "a.txt" 1000 200 w = (inl e, w')
      ∧ EnhancedVectorStoreManager.entries w Config.COLLECTION_NAME = []
      ∧ entry_content
        <$> EnhancedVectorStoreManager.entries w' Config.COLLECTION_NAME
        = ["Hello world"]
      ∧ (success <$> last (metrics_history w')) = Some false.
Proof.
  intros e env w documents.
  assert (Hhonest : @honest env).
  { intros n texts v. cbn. by destruct n. }
  assert (Hfails : @add_fails_with env e w).
  { split; [reflexivity|]. change (vectorstore w) with (@None string).
    split; [|reflexivity]. intros i Hi.
    change (store_ops w) with 0. rewrite Nat.add_0_r.
    destruct i as [|[|[|i]]]; [reflexivity..|lia]. }
  assert (Hsome : documents ≠ []).
  { intros Hnone. apply (f_equal length) in Hnone. vm_compute in Hnone.
    discriminate. }
  split; [by split_and!|].
  destruct (@add_propagates_store_failure Reference.runtime env
              "Hello world" "a.txt" 1000 200 w e Hhonest Hfails)
    as (metrics & vectors & w' & Hrun & Hlen & Hent & _ & _ & _ & Hfailed & _
        & Hlast);
    [lia|lia|exact Hsome|].
  exists w'. split; [exact Hrun|]. split; [reflexivity|]. split.
  - change (target w) with Config.COLLECTION_NAME in Hent. rewrite Hent.
    change (EnhancedVectorStoreManager.entries w Config.COLLECTION_NAME)
      with (@nil StoredEntry).
    destruct vectors as [|v [|v' vectors]];
      [discriminate Hlen|reflexivity|discriminate Hlen].
  - rewrite Hlast by (change (max_history w) with 100%Z; lia).
    cbn. by rewrite Hfailed.
Defined.

(** A document is ingested and then searched: the one result is its
    chunk. *)
Lemma search_after_ingestion_witness :
  let env := Reference.environment [] [] in
  let w := (@EnhancedVectorStoreManager.__init__ env Reference.boot).2 in
  let documents :=
    @SmartTextSplitter.split_documents_with_metadata Reference.runtime
      "Hello world" "a.txt" 1000 (Z.max 50 (1000 / 5)) in
  (@honest env ∧ embeddings w = true ∧ @store_works env 5 w ∧ documents ≠ []
   ∧ (@InputValidator.validate_question Reference.runtime "what is this").1 = true)
  ∧ ∃ info w1 results w2,
      (@EnhancedVectorStoreManager.reset_collection env Reference.platform
         Config.COLLECTION_NAME;;
       @EnhancedVectorStoreManager.add_documents_enhanced Reference.runtime env
         "Hello world" "a.txt" 1000 (Z.max 50 (1000 / 5))) w
      = (inr info, w1)
      ∧ @EnhancedVectorStoreManager.search_with_metadata Reference.runtime env
          "what is this" 3 w1 = (inr results, w2)
      ∧ content <$> results = ["Hello world"]
      ∧ Forall (λ r, result_metadata r !! "filename" = Some (VStr "a.txt")) results.
Proof.
  intros env w documents.
  assert (Hhonest : @honest env).
  { intros n texts v. cbn. by destruct n. }
  assert (Hem : embeddings w = true) by (vm_compute; reflexivity).
  assert (Hworks : @store_works env 5 w).
  { intros i _.
    change (nth (i + store_ops w) [] None = (None : option exn)).
    by destruct (i + store_ops w). }
  assert (Hsome : documents ≠ []).
  { intros Hnone. apply (f_equal length) in Hnone. vm_compute in Hnone.
    discriminate. }
  assert (Hvalid :
    (@InputValidator.validate_question Reference.runtime "what is this").1 = true).
  { vm_compute. reflexivity. }
  split; [by split_and!|].
  destruct (@search_after_ingestion Reference.runtime env Reference.platform
              "Hello world" "a.txt" 1000 "what is this" 3 w Hhonest Hem Hworks)
    as (info & w1 & results & w2 & Hingest & Hsearch & Hall);
    [reflexivity|lia|exact Hsome|exact Hvalid|].
  exists info, w1, results, w2. split; [exact Hingest|]. split; [exact Hsearch|].
  split.
  - apply (f_equal snd) in Hingest. cbn [snd] in Hingest. subst w1.
    apply (f_equal fst) in Hsearch. cbn [fst] in Hsearch.
    vm_compute in Hsearch. injection Hsearch as <-. reflexivity.
  - eapply Forall_impl; [exact Hall|]. by intros r [_ Hname].
Defined.
